(** * crab-pot: the command-line client of the log-schema registry

    A shallow embedding of [src/api/main.py], [src/api/client.py] and
    [src/api/python-mig/main.py], and the properties of its rendering and
    command-dispatch layer.

    Conventions of the embedding.
    - A Python [str] is the list of its code points ([pystr]); [len] is
      [length] and the slice [s[:n]] is [firstn n s].
    - A decoded JSON document is a [json] value; a Python [dict] is an
      association list in insertion order whose keys are pairwise distinct
      (what [json.loads] builds), read with [dict_get].
    - A command runs in the monad [M]: it threads the console output and the
      log of HTTP requests, and ends by returning or by raising an exception
      ([typer.Exit] is one of them).
    - The console records the calls of [console.print] that rich went
      through with: a line is recorded as the markup it was given, a table
      with its cells.  What rich draws from the markup (the text without
      its style tags, emoji codes replaced, long lines wrapped) is not
      modelled.  A call that rich refuses with a markup error records
      nothing and raises.  The output stream is taken to write every
      character.
    - What the third-party libraries decide on their own (pydantic's scalar
      coercions, the Unicode table behind [repr], httpx's error text, the
      style names rich knows) is the record [Runtime]; the network is a
      function from requests to replies, one of which is httpx refusing to
      build the request. *)

From Stdlib Require Import List String Ascii ZArith NArith Lia Bool Permutation.
From Stdlib Require Import Decimal DecimalN.
Import ListNotations.
Local Open Scope list_scope.
Set Warnings "-register-all".

(* ================================================================== *)
(** * Text                                                              *)
(* ================================================================== *)

Definition pystr := list N.

(** A literal of the source, code point by code point. *)
Definition u (s : string) : pystr := map N_of_ascii (list_ascii_of_string s).

Fixpoint str_eqb (a b : pystr) : bool :=
  match a, b with
  | [], [] => true
  | x :: a', y :: b' => N.eqb x y && str_eqb a' b'
  | _, _ => false
  end.

(** [sep.join(parts)] *)
Fixpoint join (sep : pystr) (parts : list pystr) : pystr :=
  match parts with
  | [] => []
  | [p] => p
  | p :: rest => p ++ sep ++ join sep rest
  end.

Fixpoint is_prefix (p s : pystr) : bool :=
  match p, s with
  | [], _ => true
  | x :: p', y :: s' => N.eqb x y && is_prefix p' s'
  | _ :: _, [] => false
  end.

(** [p in s] for two strings: [p] occurs in [s] as a contiguous run. *)
Fixpoint str_contains (p s : pystr) : bool :=
  is_prefix p s ||
  match s with
  | [] => false
  | _ :: s' => str_contains p s'
  end.

(** ** Numbers as text *)

Fixpoint uint_digits (d : Decimal.uint) : pystr :=
  match d with
  | Nil => []
  | D0 r => 48%N :: uint_digits r
  | D1 r => 49%N :: uint_digits r
  | D2 r => 50%N :: uint_digits r
  | D3 r => 51%N :: uint_digits r
  | D4 r => 52%N :: uint_digits r
  | D5 r => 53%N :: uint_digits r
  | D6 r => 54%N :: uint_digits r
  | D7 r => 55%N :: uint_digits r
  | D8 r => 56%N :: uint_digits r
  | D9 r => 57%N :: uint_digits r
  end.

(** [str(n)] for a natural number. *)
Definition str_of_N (n : N) : pystr := uint_digits (N.to_uint n).

Definition str_of_nat (n : nat) : pystr := str_of_N (N.of_nat n).

(** [str(z)] for an [int]. *)
Definition str_of_Z (z : Z) : pystr :=
  match z with
  | Z0 => u "0"
  | Zpos p => str_of_N (Npos p)
  | Zneg p => u "-" ++ str_of_N (Npos p)
  end.

(** ['%0<w>d' % n]: zero padding on the left up to width [w]. *)
Definition zero_pad (w : nat) (s : pystr) : pystr :=
  repeat 48%N (w - List.length s) ++ s.

Definition hex_digit (d : N) : N :=
  if N.ltb d 10 then (48 + d)%N else (87 + d)%N.

(** The [k] low hexadecimal digits of [n], most significant first. *)
Fixpoint hex_fixed (k : nat) (n : N) : pystr :=
  match k with
  | O => []
  | S k' => hex_fixed k' (N.shiftr n 4) ++ [hex_digit (N.land n 15)]
  end.

(* ================================================================== *)
(** * JSON values and Python's view of them                             *)
(* ================================================================== *)

(** A JSON number with a fraction or an exponent is carried by its Python
    [repr]: the client never computes with it, it only prints it. *)
Inductive json : Type :=
| JNull
| JBool (b : bool)
| JInt (z : Z)
| JFloat (repr : pystr)
| JStr (s : pystr)
| JList (l : list json)
| JDict (d : list (pystr * json)).

Definition dict := list (pystr * json).

(** [d.get(k)], [None] when the key is absent. *)
Fixpoint dict_get (k : pystr) (d : dict) : option json :=
  match d with
  | [] => None
  | (k', v) :: d' => if str_eqb k k' then Some v else dict_get k d'
  end.

(** [k in d] *)
Definition dict_has (k : pystr) (d : dict) : bool :=
  match dict_get k d with Some _ => true | None => false end.

(** [d.get(k, default)] *)
Definition dict_get_default (k : pystr) (default : json) (d : dict) : json :=
  match dict_get k d with Some v => v | None => default end.

Definition dict_keys (d : dict) : list pystr := map fst d.

(** The truth value Python gives a value in [if v] and [not v]. *)
Definition py_truthy (j : json) : bool :=
  match j with
  | JNull => false
  | JBool b => b
  | JInt z => negb (Z.eqb z 0)
  | JFloat r => negb (str_eqb r (u "0.0") || str_eqb r (u "-0.0"))
  | JStr s => match s with [] => false | _ => true end
  | JList l => match l with [] => false | _ => true end
  | JDict d => match d with [] => false | _ => true end
  end.

Definition str_truthy (s : pystr) : bool :=
  match s with [] => false | _ => true end.

(** A command-line option left out is [None]; [if opt] holds when it was
    given and is not the empty string. *)
Definition opt_truthy (o : option pystr) : bool :=
  match o with Some s => str_truthy s | None => false end.

(** What [for x in v] runs through; [None] when [v] is not iterable. *)
Definition py_iter (j : json) : option (list json) :=
  match j with
  | JList l => Some l
  | JDict d => Some (map (fun kv => JStr (fst kv)) d)
  | JStr s => Some (map (fun c => JStr [c]) s)
  | _ => None
  end.

Fixpoint json_eqb (a b : json) : bool :=
  match a, b with
  | JNull, JNull => true
  | JBool x, JBool y => Bool.eqb x y
  | JInt x, JInt y => Z.eqb x y
  | JFloat x, JFloat y => str_eqb x y
  | JStr x, JStr y => str_eqb x y
  | JList x, JList y =>
      (fix go (l1 l2 : list json) : bool :=
         match l1, l2 with
         | [], [] => true
         | v1 :: l1', v2 :: l2' => json_eqb v1 v2 && go l1' l2'
         | _, _ => false
         end) x y
  | _, _ => false
  end.

(** [s in v] for a string [s]; [None] when [v] supports no membership test. *)
Definition py_contains_str (s : pystr) (v : json) : option bool :=
  match v with
  | JList l => Some (existsb (fun x => json_eqb x (JStr s)) l)
  | JDict d => Some (dict_has s d)
  | JStr t => Some (str_contains s t)
  | _ => None
  end.

(** ** [repr] and [str] *)

(** The single quote, the double quote and the backslash. *)
Definition quote1 : N := 39%N.
Definition quote2 : N := 34%N.
Definition backslash : N := 92%N.

Definition has_char (c : N) (s : pystr) : bool := existsb (N.eqb c) s.

(** The escape of one character inside a string literal quoted by [q];
    [printable] is the Unicode table's verdict above ASCII. *)
Definition repr_char (printable : N -> bool) (q c : N) : pystr :=
  if N.eqb c q || N.eqb c backslash then [backslash; c]
  else if N.eqb c 9 then u "\t"
  else if N.eqb c 10 then u "\n"
  else if N.eqb c 13 then u "\r"
  else if N.ltb c 32 || N.eqb c 127 then u "\x" ++ hex_fixed 2 c
  else if N.ltb c 127 then [c]
  else if printable c then [c]
  else if N.leb c 255 then u "\x" ++ hex_fixed 2 c
  else if N.leb c 65535 then u "\u" ++ hex_fixed 4 c
  else u "\U" ++ hex_fixed 8 c.

(** [repr(s)] for a string: single quotes unless [s] holds one and no
    double quote. *)
Definition repr_str (printable : N -> bool) (s : pystr) : pystr :=
  let q := if has_char quote1 s && negb (has_char quote2 s)
           then quote2 else quote1 in
  [q] ++ flat_map (repr_char printable q) s ++ [q].

Fixpoint py_repr (printable : N -> bool) (j : json) : pystr :=
  match j with
  | JNull => u "None"
  | JBool true => u "True"
  | JBool false => u "False"
  | JInt z => str_of_Z z
  | JFloat r => r
  | JStr s => repr_str printable s
  | JList l => u "[" ++ join (u ", ") (map (py_repr printable) l) ++ u "]"
  | JDict d =>
      u "{" ++
      join (u ", ")
           (map (fun kv : pystr * json =>
                   let (k, v) := kv in
                   repr_str printable k ++ u ": " ++ py_repr printable v) d)
      ++ u "}"
  end.

(** [str(v)], also what an f-string field [{v}] inserts. *)
Definition py_str (printable : N -> bool) (j : json) : pystr :=
  match j with
  | JStr s => s
  | _ => py_repr printable j
  end.

(** ** [json.dumps(v, indent=2)] *)

Definition dumps_char (c : N) : pystr :=
  if N.eqb c quote2 then [backslash; quote2]
  else if N.eqb c backslash then [backslash; backslash]
  else if N.eqb c 10 then u "\n"
  else if N.eqb c 13 then u "\r"
  else if N.eqb c 9 then u "\t"
  else if N.eqb c 8 then u "\b"
  else if N.eqb c 12 then u "\f"
  else if N.leb 32 c && N.leb c 126 then [c]
  else if N.leb c 65535 then u "\u" ++ hex_fixed 4 c
  else (* a surrogate pair *)
    let v := (c - 65536)%N in
    u "\u" ++ hex_fixed 4 (55296 + N.shiftr v 10)
    ++ u "\u" ++ hex_fixed 4 (56320 + N.land v 1023).

Definition dumps_str (s : pystr) : pystr :=
  [quote2] ++ flat_map dumps_char s ++ [quote2].

(** A float that is not a finite number, by its [repr]. *)
Definition non_finite (r : pystr) : bool :=
  str_eqb r (u "inf") || str_eqb r (u "-inf") || str_eqb r (u "nan").

(** A float as [json.dumps] writes it: its [repr], but [Infinity],
    [-Infinity] and [NaN] for the three values JSON has no number for. *)
Definition dumps_float (r : pystr) : pystr :=
  if str_eqb r (u "inf") then u "Infinity"
  else if str_eqb r (u "-inf") then u "-Infinity"
  else if str_eqb r (u "nan") then u "NaN"
  else r.

Definition newline : pystr := [10%N].
Definition spaces (n : nat) : pystr := repeat 32%N n.

Fixpoint dumps_indent (level : nat) (j : json) : pystr :=
  let inner := spaces (2 * S level) in
  let sep := u "," ++ newline ++ inner in
  match j with
  | JNull => u "null"
  | JBool true => u "true"
  | JBool false => u "false"
  | JInt z => str_of_Z z
  | JFloat r => dumps_float r
  | JStr s => dumps_str s
  | JList [] => u "[]"
  | JList l =>
      u "[" ++ newline ++ inner
      ++ join sep (map (dumps_indent (S level)) l)
      ++ newline ++ spaces (2 * level) ++ u "]"
  | JDict [] => u "{}"
  | JDict d =>
      u "{" ++ newline ++ inner
      ++ join sep
           (map (fun kv : pystr * json =>
                   let (k, v) := kv in
                   dumps_str k ++ u ": " ++ dumps_indent (S level) v) d)
      ++ newline ++ spaces (2 * level) ++ u "}"
  end.

Definition json_dumps_indent2 (j : json) : pystr := dumps_indent 0 j.

(** ** pydantic's JSON mode *)

(** What [model_dump(mode="json")] makes of a value of type [Any] that came
    out of [json.loads]: a float that is not finite becomes [None], at any
    depth; everything else stays. *)
Fixpoint json_mode (j : json) : json :=
  match j with
  | JFloat r => if non_finite r then JNull else JFloat r
  | JList l => JList (map json_mode l)
  | JDict d => JDict (map (fun kv : pystr * json =>
                             let (k, v) := kv in (k, json_mode v)) d)
  | _ => j
  end.

(** A value without a float that is not finite. *)
Fixpoint finite (j : json) : bool :=
  match j with
  | JFloat r => negb (non_finite r)
  | JList l => forallb finite l
  | JDict d => forallb (fun kv : pystr * json => finite (snd kv)) d
  | _ => true
  end.

(* ================================================================== *)
(** * Identifiers and timestamps                                        *)
(* ================================================================== *)

(** A [uuid.UUID] is its 128-bit integer ([0 <= uuid_int < 2^128], which
    the class enforces when one is built). *)
Record UUID : Type := { uuid_int : N }.

(** ['%032x' % self.int] *)
Definition uuid_hex (x : UUID) : pystr := hex_fixed 32 (uuid_int x).

(** [str(x)]: the canonical form, groups of 8-4-4-4-12 digits. *)
Definition uuid_str (x : UUID) : pystr :=
  let h := uuid_hex x in
  firstn 8 h ++ u "-" ++ firstn 4 (skipn 8 h) ++ u "-"
  ++ firstn 4 (skipn 12 h) ++ u "-" ++ firstn 4 (skipn 16 h) ++ u "-"
  ++ skipn 20 h.

(** A [datetime]; [tz] is the offset from UTC in minutes, [None] for a
    naive value. *)
Record datetime : Type := {
  year : N; month : N; day : N;
  hour : N; minute : N; second : N; microsecond : N;
  tz : option Z
}.

Definition dd (w : nat) (n : N) : pystr := zero_pad w (str_of_N n).

(** [t.strftime("%Y-%m-%d %H:%M:%S")]: the C library writes the year as
    it is, without padding (year 999 gives [999-...]); the other fields
    are padded to two digits. *)
Definition strftime_ymd_hms (t : datetime) : pystr :=
  str_of_N (year t) ++ u "-" ++ dd 2 (month t) ++ u "-" ++ dd 2 (day t)
  ++ u " " ++ dd 2 (hour t) ++ u ":" ++ dd 2 (minute t)
  ++ u ":" ++ dd 2 (second t).

Definition tz_suffix (o : option Z) : pystr :=
  match o with
  | None => []
  | Some 0%Z => u "Z"
  | Some m =>
      let a := Z.to_N (Z.abs m) in
      (if Z.ltb m 0 then u "-" else u "+")
      ++ dd 2 (a / 60)%N ++ u ":" ++ dd 2 (a mod 60)%N
  end.

(** The ISO 8601 text a timestamp gets in [model_dump(mode="json")]. *)
Definition datetime_iso (t : datetime) : pystr :=
  dd 4 (year t) ++ u "-" ++ dd 2 (month t) ++ u "-" ++ dd 2 (day t)
  ++ u "T" ++ dd 2 (hour t) ++ u ":" ++ dd 2 (minute t)
  ++ u ":" ++ dd 2 (second t)
  ++ (if N.eqb (microsecond t) 0 then [] else u "." ++ dd 6 (microsecond t))
  ++ tz_suffix (tz t).

(* ================================================================== *)
(** * The console and the network                                       *)
(* ================================================================== *)

(** What [rich] is asked to draw.  A [Text] is a string with console
    markup, a [Syntax] is code to highlight (no markup).  A table keeps
    its title, its column headers and its rows, all of which are markup
    when they are strings; colours and widths are left out. *)
Inductive renderable : Type :=
| Text (s : pystr)
| Syntax (code : pystr)
| Table (title : option pystr) (columns : list pystr)
        (rows : list (list renderable)).

(** A call of the console that went through, with what it was given:
    for a line, its markup, style tags included. *)
Inductive event : Type :=
| Print (r : renderable)      (* console.print(r) *)
| PrintJson (data : json).    (* console.print_json(data=data) *)

Inductive method : Type := GET | POST.

Record request : Type := {
  meth : method;
  path : pystr;
  kwargs : dict
}.

(** A response: its status, its body as text, and the body decoded as JSON
    when it is JSON. *)
Record response : Type := {
  status_code : Z;
  text : pystr;
  json_body : option json
}.

(** What happens to a request: a response comes back; or the request is
    sent and no response comes back (timeout, refused connection, failed
    name resolution), with the cause; or httpx refuses to build it and
    sends nothing ([httpx.InvalidURL]: a control character in the path, a
    component that is too long). *)
Inductive reply : Type :=
| Reply (r : response)
| Unreachable (cause : pystr)
| Refused.

Definition server := request -> reply.

Inductive exn : Type :=
| Exit (code : Z)                               (* typer.Exit *)
| HTTPStatusError (msg : pystr) (r : response)  (* httpx *)
| RequestError (cause : pystr)                  (* httpx *)
| JSONDecodeError
| ValidationError                               (* pydantic *)
| NotRenderableError                            (* rich *)
| MarkupError                                   (* rich *)
| InvalidURL                                    (* httpx, not an HTTPError *)
| TypeError
| KeyError
| IndexError
| AttributeError.

(** [isinstance(e, httpx.HTTPError)] *)
Definition is_HTTPError (e : exn) : bool :=
  match e with
  | HTTPStatusError _ _ | RequestError _ => true
  | _ => false
  end.

(** [str(e)] for the two httpx errors. *)
Definition exn_str (e : exn) : pystr :=
  match e with
  | HTTPStatusError msg _ => msg
  | RequestError cause => cause
  | _ => []
  end.

(** The behaviour of the libraries that the client does not decide. *)
Record Runtime : Type := {
  (** [str.isprintable] above ASCII, used by [repr] *)
  isprintable : N -> bool;
  (** pydantic's validators of the scalar field types *)
  validate_uuid : json -> option UUID;
  validate_datetime : json -> option datetime;
  validate_int : json -> option Z;
  (** the message httpx gives the error of a failed status *)
  status_message : request -> response -> pystr;
  (** rich's [Style.normalize]: the name under which a style tag is kept
      and looked up *)
  style_normalize : pystr -> pystr;
  (** evaluating the parameters of a handler tag [[@name=parameters]]
      fails *)
  handler_fails : pystr -> bool
}.

(* ================================================================== *)
(** * Console markup                                                    *)
(* ================================================================== *)

(** [console.print] reads a string as markup ([rich.markup.render]).  A
    tag is an opening bracket, one of the characters [a-z # / @], then
    anything but an opening bracket up to the first closing bracket; an
    odd number of backslashes before it makes it plain text.  An opening
    tag goes on a stack under its normalized name; a closing tag [[/name]]
    takes the innermost open tag of that name off the stack, [[/]] takes
    the innermost one, and a closing tag that finds none is a
    [MarkupError].  Tags left open are closed at the end of the string. *)

(** The characters [str.isspace] holds of; [str.strip] removes them. *)
Definition is_space (c : N) : bool :=
  (N.leb 9 c && N.leb c 13) || (N.leb 28 c && N.leb c 32)
  || N.eqb c 133 || N.eqb c 160 || N.eqb c 5760
  || (N.leb 8192 c && N.leb c 8202)
  || N.eqb c 8232 || N.eqb c 8233 || N.eqb c 8239 || N.eqb c 8287
  || N.eqb c 12288.

Fixpoint lstrip (s : pystr) : pystr :=
  match s with
  | c :: s' => if is_space c then lstrip s' else s
  | [] => []
  end.

(** [s.strip()] *)
Definition py_strip (s : pystr) : pystr :=
  List.rev (lstrip (List.rev (lstrip s))).

(** An open tag on rich's stack: its normalized name and what follows
    the first [=], if any. *)
Record tag : Type := {
  tag_name : pystr;
  tag_parameters : option pystr
}.

(** [text.partition("=")] *)
Fixpoint partition_eq (s : pystr) : pystr * option pystr :=
  match s with
  | [] => ([], None)
  | c :: s' =>
      if N.eqb c 61 then ([], Some s')
      else let (a, b) := partition_eq s' in (c :: a, b)
  end.

(** [pop_style]: take the innermost open tag called [name] off the
    stack. *)
Fixpoint pop_style (name : pystr) (stack : list tag)
  : option (tag * list tag) :=
  match stack with
  | [] => None
  | t :: rest =>
      if str_eqb (tag_name t) name then Some (t, rest)
      else match pop_style name rest with
           | Some (found, rest') => Some (found, t :: rest')
           | None => None
           end
  end.

(** Closing a handler tag [[@name=parameters]] evaluates its parameters;
    any other tag closes without more ado. *)
Definition closes_cleanly (R : Runtime) (open_tag : tag) : bool :=
  match tag_name open_tag, tag_parameters open_tag with
  | c :: _, Some (p :: ps) =>
      negb (N.eqb c 64 && handler_fails R (p :: ps))
  | _, _ => true
  end.

(** One tag met by the renderer; [None] is a [MarkupError]. *)
Definition apply_tag (R : Runtime) (tag_text : pystr) (stack : list tag)
  : option (list tag) :=
  let (name, parameters) := partition_eq tag_text in
  let opening :=
    Some ({| tag_name := style_normalize R name;
             tag_parameters := parameters |} :: stack) in
  match name with
  | c :: closing =>
      if N.eqb c 47 then
        match py_strip closing with
        | [] =>
            match stack with
            | t :: rest => if closes_cleanly R t then Some rest else None
            | [] => None
            end
        | style_name =>
            match pop_style (style_normalize R style_name) stack with
            | Some (t, rest) => if closes_cleanly R t then Some rest else None
            | None => None
            end
        end
      else opening
  | [] => opening
  end.

(** The characters a tag can start with: [a-z # / @]. *)
Definition is_tag_start (c : N) : bool :=
  (N.leb 97 c && N.leb c 122) || N.eqb c 35 || N.eqb c 47 || N.eqb c 64.

(** Where the renderer is in the string. *)
Inductive scan_mode : Type :=
| Outside                                 (* in plain text *)
| Opened (escapes : nat)                  (* just after an opening bracket *)
| Inside (body : pystr) (escapes : nat).  (* in a tag, [body] reversed *)

(** The renderer between two characters: [backslashes] is the length of
    the run of backslashes just read, [escapes] the length of the run
    before the bracket that opened the tag. *)
Record scanner : Type := {
  mode : scan_mode;
  backslashes : nat;
  open_tags : list tag
}.

Definition scan_start : scanner :=
  {| mode := Outside; backslashes := 0; open_tags := [] |}.

Definition scan_char (R : Runtime) (s : scanner) (c : N) : option scanner :=
  let run := if N.eqb c backslash then S (backslashes s) else 0 in
  let plain := Some {| mode := Outside; backslashes := run;
                       open_tags := open_tags s |} in
  let opened := Some {| mode := Opened (backslashes s); backslashes := 0;
                        open_tags := open_tags s |} in
  match mode s with
  | Outside => if N.eqb c 91 then opened else plain
  | Opened escapes =>
      if is_tag_start c then
        Some {| mode := Inside [c] escapes; backslashes := 0;
                open_tags := open_tags s |}
      else if N.eqb c 91 then opened
      else plain
  | Inside body escapes =>
      if N.eqb c 93 then
        if Nat.odd escapes then
          Some {| mode := Outside; backslashes := 0;
                  open_tags := open_tags s |}
        else
          match apply_tag R (List.rev body) (open_tags s) with
          | Some stack =>
              Some {| mode := Outside; backslashes := 0; open_tags := stack |}
          | None => None
          end
      else if N.eqb c 91 then opened
      else Some {| mode := Inside (c :: body) escapes; backslashes := run;
                   open_tags := open_tags s |}
  end.

(** The renderer run over a string from a given state; [None] once a
    closing tag has failed. *)
Definition markup_scan (R : Runtime) (s : pystr) (st : option scanner)
  : option scanner :=
  fold_left (fun st c => match st with
                         | Some sc => scan_char R sc c
                         | None => None
                         end) s st.

(** Rendering the markup [s] raises [MarkupError]. *)
Definition markup_error (R : Runtime) (s : pystr) : bool :=
  match markup_scan R s (Some scan_start) with
  | Some _ => false
  | None => true
  end.

(** A string without an opening bracket: it holds no tag. *)
Definition bracket_free (s : pystr) : bool :=
  forallb (fun c => negb (N.eqb c 91)) s.

(** Rendering a renderable raises [MarkupError]: one of the strings of a
    table (title, header, cell) does. *)
Fixpoint renderable_markup_error (R : Runtime) (r : renderable) : bool :=
  match r with
  | Text s => markup_error R s
  | Syntax _ => false
  | Table title columns rows =>
      match title with Some s => markup_error R s | None => false end
      || existsb (markup_error R) columns
      || existsb (existsb (renderable_markup_error R)) rows
  end.

(* ================================================================== *)
(** * The run of a command                                              *)
(* ================================================================== *)

Record world : Type := {
  console : list event;
  requests : list request
}.

Definition start : world := {| console := []; requests := [] |}.

Inductive result (A : Type) : Type :=
| Ok (a : A)
| Raised (e : exn).
Arguments Ok {A} a.
Arguments Raised {A} e.

Definition M (A : Type) : Type := world -> result A * world.

Definition ret {A} (a : A) : M A := fun w => (Ok a, w).

Definition bind {A B} (m : M A) (k : A -> M B) : M B :=
  fun w =>
    match m w with
    | (Ok a, w') => k a w'
    | (Raised e, w') => (Raised e, w')
    end.

Definition raise {A} (e : exn) : M A := fun w => (Raised e, w).

(** [try: body  except <handles>: handler] *)
Definition try_except {A} (body : M A) (handles : exn -> bool)
           (handler : exn -> M A) : M A :=
  fun w =>
    match body w with
    | (Raised e, w') => if handles e then handler e w' else (Raised e, w')
    | ok => ok
    end.

Declare Scope cmd_scope.
Delimit Scope cmd_scope with cmd.
Notation "x <- m ;; k" := (bind m (fun x => k))
  (at level 61, m at next level, right associativity) : cmd_scope.
Notation "m ;; k" := (bind m (fun _ => k))
  (at level 61, right associativity) : cmd_scope.

(** An operation of the option kind lifted into a command, raising [e]
    when it has no value. *)
Definition or_raise {A} (e : exn) (o : option A) : M A :=
  match o with Some a => ret a | None => raise e end.

Definition emit (e : event) : M unit :=
  fun w => (Ok tt, {| console := console w ++ [e]; requests := requests w |}).

(** [console.print(s)] for a string: it is rendered as markup, which can
    fail, and then shown. *)
Definition console_print (R : Runtime) (s : pystr) : M unit :=
  if markup_error R s then raise MarkupError else emit (Print (Text s)).

(** [console.print(table)]: the strings of the table are rendered as
    markup when the table is drawn; nothing is shown if one fails. *)
Definition console_print_table (R : Runtime) (t : renderable) : M unit :=
  if renderable_markup_error R t then raise MarkupError else emit (Print t).

(** [console.print_json(data=data)]: the document is shown as it is, no
    markup is read. *)
Definition console_print_json (data : json) : M unit := emit (PrintJson data).

(** One request through [httpx.Client]: httpx builds it, or refuses to;
    once built it is logged, then answered. *)
Definition http_request (srv : server) (req : request) : M response :=
  fun w =>
    let w' := {| console := console w; requests := requests w ++ [req] |} in
    match srv req with
    | Reply r => (Ok r, w')
    | Unreachable cause => (Raised (RequestError cause), w')
    | Refused => (Raised InvalidURL, w)
    end.

Definition is_success (r : response) : bool :=
  Z.leb 200 (status_code r) && Z.leb (status_code r) 299.

(** [response.raise_for_status()] *)
Definition raise_for_status (R : Runtime) (req : request) (r : response)
  : M unit :=
  if is_success r then ret tt
  else raise (HTTPStatusError (status_message R req r) r).

(** [response.json()] *)
Definition response_json (r : response) : M json :=
  or_raise JSONDecodeError (json_body r).

(** The exit status of the process once the command has ended. *)
Definition exit_code {A} (r : result A) : Z :=
  match r with
  | Ok _ => 0%Z
  | Raised (Exit c) => c
  | Raised _ => 1%Z
  end.

(** [table.add_row(...)] takes strings and renderables, draws [None] as
    an empty cell and refuses anything else. *)
Definition as_cell (v : json) : option renderable :=
  match v with
  | JStr s => Some (Text s)
  | JNull => Some (Text [])
  | _ => None
  end.

(** Option-valued steps in sequence. *)
Definition obind {A B} (o : option A) (k : A -> option B) : option B :=
  match o with Some a => k a | None => None end.

Declare Scope opt_scope.
Delimit Scope opt_scope with opt.
Notation "x <-? o ;; k" := (obind o (fun x => k))
  (at level 61, o at next level, right associativity) : opt_scope.

Local Open Scope opt_scope.

(** [s[:n]] *)
Definition slice_to (n : nat) (s : pystr) : pystr := firstn n s.

(** The short form of an identifier: [str(x)[:8] + "..."]. *)
Definition short_id (x : UUID) : pystr := slice_to 8 (uuid_str x) ++ u "...".

(* ================================================================== *)
(** * main.py: the domain models                                        *)
(* ================================================================== *)

(** A required field of type [str]. *)
Definition field_str (k : pystr) (d : dict) : option pystr :=
  match dict_get k d with Some (JStr s) => Some s | _ => None end.

(** A field of type [str | None] with default [None]. *)
Definition field_opt_str (k : pystr) (d : dict) : option (option pystr) :=
  match dict_get k d with
  | None | Some JNull => Some None
  | Some (JStr s) => Some (Some s)
  | Some _ => None
  end.

(** A required field of type [dict[str, Any]]. *)
Definition field_dict (k : pystr) (d : dict) : option dict :=
  match dict_get k d with Some (JDict x) => Some x | _ => None end.

(** A required field checked by one of the library's validators. *)
Definition field_with {A} (validate : json -> option A) (k : pystr) (d : dict)
  : option A :=
  match dict_get k d with Some v => validate v | None => None end.

Definition json_of_opt_str (o : option pystr) : json :=
  match o with Some s => JStr s | None => JNull end.

Module Schema.

Record t : Type := {
  id : UUID;
  name : pystr;
  version : pystr;
  description : option pystr;
  schema_definition : dict;
  created_at : datetime;
  updated_at : datetime
}.

(** [Schema.model_validate(data)]; [None] is pydantic's ValidationError.
    Keys other than the seven fields are ignored. *)
Definition model_validate (R : Runtime) (data : json) : option t :=
  match data with
  | JDict d =>
      i <-? field_with (validate_uuid R) (u "id") d ;;
      n <-? field_str (u "name") d ;;
      v <-? field_str (u "version") d ;;
      ds <-? field_opt_str (u "description") d ;;
      sd <-? field_dict (u "schema_definition") d ;;
      c <-? field_with (validate_datetime R) (u "created_at") d ;;
      up <-? field_with (validate_datetime R) (u "updated_at") d ;;
      Some {| id := i; name := n; version := v; description := ds;
              schema_definition := sd; created_at := c; updated_at := up |}
  | _ => None
  end.

Definition from_api_response := model_validate.

(** [self.model_dump(mode="json")]: the identifier and the timestamps as
    text, the schema definition in JSON mode. *)
Definition model_dump (self : t) : json :=
  JDict [ (u "id", JStr (uuid_str (id self)));
          (u "name", JStr (name self));
          (u "version", JStr (version self));
          (u "description", json_of_opt_str (description self));
          (u "schema_definition", json_mode (JDict (schema_definition self)));
          (u "created_at", JStr (datetime_iso (created_at self)));
          (u "updated_at", JStr (datetime_iso (updated_at self))) ].

Definition to_table_row (self : t) (full_id : bool)
  : pystr * pystr * pystr * pystr :=
  let schema_id := if full_id then uuid_str (id self)
                   else slice_to 8 (uuid_str (id self)) ++ u "..." in
  let description :=
    slice_to 50 (match description self with
                 | Some s => if str_truthy s then s else []
                 | None => []
                 end) in
  (schema_id, name self, version self, description).

End Schema.

Module Log.

Record t : Type := {
  id : Z;
  schema_id : UUID;
  log_data : dict;
  created_at : datetime
}.

Definition model_validate (R : Runtime) (data : json) : option t :=
  match data with
  | JDict d =>
      i <-? field_with (validate_int R) (u "id") d ;;
      s <-? field_with (validate_uuid R) (u "schema_id") d ;;
      ld <-? field_dict (u "log_data") d ;;
      c <-? field_with (validate_datetime R) (u "created_at") d ;;
      Some {| id := i; schema_id := s; log_data := ld; created_at := c |}
  | _ => None
  end.

Definition from_api_response := model_validate.

Definition model_dump (self : t) : json :=
  JDict [ (u "id", JInt (id self));
          (u "schema_id", JStr (uuid_str (schema_id self)));
          (u "log_data", json_mode (JDict (log_data self)));
          (u "created_at", JStr (datetime_iso (created_at self))) ].

(** [str(self.log_data)] *)
Definition log_data_str (R : Runtime) (self : t) : pystr :=
  py_str (isprintable R) (JDict (log_data self)).

Definition to_table_row (R : Runtime) (self : t) (full_id : bool)
  : pystr * pystr * pystr * pystr :=
  let schema_id := if full_id then uuid_str (schema_id self)
                   else slice_to 8 (uuid_str (schema_id self)) ++ u "..." in
  let data_preview :=
    if Nat.ltb 50 (List.length (log_data_str R self))
    then slice_to 50 (log_data_str R self) ++ u "..."
    else log_data_str R self in
  (str_of_Z (id self), schema_id, strftime_ymd_hms (created_at self),
   data_preview).

Definition to_table_row_expanded (self : t) (full_id : bool)
  : pystr * pystr * pystr * renderable :=
  let schema_id := if full_id then uuid_str (schema_id self)
                   else slice_to 8 (uuid_str (schema_id self)) ++ u "..." in
  let json_str := json_dumps_indent2 (JDict (log_data self)) in
  let syntax := Syntax json_str in
  (str_of_Z (id self), schema_id, strftime_ymd_hms (created_at self),
   syntax).

End Log.

(** The cells [table.add_row] receives from a row of four strings. *)
Definition text_row (row : pystr * pystr * pystr * pystr) : list renderable :=
  let '(a, b, c, d) := row in [Text a; Text b; Text c; Text d].

Definition mixed_row (row : pystr * pystr * pystr * renderable)
  : list renderable :=
  let '(a, b, c, d) := row in [Text a; Text b; Text c; d].

(* ================================================================== *)
(** * main.py: the commands                                             *)
(* ================================================================== *)

Local Open Scope cmd_scope.

(** [data.get(k, default)] on a decoded body: only a dict has [get]. *)
Definition py_get (data : json) (k : pystr) (default : json) : M json :=
  match data with
  | JDict d => ret (dict_get_default k default d)
  | _ => raise AttributeError
  end.

(** [v[0]] *)
Definition py_first (v : json) : M json :=
  match v with
  | JList (x :: _) => ret x
  | JStr (c :: _) => ret (JStr [c])
  | JList [] | JStr [] => raise IndexError
  | JDict _ => raise KeyError
  | _ => raise TypeError
  end.

(** [len(v)] *)
Definition py_len (v : json) : M nat :=
  match v with
  | JList l => ret (List.length l)
  | JStr s => ret (List.length s)
  | JDict d => ret (List.length d)
  | _ => raise TypeError
  end.

(** [[f(x) for x in xs]] where [f] may raise. *)
Fixpoint for_each {A B} (f : A -> M B) (xs : list A) : M (list B) :=
  match xs with
  | [] => ret []
  | x :: xs' => y <- f x ;; ys <- for_each f xs' ;; ret (y :: ys)
  end.

Definition when (b : bool) (m : M unit) : M unit := if b then m else ret tt.

Definition schemas_columns : list pystr :=
  [u "ID"; u "Name"; u "Version"; u "Description"].

Definition all_schemas_request : request :=
  {| meth := GET; path := u "/schemas"; kwargs := [] |}.

(** [schemas list] *)
Definition list_schemas (R : Runtime) (srv : server)
           (full json_output : bool) : M unit :=
  let req := all_schemas_request in
  response <- http_request srv req ;;
  raise_for_status R req response ;;
  data <- response_json response ;;
  schemas_data <- py_get data (u "schemas") (JList []) ;;
  if negb (py_truthy schemas_data) then
    console_print R (u "[yellow]No schemas found[/yellow]")
  else
    items <- or_raise TypeError (py_iter schemas_data) ;;
    schemas <- for_each (fun s => or_raise ValidationError
                                           (Schema.model_validate R s)) items ;;
    if json_output then
      console_print_json (JList (map Schema.model_dump schemas))
    else
      console_print_table R
        (Table (Some (u "Schemas")) schemas_columns
               (map (fun schema => text_row (Schema.to_table_row schema full))
                    schemas)).

(** The constraint lines of one property object (lines 189-204 of
    [get_schema]); the [enum] line is the only one that can raise. *)
Definition constraint_line (printable : N -> bool) (label key : pystr)
           (field_props : dict) : list pystr :=
  match dict_get key field_props with
  | Some v => [label ++ py_str printable v]
  | None => []
  end.

Definition enum_line (printable : N -> bool) (field_props : dict)
  : result (list pystr) :=
  match dict_get (u "enum") field_props with
  | Some vs =>
      match py_iter vs with
      | Some l =>
          let enum_values := join (u ", ") (map (py_str printable) l) in
          Ok [u "enum: [" ++ enum_values ++ u "]"]
      | None => Raised TypeError
      end
  | None => Ok []
  end.

Definition field_constraints (printable : N -> bool) (field_props : dict)
  : result (list pystr) :=
  match enum_line printable field_props with
  | Raised e => Raised e
  | Ok constraints =>
      Ok (constraints
          ++ constraint_line printable (u "pattern: ") (u "pattern") field_props
          ++ constraint_line printable (u "minLength: ") (u "minLength") field_props
          ++ constraint_line printable (u "maxLength: ") (u "maxLength") field_props
          ++ constraint_line printable (u "min: ") (u "minimum") field_props
          ++ constraint_line printable (u "max: ") (u "maximum") field_props
          ++ constraint_line printable (u "format: ") (u "format") field_props)
  end.

(** [constraints_str] (line 206) *)
Definition constraints_str (constraints : list pystr) : pystr :=
  match constraints with
  | [] => []
  | _ => join newline constraints
  end.

(** The mark of a required field, as the source file spells it. *)
Definition required_mark : pystr := [226%N; 339%N; 8220%N].

Definition lift_result {A} (r : result A) : M A :=
  match r with Ok a => ret a | Raised e => raise e end.

(** One turn of the loop over [properties.items()] (lines 185-208): the
    row added to the definition table. *)
Definition definition_row (printable : N -> bool) (required_fields : json)
           (field : pystr * json) : M (list renderable) :=
  let (field_name, field_props) := field in
  match field_props with
  | JDict props =>
      let field_type := dict_get_default (u "type") (JStr (u "N/A")) props in
      is_in <- or_raise TypeError (py_contains_str field_name required_fields) ;;
      let is_required := if is_in : bool then required_mark else [] in
      constraints <- lift_result (field_constraints printable props) ;;
      type_cell <- or_raise NotRenderableError (as_cell field_type) ;;
      ret [Text field_name; type_cell; Text is_required;
           Text (constraints_str constraints)]
  | _ => raise AttributeError
  end.

Definition definition_columns : list pystr :=
  [u "Field"; u "Type"; u "Required"; u "Constraints"].

(** The outer table of the detail view (lines 210-222). *)
Definition detail_table (schema : Schema.t) (def_table : renderable)
  : renderable :=
  Table (Some (u "Schema: " ++ Schema.name schema)) [u "Field"; u "Value"]
    [ [Text (u "ID"); Text (uuid_str (Schema.id schema))];
      [Text (u "Name"); Text (Schema.name schema)];
      [Text (u "Version"); Text (Schema.version schema)];
      [Text (u "Description");
       Text (match Schema.description schema with
             | Some s => if str_truthy s then s else u "N/A"
             | None => u "N/A"
             end)];
      [Text (u "Created At");
       Text (strftime_ymd_hms (Schema.created_at schema))];
      [Text (u "Updated At");
       Text (strftime_ymd_hms (Schema.updated_at schema))];
      [Text (u "Schema Definition"); def_table] ].

(** Lines 175-224 of [get_schema]: the detail view of one schema. *)
Definition schema_detail (R : Runtime) (schema : Schema.t) : M unit :=
  let schema_def := Schema.schema_definition schema in
  let properties := dict_get_default (u "properties") (JDict []) schema_def in
  let required_fields := dict_get_default (u "required") (JList []) schema_def in
  items <- match properties with
           | JDict props => ret props
           | _ => raise AttributeError
           end ;;
  def_rows <- for_each (definition_row (isprintable R) required_fields) items ;;
  let def_table := Table None definition_columns def_rows in
  console_print_table R (detail_table schema def_table).

(** The not-found message of the lookup by name (line 157). *)
Definition not_found_message (name : pystr) (version : option pystr) : pystr :=
  u "[yellow]No schema found with name '" ++ name ++ u "'"
  ++ (match version with
      | Some v => if str_truthy v then u " and version " ++ v else []
      | None => []
      end)
  ++ u "[/yellow]".

(** The warning of the lookup by name (line 165). *)
Definition ambiguity_warning (count : nat) : pystr :=
  u "[yellow]Warning: Found " ++ str_of_nat count
  ++ u " schemas, displaying the first one[/yellow]" ++ newline.

(** The query of the lookup by name (lines 146-148). *)
Definition name_params (name : pystr) (version : option pystr) : dict :=
  [(u "name", JStr name)]
  ++ match version with
     | Some v => if str_truthy v then [(u "version", JStr v)] else []
     | None => []
     end.

Definition by_id_request (schema_id : UUID) : request :=
  {| meth := GET; path := u "/schemas/" ++ uuid_str schema_id; kwargs := [] |}.

Definition by_name_request (name : pystr) (version : option pystr) : request :=
  {| meth := GET; path := u "/schemas";
     kwargs := [(u "params", JDict (name_params name version))] |}.

(** Lines 137-144: the lookup by id. *)
Definition lookup_by_id (R : Runtime) (srv : server) (schema_id : UUID)
           (version : option pystr) : M Schema.t :=
  when (opt_truthy version)
       (console_print R
          (u "[yellow]Warning: --version is ignored when using --id[/yellow]")) ;;
  let req := by_id_request schema_id in
  response <- http_request srv req ;;
  raise_for_status R req response ;;
  data <- response_json response ;;
  or_raise ValidationError (Schema.model_validate R data).

(** Lines 145-166: the lookup by name. *)
Definition lookup_by_name (R : Runtime) (srv : server) (name : pystr)
           (version : option pystr) : M Schema.t :=
  let req := by_name_request name version in
  response <- http_request srv req ;;
  raise_for_status R req response ;;
  data <- response_json response ;;
  schemas_list <- py_get data (u "schemas") (JList []) ;;
  if negb (py_truthy schemas_list) then
    console_print R (not_found_message name version) ;;
    raise (Exit 1)
  else
    first <- py_first schemas_list ;;
    schema <- or_raise ValidationError (Schema.model_validate R first) ;;
    n <- py_len schemas_list ;;
    when (Nat.ltb 1 n) (console_print R (ambiguity_warning n)) ;;
    ret schema.

(** [schemas get] *)
Definition get_schema (R : Runtime) (srv : server)
           (schema_id : option UUID) (name version : option pystr)
           (json_output : bool) : M unit :=
  if (match schema_id with Some _ => true | None => false end)
     && opt_truthy name then
    console_print R (u "[red]Error: Cannot specify both --id and --name[/red]") ;;
    raise (Exit 1)
  else
    schema <- match schema_id, name with
              | Some i, _ => lookup_by_id R srv i version
              | None, Some n =>
                  if str_truthy n then lookup_by_name R srv n version
                  else
                    console_print R
                      (u "[red]Error: Must specify either --id or --name[/red]") ;;
                    raise (Exit 1)
              | None, None =>
                  console_print R
                    (u "[red]Error: Must specify either --id or --name[/red]") ;;
                  raise (Exit 1)
              end ;;
    if json_output then
      console_print_json (Schema.model_dump schema)
    else
      schema_detail R schema.

Definition logs_columns : list pystr :=
  [u "Log ID"; u "Schema ID"; u "Created At"; u "Data Preview"].

Definition logs_request (schema_name : pystr) (limit : Z) : request :=
  {| meth := GET; path := u "/logs/schema/" ++ schema_name;
     kwargs := [(u "params", JDict [(u "limit", JInt limit)])] |}.

Definition no_logs_message (schema_name : pystr) : pystr :=
  u "[yellow]No logs found for schema '" ++ schema_name ++ u "'[/yellow]".

(** [logs list] *)
Definition list_logs (R : Runtime) (srv : server)
           (schema_name : option pystr) (full json_output expand : bool)
           (limit : Z) : M unit :=
  match schema_name with
  | Some schema_name =>
      if negb (str_truthy schema_name) then
        console_print R (u "[red]Error: schema_name is required[/red]") ;;
        raise (Exit 1)
      else
        try_except
          (let req := logs_request schema_name limit in
           response <- http_request srv req ;;
           raise_for_status R req response ;;
           data <- response_json response ;;
           logs_data <- py_get data (u "logs") (JList []) ;;
           if negb (py_truthy logs_data) then
             console_print R (no_logs_message schema_name)
           else
             items <- or_raise TypeError (py_iter logs_data) ;;
             logs <- for_each (fun l => or_raise ValidationError
                                                 (Log.model_validate R l)) items ;;
             if json_output then
               console_print_json (JList (map Log.model_dump logs))
             else
               console_print_table R
                 (Table (Some (u "Logs for Schema: " ++ schema_name))
                    logs_columns
                    (map (fun log =>
                            if expand
                            then mixed_row (Log.to_table_row_expanded log full)
                            else text_row (Log.to_table_row R log full))
                         logs)))
          is_HTTPError
          (fun e =>
             console_print R (u "[red]Error fetching logs: " ++ exn_str e
                            ++ u "[/red]") ;;
             raise (Exit 1))
  | None =>
      console_print R (u "[red]Error: schema_name is required[/red]") ;;
      raise (Exit 1)
  end.

(* ================================================================== *)
(** * client.py: the transport wrapper                                  *)
(* ================================================================== *)

Module APIClient.





End APIClient.

(* ================================================================== *)
(** * python-mig/main.py: the earlier entry point                       *)
(* ================================================================== *)

Module PythonMig.

(** [v[k]] for a string key *)
Definition py_item (v : json) (k : pystr) : M json :=
  match v with
  | JDict d => or_raise KeyError (dict_get k d)
  | _ => raise TypeError
  end.

(** [v[:n]] *)
Definition py_slice_to (n : nat) (v : json) : M json :=
  match v with
  | JStr s => ret (JStr (slice_to n s))
  | JList l => ret (JList (firstn n l))
  | _ => raise TypeError
  end.

(** [v + "..."] *)
Definition py_add_str (v : json) (s : pystr) : M json :=
  match v with
  | JStr t => ret (JStr (t ++ s))
  | _ => raise TypeError
  end.

Definition table_row (full : bool) (schema : json) : M (list renderable) :=
  ident <- py_item schema (u "id") ;;
  schema_id <- (if full then ret ident
                else cut <- py_slice_to 8 ident ;; py_add_str cut (u "...")) ;;
  name <- py_item schema (u "name") ;;
  version <- py_item schema (u "version") ;;
  description <- py_get schema (u "description") (JStr []) ;;
  description <- py_slice_to 50 description ;;
  for_each (fun v => or_raise NotRenderableError (as_cell v))
           [schema_id; name; version; description].

(** [schemas list] *)
Definition list_schemas (R : Runtime) (srv : server)
           (full json_output : bool) : M unit :=
  let req := all_schemas_request in
  response <- http_request srv req ;;
  raise_for_status R req response ;;
  data <- response_json response ;;
  schemas <- py_get data (u "schemas") (JList []) ;;
  if negb (py_truthy schemas) then
    console_print R (u "[yellow]No schemas found[/yellow]")
  else if json_output then
    console_print_json data
  else
    items <- or_raise TypeError (py_iter schemas) ;;
    rows <- for_each (table_row full) items ;;
    console_print_table R (Table (Some (u "Schemas")) schemas_columns rows).

(** [schemas get] *)
Definition get_schema (R : Runtime) (srv : server) (schema_id : UUID)
  : M unit :=
  let req := by_id_request schema_id in
  response <- http_request srv req ;;
  raise_for_status R req response ;;
  data <- response_json response ;;
  console_print_json data.

End PythonMig.

(* ================================================================== *)
(** * Vocabulary of the constraint renderer                             *)
(* ================================================================== *)

(** The keys [get_schema] looks for, in the order of its tests
    (lines 190-204). *)
Definition vocabulary : list pystr :=
  [u "enum"; u "pattern"; u "minLength"; u "maxLength";
   u "minimum"; u "maximum"; u "format"].

(** The label each key is written with in the source. *)
Definition label_of (key : pystr) : pystr :=
  if str_eqb key (u "minimum") then u "min"
  else if str_eqb key (u "maximum") then u "max"
  else key.

(** The line of one key with value [v], as the source builds it; [None]
    when an [enum] value cannot be iterated. *)
Definition line_of (printable : N -> bool) (key : pystr) (v : json)
  : option pystr :=
  if str_eqb key (u "enum") then
    l <-? py_iter v ;;
    Some (u "enum: [" ++ join (u ", ") (map (py_str printable) l) ++ u "]")
  else Some (label_of key ++ u ": " ++ py_str printable v).

(** The line of one key as the specification words it: ["key: value"]
    under the key's own name, enum values comma-joined inside brackets. *)
Definition spec_line_of (printable : N -> bool) (key : pystr) (v : json)
  : option pystr :=
  if str_eqb key (u "enum") then
    l <-? py_iter v ;;
    Some (key ++ u ": [" ++ join (u ", ") (map (py_str printable) l) ++ u "]")
  else Some (key ++ u ": " ++ py_str printable v).

(** The lines of the keys of [keys] present in a property object, in the
    order of [keys]. *)
Definition lines_along (printable : N -> bool) (keys : list pystr)
           (field_props : dict) : list pystr :=
  flat_map (fun key =>
              match dict_get key field_props with
              | Some v => match line_of printable key v with
                          | Some line => [line]
                          | None => []
                          end
              | None => []
              end) keys.

(** ** Projections of a row *)

Definition cell1 {A B C D} (row : A * B * C * D) : A :=
  let '(a, _, _, _) := row in a.
Definition cell2 {A B C D} (row : A * B * C * D) : B :=
  let '(_, b, _, _) := row in b.
Definition cell4 {A B C D} (row : A * B * C * D) : D :=
  let '(_, _, _, d) := row in d.

(** The rows of a table. *)
Definition table_rows (r : renderable) : list (list renderable) :=
  match r with Table _ _ rows => rows | _ => [] end.

(** The cells of column [i] of a table, from the top row down. *)
Definition column (i : nat) (r : renderable) : list renderable :=
  map (fun row => nth i row (Text [])) (table_rows r).

(** The tables printed on a console. *)
Definition printed_tables (es : list event) : list renderable :=
  flat_map (fun e => match e with
                     | Print (Table t c rows) => [Table t c rows]
                     | _ => []
                     end) es.

(** A command that draws no table, whatever it is run from. *)
Definition draws_no_table {A : Type} (m : M A) : Prop :=
  forall w, printed_tables (console (snd (m w))) = printed_tables (console w).


(** The world after one more line on the console. *)
Definition printed (s : pystr) (w : world) : world :=
  {| console := console w ++ [Print (Text s)]; requests := requests w |}.

(** The world after one more table (or other renderable) on the
    console. *)
Definition drawn (t : renderable) (w : world) : world :=
  {| console := console w ++ [Print t]; requests := requests w |}.

(** The end of a run that prints the line [s] in the world [w] and then
    ends with [res]: rich shows the line and the run ends with [res], or
    rich refuses the markup and its error ends the run, nothing being
    shown. *)
Definition print_then {A : Type} (R : Runtime) (s : pystr) (res : result A)
           (w : world) : result A * world :=
  if markup_error R s then (Raised MarkupError, w) else (res, printed s w).

(** The end of a run that draws [t] in the world [w] and returns. *)
Definition draw_then (R : Runtime) (t : renderable) (w : world)
  : result unit * world :=
  if renderable_markup_error R t then (Raised MarkupError, w)
  else (Ok tt, drawn t w).

(** What a run whose one request is [req] leaves in the request log:
    nothing when httpx refuses to build the request. *)
Definition sends (srv : server) (req : request) : list request :=
  match srv req with
  | Refused => []
  | _ => [req]
  end.

(** The tag a colour leaves open. *)
Definition colour_tag (R : Runtime) (colour : pystr) : tag :=
  {| tag_name := style_normalize R colour; tag_parameters := None |}.

(** The renderer in plain text, [n] backslashes read, [stack] open. *)
Definition in_text (n : nat) (stack : list tag) : option scanner :=
  Some {| mode := Outside; backslashes := n; open_tags := stack |}.

(* ================================================================== *)
(** * A runtime and data for the examples                               *)
(* ================================================================== *)

Definition hex_value (c : N) : option N :=
  if N.leb 48 c && N.leb c 57 then Some (c - 48)%N
  else if N.leb 97 c && N.leb c 102 then Some (c - 87)%N
  else if N.leb 65 c && N.leb c 70 then Some (c - 55)%N
  else None.

Fixpoint parse_hex (acc : N) (s : pystr) : option N :=
  match s with
  | [] => Some acc
  | c :: s' => d <-? hex_value c ;; parse_hex (16 * acc + d) s'
  end.

Definition dec_value (c : N) : option N :=
  if N.leb 48 c && N.leb c 57 then Some (c - 48)%N else None.

Fixpoint parse_dec (acc : N) (s : pystr) : option N :=
  match s with
  | [] => Some acc
  | c :: s' => d <-? dec_value c ;; parse_dec (10 * acc + d) s'
  end.

Definition char_at (i : nat) (s : pystr) : N := nth i s 0%N.

(** The hyphenated form of an identifier, in either case. *)
Definition parse_uuid (v : json) : option UUID :=
  match v with
  | JStr s =>
      if Nat.eqb (List.length s) 36
         && N.eqb (char_at 8 s) 45 && N.eqb (char_at 13 s) 45
         && N.eqb (char_at 18 s) 45 && N.eqb (char_at 23 s) 45
      then
        n <-? parse_hex 0 (firstn 8 s ++ firstn 4 (skipn 9 s)
                           ++ firstn 4 (skipn 14 s) ++ firstn 4 (skipn 19 s)
                           ++ skipn 24 s) ;;
        Some {| uuid_int := n |}
      else None
  | _ => None
  end.

(** [YYYY-MM-DDTHH:MM:SS], naive or followed by [Z]. *)
Definition parse_datetime (v : json) : option datetime :=
  match v with
  | JStr s =>
      let zone := skipn 19 s in
      if N.eqb (char_at 4 s) 45 && N.eqb (char_at 7 s) 45
         && N.eqb (char_at 10 s) 84 && N.eqb (char_at 13 s) 58
         && N.eqb (char_at 16 s) 58
         && (str_eqb zone [] || str_eqb zone (u "Z"))
         && Nat.leb 19 (List.length s)
      then
        y <-? parse_dec 0 (firstn 4 s) ;;
        mo <-? parse_dec 0 (firstn 2 (skipn 5 s)) ;;
        d <-? parse_dec 0 (firstn 2 (skipn 8 s)) ;;
        h <-? parse_dec 0 (firstn 2 (skipn 11 s)) ;;
        mi <-? parse_dec 0 (firstn 2 (skipn 14 s)) ;;
        se <-? parse_dec 0 (firstn 2 (skipn 17 s)) ;;
        Some {| year := y; month := mo; day := d; hour := h; minute := mi;
                second := se; microsecond := 0;
                tz := match zone with [] => None | _ => Some 0%Z end |}
      else None
  | _ => None
  end.

(** A runtime whose validators take the canonical forms. *)
Definition canonical_runtime : Runtime :=
  {| isprintable := fun c => N.leb 161 c && negb (N.eqb c 173);
     validate_uuid := parse_uuid;
     validate_datetime := parse_datetime;
     validate_int := fun v => match v with JInt z => Some z | _ => None end;
     status_message := fun _ r => u "HTTP status " ++ str_of_Z (status_code r);
     style_normalize := py_strip;
     handler_fails := fun _ => false |}.

Definition sample_id : UUID :=
  {| uuid_int := 0x123e4567e89b12d3a456426614174000 |}.

Definition sample_time : datetime :=
  {| year := 2024; month := 1; day := 15; hour := 10; minute := 30;
     second := 0; microsecond := 0; tz := Some 0%Z |}.

(** A property object declared in the order maximum, minLength. *)
Definition prop_max_then_min : dict :=
  [(u "maximum", JInt 10); (u "minLength", JInt 3)].

Definition prop_min_then_max : dict :=
  [(u "minLength", JInt 3); (u "maximum", JInt 10)].

Definition sample_definition : dict :=
  [(u "type", JStr (u "object"));
   (u "properties",
     JDict [(u "level", JDict [(u "type", JStr (u "string"));
                               (u "enum", JList [JStr (u "info");
                                                 JStr (u "error")])]);
            (u "code", JDict ((u "type", JStr (u "integer"))
                              :: prop_max_then_min))]);
   (u "required", JList [JStr (u "level")])].

(** Fifty-nine characters. *)
Definition long_description : pystr :=
  u "Orders placed through the storefront, one record per order.".

Definition sample_schema : Schema.t :=
  {| Schema.id := sample_id;
     Schema.name := u "orders";
     Schema.version := u "1.0.0";
     Schema.description := Some long_description;
     Schema.schema_definition := sample_definition;
     Schema.created_at := sample_time;
     Schema.updated_at := sample_time |}.

Definition sample_payload : json := Schema.model_dump sample_schema.

Definition ok_response (body : json) : response :=
  {| status_code := 200; text := []; json_body := Some body |}.

(** A server that answers every request with the same reply. *)
Definition always (r : reply) : server := fun _ => r.

Definition sample_log : Log.t :=
  {| Log.id := 7;
     Log.schema_id := sample_id;
     Log.log_data := [(u "level", JStr (u "info"));
                      (u "message", JStr (u "order 1042 was accepted by the warehouse"))];
     Log.created_at := sample_time |}.

(** The canonical runtime, but with handler parameters that never
    evaluate. *)
Definition wary_runtime : Runtime :=
  {| isprintable := isprintable canonical_runtime;
     validate_uuid := validate_uuid canonical_runtime;
     validate_datetime := validate_datetime canonical_runtime;
     validate_int := validate_int canonical_runtime;
     status_message := status_message canonical_runtime;
     style_normalize := style_normalize canonical_runtime;
     handler_fails := fun _ => true |}.


(** The ASCII characters httpx refuses in a URL. *)
Definition is_control (c : N) : bool := N.ltb c 32 || N.eqb c 127.

(** A server behind httpx's check of the path. *)
Definition checking_paths (srv : server) : server :=
  fun req => if existsb is_control (path req) then Refused else srv req.

(** A schema definition with a bound that overflows a float: the JSON
    number [1E400] is read as [inf]. *)
Definition overflowing_definition : dict :=
  [(u "properties",
     JDict [(u "ratio", JDict [(u "type", JStr (u "number"));
                               (u "maximum", JFloat (u "inf"))])])].

Definition overflowing_payload : json :=
  JDict [ (u "id", JStr (u "123e4567-e89b-12d3-a456-426614174000"));
          (u "name", JStr (u "ratios"));
          (u "version", JStr (u "1.0.0"));
          (u "description", JStr (u "Ratios."));
          (u "schema_definition", JDict overflowing_definition);
          (u "created_at", JStr (u "2024-01-15T10:30:00Z"));
          (u "updated_at", JStr (u "2024-01-15T10:30:00Z")) ].

Definition overflowing_schema : Schema.t :=
  {| Schema.id := sample_id;
     Schema.name := u "ratios";
     Schema.version := u "1.0.0";
     Schema.description := Some (u "Ratios.");
     Schema.schema_definition := overflowing_definition;
     Schema.created_at := sample_time;
     Schema.updated_at := sample_time |}.

(** A schema whose one property has a pattern that rich reads as a
    closing tag. *)
Definition slash_pattern_schema : Schema.t :=
  {| Schema.id := sample_id;
     Schema.name := u "paths";
     Schema.version := u "1.0.0";
     Schema.description := None;
     Schema.schema_definition :=
       [(u "properties",
          JDict [(u "path", JDict [(u "type", JStr (u "string"));
                                   (u "pattern", JStr (u "^[/a-z]+$"))])])];
     Schema.created_at := sample_time;
     Schema.updated_at := sample_time |}.

(** Timestamps: with microseconds and an offset east of UTC, with an
    offset west of it, without a zone, and before the year 1000. *)
Definition eastern_time : datetime :=
  {| year := 2024; month := 1; day := 15; hour := 10; minute := 30;
     second := 0; microsecond := 250; tz := Some 330%Z |}.

Definition western_time : datetime :=
  {| year := 2024; month := 12; day := 31; hour := 23; minute := 59;
     second := 59; microsecond := 0; tz := Some (-480)%Z |}.

Definition naive_time : datetime :=
  {| year := 2024; month := 1; day := 15; hour := 10; minute := 30;
     second := 0; microsecond := 0; tz := None |}.

Definition early_time : datetime :=
  {| year := 999; month := 1; day := 2; hour := 3; minute := 4;
     second := 5; microsecond := 0; tz := Some 0%Z |}.

Definition early_log : Log.t :=
  {| Log.id := 8;
     Log.schema_id := sample_id;
     Log.log_data := [(u "level", JStr (u "info"))];
     Log.created_at := early_time |}.

(* ================================================================== *)
(** * Vocabulary of the further properties                              *)
(* ================================================================== *)

(** ** What a run leaves behind *)

(** The tables and JSON documents on a console, without the lines of
    text. *)
Definition rich_output (es : list event) : list event :=
  filter (fun e => match e with Print (Text _) => false | _ => true end) es.

Definition is_table_event (e : event) : Prop :=
  match e with Print (Table _ _ _) => True | _ => False end.

Definition is_json_event (e : event) : Prop :=
  match e with PrintJson _ => True | _ => False end.

(** A command that leaves one view of the world as it found it. *)
Definition keeps {X A : Type} (view : world -> X) (m : M A) : Prop :=
  forall w, view (snd (m w)) = view w.

Definition rich_view (w : world) : list event := rich_output (console w).

(** A command that prints at most one table or JSON document, of the kind
    [kind], and none when it raises. *)
Definition tidy {A : Type} (kind : event -> Prop) (m : M A) : Prop :=
  forall w,
    match m w with
    | (Raised _, w') => rich_view w' = rich_view w
    | (Ok _, w') =>
        rich_view w' = rich_view w
        \/ exists e, kind e /\ rich_view w' = rich_view w ++ [e]
    end.

(** The world [w] followed by what a run from [start] left. *)
Definition after (w w' : world) : world :=
  {| console := console w ++ console w';
     requests := requests w ++ requests w' |}.

(** A command whose run does not look at what was printed or sent before
    it. *)
Definition framed {A : Type} (m : M A) : Prop :=
  forall w, m w = (fst (m start), after w (snd (m start))).

(** ** Schema definitions the detail view can draw *)

Definition iterable (v : json) : bool :=
  match py_iter v with Some _ => true | None => false end.

(** The membership test [name in v] is defined. *)
Definition supports_in (v : json) : bool :=
  match v with
  | JList _ | JDict _ | JStr _ => true
  | _ => false
  end.

(** A property descriptor the loop of [get_schema] gets through: an
    object whose [type], when present, is a string or null, and whose
    [enum], when present, can be iterated. *)
Definition drawable_property (v : json) : bool :=
  match v with
  | JDict props =>
      match as_cell (dict_get_default (u "type") (JStr (u "N/A")) props) with
      | Some _ => true
      | None => false
      end
      && match dict_get (u "enum") props with
         | Some e => iterable e
         | None => true
         end
  | _ => false
  end.

(** A schema definition the detail view gets through: [properties],
    when present, is an object of drawable properties, and [required]
    supports the membership test as soon as there is a property. *)
Definition drawable_definition (schema_def : dict) : bool :=
  match dict_get_default (u "properties") (JDict []) schema_def with
  | JDict props =>
      forallb (fun field => drawable_property (snd field)) props
      && match props with
         | [] => true
         | _ => supports_in
                  (dict_get_default (u "required") (JList []) schema_def)
         end
  | _ => false
  end.

(** The properties a schema definition declares, in their order; none
    when [properties] is missing. *)
Definition declared_properties (schema_def : dict) : dict :=
  match dict_get_default (u "properties") (JDict []) schema_def with
  | JDict props => props
  | _ => []
  end.

(** The seven fields of [Schema]. *)
Definition schema_fields : list pystr :=
  [u "id"; u "name"; u "version"; u "description"; u "schema_definition";
   u "created_at"; u "updated_at"].

(** The sample schema without its description. *)
Definition undescribed_schema : Schema.t :=
  {| Schema.id := sample_id;
     Schema.name := u "orders";
     Schema.version := u "1.0.0";
     Schema.description := None;
     Schema.schema_definition := sample_definition;
     Schema.created_at := sample_time;
     Schema.updated_at := sample_time |}.

(** The six fields [Schema] requires. *)
Definition schema_required_fields : list pystr :=
  [u "id"; u "name"; u "version"; u "schema_definition";
   u "created_at"; u "updated_at"].

(** An option as the commands read it: one given as the empty string is
    an option left out. *)
Definition given (o : option pystr) : option pystr :=
  if opt_truthy o then o else None.

(* ================================================================== *)
(** * Properties                                                        *)
(* ================================================================== *)

(** ** Strings and dicts *)

Lemma str_eqb_refl (a : pystr) : str_eqb a a = true.
Proof.
  induction a as [|c a IH]; simpl; [reflexivity|].
  now rewrite N.eqb_refl, IH.
Qed.

Lemma str_eqb_eq (a b : pystr) : str_eqb a b = true <-> a = b.
Proof.
  split.
  - revert b; induction a as [|x a IH]; intros [|y b] H; simpl in H;
      try discriminate; [reflexivity|].
    apply andb_true_iff in H as [Hx Hab].
    apply N.eqb_eq in Hx. apply IH in Hab. now subst.
  - intros ->. apply str_eqb_refl.
Qed.

Lemma str_eqb_neq (a b : pystr) : a <> b -> str_eqb a b = false.
Proof.
  intros Hne. destruct (str_eqb a b) eqn:E; [|reflexivity].
  apply str_eqb_eq in E. contradiction.
Qed.

(** Reading a dict does not depend on the order in which its keys were
    inserted. *)
Lemma dict_get_perm (p1 p2 : dict) :
  NoDup (dict_keys p1) -> Permutation p1 p2 ->
  forall k, dict_get k p1 = dict_get k p2.
Proof.
  intros Hnd Hperm. induction Hperm as [| [k0 v0] l l' Hp IH
                                        | [k1 v1] [k2 v2] l
                                        | l l' l'' Hp1 IH1 Hp2 IH2]; intros k.
  - reflexivity.
  - simpl. inversion Hnd; subst. destruct (str_eqb k k0); [reflexivity|].
    now apply IH.
  - simpl. destruct (str_eqb k k2) eqn:E2, (str_eqb k k1) eqn:E1;
      try reflexivity.
    apply str_eqb_eq in E1, E2. subst.
    inversion Hnd as [|? ? Hnin _]; subst. exfalso. apply Hnin. now left.
  - rewrite IH1 by assumption. apply IH2.
    unfold dict_keys in *.
    eapply Permutation_NoDup; [apply Permutation_map; exact Hp1 | exact Hnd].
Qed.

(** ** The constraint renderer *)

(** The renderer reads the property object through [dict_get] only. *)
Lemma field_constraints_ext (printable : N -> bool) (p1 p2 : dict) :
  (forall k, dict_get k p1 = dict_get k p2) ->
  field_constraints printable p1 = field_constraints printable p2.
Proof.
  intros H. unfold field_constraints, enum_line, constraint_line.
  now rewrite !H.
Qed.

Lemma field_constraints_lines (printable : N -> bool) (props : dict)
      (lines : list pystr) :
  field_constraints printable props = Ok lines ->
  lines = lines_along printable vocabulary props.
Proof.
  unfold field_constraints, enum_line, constraint_line, lines_along,
    vocabulary, line_of.
  cbn [flat_map].
  change (str_eqb (u "enum") (u "enum")) with true.
  change (str_eqb (u "pattern") (u "enum")) with false.
  change (str_eqb (u "minLength") (u "enum")) with false.
  change (str_eqb (u "maxLength") (u "enum")) with false.
  change (str_eqb (u "minimum") (u "enum")) with false.
  change (str_eqb (u "maximum") (u "enum")) with false.
  change (str_eqb (u "format") (u "enum")) with false.
  change (label_of (u "pattern")) with (u "pattern").
  change (label_of (u "minLength")) with (u "minLength").
  change (label_of (u "maxLength")) with (u "maxLength").
  change (label_of (u "minimum")) with (u "min").
  change (label_of (u "maximum")) with (u "max").
  change (label_of (u "format")) with (u "format").
  cbv iota.
  destruct (dict_get (u "enum") props) as [vs|].
  - unfold obind. destruct (py_iter vs) as [l|]; [|discriminate].
    intros [= <-].
    repeat match goal with
           | |- context [dict_get ?k props] => destruct (dict_get k props)
           end; reflexivity.
  - intros [= <-].
    repeat match goal with
           | |- context [dict_get ?k props] => destruct (dict_get k props)
           end; reflexivity.
Qed.

Lemma definition_row_ext (printable : N -> bool) (required_fields : json)
      (field_name : pystr) (p1 p2 : dict) :
  (forall k, dict_get k p1 = dict_get k p2) ->
  definition_row printable required_fields (field_name, JDict p1)
  = definition_row printable required_fields (field_name, JDict p2).
Proof.
  intros H. unfold definition_row, dict_get_default.
  now rewrite (field_constraints_ext printable p1 p2 H), H.
Qed.

(** [join] puts the separator after each part but the last. *)
Lemma join_cons (sep x : pystr) (ys : list pystr) :
  ys <> [] -> join sep (x :: ys) = x ++ sep ++ join sep ys.
Proof. destruct ys; [contradiction | reflexivity]. Qed.

Lemma join_app_cons (sep : pystr) (xs : list pystr) (y : pystr)
      (ys : list pystr) :
  join sep (xs ++ y :: ys)
  = List.concat (map (fun x => x ++ sep) xs) ++ join sep (y :: ys).
Proof.
  induction xs as [|x xs IH]; [reflexivity|].
  change ((x :: xs) ++ y :: ys) with (x :: (xs ++ y :: ys)).
  rewrite join_cons by (destruct xs; discriminate).
  rewrite IH. cbn [map List.concat]. now rewrite <- !app_assoc.
Qed.

Lemma constraints_str_join (lines : list pystr) :
  constraints_str lines = join newline lines.
Proof. now destruct lines. Qed.

(** In the joined string a line that comes earlier in the list stands
    before a line that comes later, a newline after it. *)
Lemma join_keeps_order (sep : pystr) (before between after : list pystr)
      (l1 l2 : pystr) :
  exists a b c,
    join sep (before ++ l1 :: between ++ l2 :: after)
    = a ++ l1 ++ sep ++ b ++ l2 ++ c.
Proof.
  exists (List.concat (map (fun x => x ++ sep) before)),
         (List.concat (map (fun x => x ++ sep) between)),
         (match after with [] => [] | _ => sep ++ join sep after end).
  rewrite join_app_cons.
  rewrite join_cons by (destruct between; discriminate).
  rewrite join_app_cons.
  destruct after as [|x after]; [now rewrite app_nil_r|].
  now rewrite join_cons by discriminate.
Qed.

Lemma lines_along_app (printable : N -> bool) (keys1 keys2 : list pystr)
      (props : dict) :
  lines_along printable (keys1 ++ keys2) props
  = lines_along printable keys1 props ++ lines_along printable keys2 props.
Proof. unfold lines_along. apply flat_map_app. Qed.

Lemma lines_along_cons (printable : N -> bool) (key : pystr)
      (keys : list pystr) (props : dict) (v : json) (line : pystr) :
  dict_get key props = Some v -> line_of printable key v = Some line ->
  lines_along printable (key :: keys) props
  = line :: lines_along printable keys props.
Proof.
  intros Hget Hline. unfold lines_along. cbn [flat_map].
  now rewrite Hget, Hline.
Qed.

(** The constraints cell of a row is the constraints string. *)
Lemma definition_row_cell (printable : N -> bool) (required_fields : json)
      (field_name : pystr) (props : dict) (cells : list renderable)
      (w w' : world) :
  definition_row printable required_fields (field_name, JDict props) w
  = (Ok cells, w') ->
  exists lines,
    field_constraints printable props = Ok lines
    /\ nth 3 cells (Text []) = Text (constraints_str lines)
    /\ nth 0 cells (Text []) = Text field_name.
Proof.
  unfold definition_row, bind, or_raise, lift_result, ret, raise.
  destruct (py_contains_str field_name required_fields) as [b|];
    [|discriminate].
  destruct (field_constraints printable props) as [lines|e]; [|discriminate].
  destruct (as_cell (dict_get_default (u "type") (JStr (u "N/A")) props));
    [|discriminate].
  intros [= <- _]. exists lines. repeat split.
Qed.

(** C1.  The constraint lines of a property object follow the order of
    the renderer's vocabulary (enum, pattern, minLength, maxLength,
    minimum, maximum, format), whatever the order of the keys in the
    object.  Two objects holding the same bindings in different orders
    render the same lines, the same constraints string and the same table
    row; the lines are those of the vocabulary keys present, taken along
    the vocabulary; the Constraints cell of the row is the string in which
    those lines are joined by newlines, so in it the line of a key stands
    before the line of every key that comes later in the vocabulary.
    [{maximum: 10, minLength: 3}] renders the cell
    [minLength: 3] newline [max: 10], the minLength line first. *)
Theorem constraints_follow_vocabulary_order
        (printable : N -> bool) (p1 p2 : dict)
        (Hkeys : NoDup (dict_keys p1)) (Hperm : Permutation p1 p2) :
  field_constraints printable p1 = field_constraints printable p2
  /\ (forall required_fields field_name,
         definition_row printable required_fields (field_name, JDict p1)
         = definition_row printable required_fields (field_name, JDict p2))
  /\ (forall lines,
         field_constraints printable p1 = Ok lines ->
         lines = lines_along printable vocabulary p1
         /\ lines = lines_along printable vocabulary p2
         /\ field_constraints printable p2 = Ok lines)
  /\ field_constraints printable prop_max_then_min
     = Ok [u "minLength: 3"; u "max: 10"]
  /\ field_constraints printable prop_min_then_max
     = Ok [u "minLength: 3"; u "max: 10"]
  /\ (forall lines1 lines2 : list pystr,
         field_constraints printable p1 = Ok lines1 ->
         field_constraints printable p2 = Ok lines2 ->
         constraints_str lines1 = constraints_str lines2
         /\ constraints_str lines1
            = join newline (lines_along printable vocabulary p1))
  /\ (forall (required_fields : json) (field_name : pystr)
             (cells : list renderable) (w w' : world),
         definition_row printable required_fields (field_name, JDict p2) w
         = (Ok cells, w') ->
         exists lines,
           field_constraints printable p1 = Ok lines
           /\ nth 3 cells (Text []) = Text (constraints_str lines)
           /\ forall (before between after : list pystr) (k1 k2 : pystr)
                     (v1 v2 : json) (l1 l2 : pystr),
               vocabulary = before ++ k1 :: between ++ k2 :: after ->
               dict_get k1 p1 = Some v1 -> dict_get k2 p1 = Some v2 ->
               line_of printable k1 v1 = Some l1 ->
               line_of printable k2 v2 = Some l2 ->
               exists a b c,
                 constraints_str lines = a ++ l1 ++ newline ++ b ++ l2 ++ c)
  /\ (forall l1 l2 : pystr, constraints_str [l1; l2] = l1 ++ newline ++ l2)
  /\ (forall w : world,
         definition_row printable (JList []) (u "code", JDict prop_max_then_min) w
         = (Ok [Text (u "code"); Text (u "N/A"); Text [];
                Text (u "minLength: 3" ++ newline ++ u "max: 10")], w)
         /\ definition_row printable (JList [])
                           (u "code", JDict prop_min_then_max) w
            = (Ok [Text (u "code"); Text (u "N/A"); Text [];
                   Text (u "minLength: 3" ++ newline ++ u "max: 10")], w)).
Proof.
  pose proof (dict_get_perm _ _ Hkeys Hperm) as Hget.
  pose proof (field_constraints_ext printable p1 p2 Hget) as Heq.
  split; [exact Heq|].
  split; [intros; now apply definition_row_ext|].
  split.
  { intros lines Hl. split; [now apply field_constraints_lines|].
    rewrite Heq in Hl. split; [now apply field_constraints_lines|exact Hl]. }
  split; [reflexivity|]. split; [reflexivity|].
  split.
  { intros lines1 lines2 H1 H2. rewrite Heq, H2 in H1. injection H1 as <-.
    split; [reflexivity|]. rewrite constraints_str_join.
    rewrite <- Heq in H2.
    now rewrite (field_constraints_lines printable p1 lines2 H2). }
  split; [|split; [reflexivity | intros w; split; reflexivity]].
  intros required_fields field_name cells w w' Hrow.
  destruct (definition_row_cell _ _ _ _ _ _ _ Hrow) as (lines & Hl & Hcell & _).
  rewrite <- Heq in Hl.
  exists lines. split; [exact Hl|]. split; [exact Hcell|].
  intros before between after k1 k2 v1 v2 l1 l2 Hvoc Hg1 Hg2 Hl1 Hl2.
  rewrite constraints_str_join.
  rewrite (field_constraints_lines printable p1 lines Hl), Hvoc.
  rewrite lines_along_app.
  rewrite (lines_along_cons printable k1 _ p1 v1 l1 Hg1 Hl1).
  rewrite lines_along_app.
  rewrite (lines_along_cons printable k2 _ p1 v2 l2 Hg2 Hl2).
  apply join_keeps_order.
Qed.

Lemma constraints_follow_vocabulary_order_witness :
  NoDup (dict_keys prop_max_then_min)
  /\ Permutation prop_max_then_min prop_min_then_max
  /\ field_constraints (fun _ => true) prop_max_then_min
     = field_constraints (fun _ => true) prop_min_then_max
  /\ (exists a b c,
         constraints_str [u "minLength: 3"; u "max: 10"]
         = a ++ u "minLength: 3" ++ newline ++ b ++ u "max: 10" ++ c).
Proof.
  assert (Hk : NoDup (dict_keys prop_max_then_min)).
  { repeat constructor; simpl; intuition discriminate. }
  assert (Hp : Permutation prop_max_then_min prop_min_then_max).
  { apply perm_swap. }
  split; [exact Hk|]. split; [exact Hp|].
  pose proof (constraints_follow_vocabulary_order (fun _ => true) _ _ Hk Hp)
    as (Hsame & _ & _ & _ & _ & _ & Hcell & _ & Hrows).
  split; [exact Hsame|].
  destruct (Hcell (JList []) (u "code") _ start start (proj2 (Hrows start)))
    as (lines & Hl & _ & Horder).
  injection Hl as <-.
  exact (Horder [u "enum"; u "pattern"] [u "maxLength"; u "minimum"]
                [u "format"] (u "minLength") (u "maximum") (JInt 3) (JInt 10)
                (u "minLength: 3") (u "max: 10")
                eq_refl eq_refl eq_refl eq_refl eq_refl).
Defined.

(** C3, as worded, fails: the line of [minimum] is not written under the
    key's own name.  A property with minimum 5 renders ["min: 5"], and the
    line ["minimum: 5"] is not among the rendered lines. *)
Lemma minimum_line_is_abbreviated :
  field_constraints (fun _ => true) [(u "minimum", JInt 5)] = Ok [u "min: 5"]
  /\ spec_line_of (fun _ => true) (u "minimum") (JInt 5)
     = Some (u "minimum: 5")
  /\ ~ (forall (printable : N -> bool) (props : dict) (key : pystr)
               (v : json) (lines : list pystr),
           In key vocabulary ->
           dict_get key props = Some v ->
           field_constraints printable props = Ok lines ->
           exists line, spec_line_of printable key v = Some line
                        /\ In line lines).
Proof.
  split; [reflexivity|]. split; [reflexivity|].
  intros H.
  destruct (H (fun _ => true) [(u "minimum", JInt 5)] (u "minimum") (JInt 5)
              [u "min: 5"]) as [line [Hline Hin]].
  - unfold vocabulary. simpl. tauto.
  - reflexivity.
  - reflexivity.
  - vm_compute in Hline. injection Hline as <-.
    destruct Hin as [Heq | []]. vm_compute in Heq. discriminate.
Qed.

(** C3, amended.  Every vocabulary key present in a property object whose
    constraints render gets one line ["label: value"]: the label is the
    key's own name for enum, pattern, minLength, maxLength and format, and
    is [min] for minimum and [max] for maximum; the values of an enum are
    comma-joined inside brackets.  Minimum 5 renders ["min: 5"] and
    maximum 10 renders ["max: 10"]. *)
Theorem constraint_line_format
        (printable : N -> bool) (props : dict) (key : pystr) (v : json)
        (lines : list pystr)
        (Hkey : In key vocabulary)
        (Hget : dict_get key props = Some v)
        (Hrun : field_constraints printable props = Ok lines) :
  (key = u "enum" ->
     exists l, py_iter v = Some l
               /\ In (u "enum: [" ++ join (u ", ") (map (py_str printable) l)
                      ++ u "]") lines)
  /\ (key <> u "enum" ->
        In (label_of key ++ u ": " ++ py_str printable v) lines)
  /\ (key <> u "minimum" -> key <> u "maximum" -> label_of key = key)
  /\ label_of (u "minimum") = u "min"
  /\ label_of (u "maximum") = u "max"
  /\ field_constraints printable [(u "minimum", JInt 5)] = Ok [u "min: 5"]
  /\ field_constraints printable [(u "maximum", JInt 10)] = Ok [u "max: 10"].
Proof.
  pose proof (field_constraints_lines _ _ _ Hrun) as Hlines.
  assert (Hline : forall line, line_of printable key v = Some line ->
                               In line lines).
  { intros line Hl. rewrite Hlines. unfold lines_along. apply in_flat_map.
    exists key. split; [exact Hkey|]. rewrite Hget, Hl. now left. }
  split; [|split; [|split; [|repeat split]]].
  - intros ->. unfold line_of in Hline.
    change (str_eqb (u "enum") (u "enum")) with true in Hline.
    cbv iota in Hline. unfold obind in Hline.
    destruct (py_iter v) as [l|] eqn:Hit.
    + exists l. split; [reflexivity|]. now apply Hline.
    + exfalso. revert Hrun. unfold field_constraints, enum_line.
      rewrite Hget, Hit. discriminate.
  - intros Hne. apply Hline. unfold line_of.
    now rewrite (str_eqb_neq _ _ Hne).
  - intros H1 H2. unfold label_of.
    now rewrite (str_eqb_neq _ _ H1), (str_eqb_neq _ _ H2).
Qed.

Lemma constraint_line_format_witness :
  In (u "minimum") vocabulary
  /\ dict_get (u "minimum") [(u "minimum", JInt 5)] = Some (JInt 5)
  /\ field_constraints (fun _ => true) [(u "minimum", JInt 5)]
     = Ok [u "min: 5"]
  /\ In (label_of (u "minimum") ++ u ": " ++ py_str (fun _ => true) (JInt 5))
        [u "min: 5"].
Proof.
  assert (Hk : In (u "minimum") vocabulary) by (unfold vocabulary; simpl; tauto).
  assert (Hg : dict_get (u "minimum") [(u "minimum", JInt 5)] = Some (JInt 5))
    by reflexivity.
  assert (Hr : field_constraints (fun _ => true) [(u "minimum", JInt 5)]
               = Ok [u "min: 5"]) by reflexivity.
  split; [exact Hk|]. split; [exact Hg|]. split; [exact Hr|].
  apply (proj1 (proj2 (constraint_line_format (fun _ => true) _ _ _ _
                                               Hk Hg Hr))).
  discriminate.
Defined.

(** ** Previews and identifiers *)

Lemma length_hex_fixed (k : nat) (n : N) : List.length (hex_fixed k n) = k.
Proof.
  revert n; induction k as [|k IH]; intros n; simpl; [reflexivity|].
  rewrite length_app, IH. simpl. lia.
Qed.

Lemma length_uuid_str (x : UUID) : List.length (uuid_str x) = 36.
Proof.
  unfold uuid_str, uuid_hex.
  repeat rewrite length_app.
  repeat rewrite length_firstn.
  repeat rewrite length_skipn.
  rewrite length_hex_fixed. reflexivity.
Qed.

Lemma length_short_id (x : UUID) : List.length (short_id x) = 11.
Proof.
  unfold short_id, slice_to. rewrite length_app, length_firstn, length_uuid_str.
  reflexivity.
Qed.

(** C2, as worded, fails for the description of a schema row: a
    description of 59 characters is cut to its first 50 and no marker is
    appended, so the preview has length 50, not 53. *)
Lemma description_preview_has_no_ellipsis :
  Schema.description sample_schema = Some long_description
  /\ List.length long_description = 59
  /\ cell4 (Schema.to_table_row sample_schema false)
     = u "Orders placed through the storefront, one record p"
  /\ List.length (cell4 (Schema.to_table_row sample_schema false)) = 50
  /\ ~ (forall (schema : Schema.t) (full : bool) (d : pystr),
           Schema.description schema = Some d ->
           50 < List.length d ->
           List.length (cell4 (Schema.to_table_row schema full)) = 53).
Proof.
  repeat split; try reflexivity.
  intros H.
  specialize (H sample_schema false long_description eq_refl).
  vm_compute in H. assert (Hlen : 51 <= 59) by lia.
  specialize (H Hlen). discriminate.
Qed.

(** C2, amended.  The preview of the serialized [log_data] in a log row is
    its first 50 characters followed by a 3-character ellipsis when the
    serialization is longer than 50 characters (length 53), and the
    serialization itself otherwise.  The description in a schema row is
    cut to its first 50 characters with no marker: a description longer
    than 50 characters is shown on 50 characters, a shorter one is shown
    as it is, and a missing one as the empty string. *)
Theorem preview_truncation
        (R : Runtime) (log : Log.t) (schema : Schema.t) (full : bool) :
  let s := Log.log_data_str R log in
  let preview := cell4 (Log.to_table_row R log full) in
  let shown := cell4 (Schema.to_table_row schema full) in
  (50 < List.length s ->
     preview = firstn 50 s ++ u "..." /\ List.length preview = 53)
  /\ (List.length s <= 50 -> preview = s)
  /\ (forall d, Schema.description schema = Some d ->
        (50 < List.length d -> shown = firstn 50 d /\ List.length shown = 50)
        /\ (List.length d <= 50 -> shown = d))
  /\ (Schema.description schema = None -> shown = []).
Proof.
  cbn zeta. unfold Log.to_table_row, Schema.to_table_row, cell4, slice_to.
  split; [|split; [|split]].
  - intros Hlen. apply Nat.ltb_lt in Hlen. rewrite Hlen. split; [reflexivity|].
    apply Nat.ltb_lt in Hlen.
    rewrite length_app, length_firstn, Nat.min_l by lia. reflexivity.
  - intros Hlen. apply Nat.ltb_ge in Hlen. now rewrite Hlen.
  - intros d ->.
    assert (Hd : (if str_truthy d then d else []) = d) by (now destruct d).
    rewrite Hd. split.
    + intros Hlen. split; [reflexivity|].
      rewrite length_firstn. apply Nat.min_l. lia.
    + intros Hlen. now apply firstn_all2.
  - intros ->. reflexivity.
Qed.

Lemma preview_truncation_witness :
  50 < List.length (Log.log_data_str canonical_runtime sample_log)
  /\ cell4 (Log.to_table_row canonical_runtime sample_log false)
     = firstn 50 (Log.log_data_str canonical_runtime sample_log) ++ u "..."
  /\ List.length (cell4 (Log.to_table_row canonical_runtime sample_log false))
     = 53.
Proof.
  assert (H : 50 < List.length (Log.log_data_str canonical_runtime sample_log)).
  { apply Nat.ltb_lt. vm_compute. reflexivity. }
  split; [exact H|].
  exact (proj1 (preview_truncation canonical_runtime sample_log sample_schema
                                   false) H).
Defined.

(** C7, as worded, fails for the detail view of a schema: [schemas get]
    has no full-id toggle and prints the whole identifier, never the short
    form. *)
Lemma detail_view_always_shows_full_id :
  (let w := snd (get_schema canonical_runtime
                            (always (Reply (ok_response sample_payload)))
                            (Some sample_id) None None false start) in
   map (fun t => nth 0 (table_rows t) []) (printed_tables (console w))
   = [[Text (u "ID"); Text (u "123e4567-e89b-12d3-a456-426614174000")]])
  /\ short_id sample_id = u "123e4567..."
  /\ ~ (forall (schema : Schema.t) (def_table : renderable),
           nth 0 (table_rows (detail_table schema def_table)) []
           = [Text (u "ID"); Text (short_id (Schema.id schema))]).
Proof.
  split; [vm_compute; reflexivity|]. split; [vm_compute; reflexivity|].
  intros H. specialize (H sample_schema (Text [])).
  vm_compute in H. discriminate.
Qed.

(** ** Console markup *)

Lemma markup_scan_app (R : Runtime) (a b : pystr) (st : option scanner) :
  markup_scan R (a ++ b) st = markup_scan R b (markup_scan R a st).
Proof. unfold markup_scan. apply fold_left_app. Qed.

Lemma bracket_free_app (a b : pystr) :
  bracket_free (a ++ b) = bracket_free a && bracket_free b.
Proof. unfold bracket_free. apply forallb_app. Qed.

(** Plain text leaves the renderer in plain text and its stack as it
    was. *)
Lemma markup_scan_plain (R : Runtime) (s : pystr) (n : nat)
      (stack : list tag) :
  bracket_free s = true ->
  exists n', markup_scan R s (in_text n stack) = in_text n' stack.
Proof.
  revert n. induction s as [|c s IH]; intros n H.
  - exists n. reflexivity.
  - unfold bracket_free in H. cbn [forallb] in H.
    apply andb_true_iff in H as [Hc Hs]. apply negb_true_iff in Hc.
    unfold markup_scan, in_text. cbn [fold_left]. unfold scan_char.
    cbn [mode backslashes open_tags]. rewrite Hc. apply IH. exact Hs.
Qed.

Lemma closes_cleanly_colour (R : Runtime) (colour : pystr) :
  closes_cleanly R (colour_tag R colour) = true.
Proof.
  unfold closes_cleanly, colour_tag. cbn [tag_name tag_parameters].
  now destruct (style_normalize R colour).
Qed.

(** The two colours of the client: the opening tag goes on the stack,
    the closing tag takes it off, or is plain text when an odd run of
    backslashes stands before it.  Neither fails. *)
Lemma markup_scan_yellow (R : Runtime) (stack : list tag) :
  markup_scan R (u "[yellow]") (in_text 0 stack)
  = in_text 0 (colour_tag R (u "yellow") :: stack).
Proof. reflexivity. Qed.

Lemma markup_scan_red (R : Runtime) (stack : list tag) :
  markup_scan R (u "[red]") (in_text 0 stack)
  = in_text 0 (colour_tag R (u "red") :: stack).
Proof. reflexivity. Qed.

Lemma markup_scan_end_yellow (R : Runtime) (n : nat) (stack : list tag) :
  exists stack',
    markup_scan R (u "[/yellow]")
                (in_text n (colour_tag R (u "yellow") :: stack))
    = in_text 0 stack'.
Proof.
  unfold markup_scan, in_text. cbn [u list_ascii_of_string map fold_left].
  unfold scan_char at 1. cbn.
  destruct (Nat.odd n); [eexists; reflexivity|].
  unfold apply_tag. cbn. rewrite str_eqb_refl, closes_cleanly_colour.
  eexists. reflexivity.
Qed.

Lemma markup_scan_end_red (R : Runtime) (n : nat) (stack : list tag) :
  exists stack',
    markup_scan R (u "[/red]") (in_text n (colour_tag R (u "red") :: stack))
    = in_text 0 stack'.
Proof.
  unfold markup_scan, in_text. cbn [u list_ascii_of_string map fold_left].
  unfold scan_char at 1. cbn.
  destruct (Nat.odd n); [eexists; reflexivity|].
  unfold apply_tag. cbn. rewrite str_eqb_refl, closes_cleanly_colour.
  eexists. reflexivity.
Qed.

(** A line in one colour whose text has no opening bracket is markup
    rich accepts, whatever follows the closing tag as plain text. *)
Lemma yellow_line_accepted (R : Runtime) (body tail : pystr) :
  bracket_free body = true -> bracket_free tail = true ->
  markup_error R (u "[yellow]" ++ body ++ u "[/yellow]" ++ tail) = false.
Proof.
  intros Hbody Htail. unfold markup_error.
  change (Some scan_start) with (in_text 0 []).
  rewrite markup_scan_app, markup_scan_yellow, markup_scan_app.
  destruct (markup_scan_plain R body 0 [colour_tag R (u "yellow")] Hbody)
    as [n ->].
  rewrite markup_scan_app.
  destruct (markup_scan_end_yellow R n []) as [stack ->].
  destruct (markup_scan_plain R tail 0 stack Htail) as [n' ->].
  reflexivity.
Qed.

Lemma red_line_accepted (R : Runtime) (body tail : pystr) :
  bracket_free body = true -> bracket_free tail = true ->
  markup_error R (u "[red]" ++ body ++ u "[/red]" ++ tail) = false.
Proof.
  intros Hbody Htail. unfold markup_error.
  change (Some scan_start) with (in_text 0 []).
  rewrite markup_scan_app, markup_scan_red, markup_scan_app.
  destruct (markup_scan_plain R body 0 [colour_tag R (u "red")] Hbody)
    as [n ->].
  rewrite markup_scan_app.
  destruct (markup_scan_end_red R n []) as [stack ->].
  destruct (markup_scan_plain R tail 0 stack Htail) as [n' ->].
  reflexivity.
Qed.


(** How rich reads markup, on examples: which strings it accepts and
    which it refuses.  A closing tag needs an open tag of its name, or
    any open tag when it has no name; a tag starts with one of
    [a-z # / @]; spaces around the name of a closing tag do not count; an
    odd number of backslashes before a tag makes it plain text; the
    parameters of a handler tag are evaluated when it is closed. *)
Lemma markup_examples :
  let accepted (s : pystr) := markup_error canonical_runtime s = false in
  let refused (s : pystr) := markup_error canonical_runtime s = true in
  (accepted [] /\ accepted (u "No schemas found")
   /\ accepted (u "[yellow]No schemas found[/yellow]")
   /\ accepted (u "enum: [info, error]")
   /\ accepted (u "[x][/]") /\ accepted (u "[x][/x]")
   /\ accepted (u "[x][/ x ]") /\ accepted (u "[x=1][/x]")
   /\ accepted (u "[a][b][/a][/b]") /\ accepted (u "[/x") /\ accepted (u "[]")
   /\ accepted (u "[@click=f][/]"))
  /\ (refused (u "[/x]") /\ refused (u "[/]") /\ refused (u "[x][/y]")
      /\ refused (u "[ x][/x]") /\ refused (u "[X][/X]")
      /\ refused (u "[a][b][/a][/a]") /\ refused (u "[[/x]")
      /\ refused (u "enum: [/a]") /\ refused (u "pattern: ^[/a-z]+$"))
  /\ (accepted (backslash :: u "[/x]")
      /\ refused (backslash :: backslash :: u "[/x]")
      /\ accepted (backslash :: backslash :: backslash :: u "[/x]")
      /\ refused (backslash :: u "b[/x]")
      /\ accepted (u "[a" ++ backslash :: u "[/x]"))
  /\ forallb (fun c : N => negb (markup_error canonical_runtime
                                              (u "[x][/" ++ [c] ++ u "]")))
              [9; 10; 11; 12; 13; 28; 29; 30; 31; 32; 133; 160; 5760; 8192;
               8202; 8232; 8233; 8239; 8287; 12288]%N = true
  /\ forallb (fun c : N => markup_error canonical_runtime
                                        (u "[x][/" ++ [c] ++ u "]"))
              [8; 14; 27; 33; 132; 134; 161; 5761; 8191; 8203; 8231; 8234;
               8240; 8288; 12289]%N = true
  /\ forallb (fun c : N => negb (markup_error canonical_runtime
                                              ([91%N; c] ++ u "][/]")))
              [97; 122; 35; 64]%N = true
  /\ forallb (fun c : N => markup_error canonical_runtime
                                        ([91%N; c] ++ u "][/]"))
              [47; 96; 123; 65; 90; 48; 32; 33; 46]%N = true
  /\ markup_error wary_runtime (u "[@click=f][/]") = true
  /\ markup_error wary_runtime (u "[@click][/]") = false
  /\ markup_error wary_runtime (u "[click=f][/]") = false
  /\ markup_error wary_runtime (u "[@click=f]") = false.
Proof. cbn zeta. repeat split; vm_compute; reflexivity. Qed.




(** ** The lines of the client as markup *)

Lemma no_logs_message_accepted (R : Runtime) (S : pystr) :
  bracket_free S = true -> markup_error R (no_logs_message S) = false.
Proof.
  intros HS.
  replace (no_logs_message S)
    with (u "[yellow]" ++ (u "No logs found for schema '" ++ S ++ u "'")
          ++ u "[/yellow]" ++ [])
    by (unfold no_logs_message; rewrite <- !app_assoc; reflexivity).
  apply yellow_line_accepted; [|reflexivity].
  now rewrite !bracket_free_app, HS.
Qed.


Lemma not_found_message_accepted (R : Runtime) (n : pystr)
      (version : option pystr) :
  bracket_free n = true ->
  (forall v, version = Some v -> bracket_free v = true) ->
  markup_error R (not_found_message n version) = false.
Proof.
  intros Hn Hv.
  replace (not_found_message n version)
    with (u "[yellow]"
          ++ (u "No schema found with name '" ++ n ++ u "'"
              ++ match version with
                 | Some v => if str_truthy v then u " and version " ++ v else []
                 | None => []
                 end)
          ++ u "[/yellow]" ++ [])
    by (unfold not_found_message; rewrite <- !app_assoc; reflexivity).
  apply yellow_line_accepted; [|reflexivity].
  rewrite !bracket_free_app, Hn. cbn [andb].
  destruct version as [v|]; [|reflexivity].
  destruct (str_truthy v); [|reflexivity].
  rewrite bracket_free_app. now rewrite (Hv v eq_refl).
Qed.


(** The lines without a variable part. *)
Lemma no_schemas_accepted (R : Runtime) :
  markup_error R (u "[yellow]No schemas found[/yellow]") = false.
Proof.
  exact (yellow_line_accepted R (u "No schemas found") [] eq_refl eq_refl).
Qed.

Lemma both_selectors_accepted (R : Runtime) :
  markup_error R (u "[red]Error: Cannot specify both --id and --name[/red]")
  = false.
Proof.
  exact (red_line_accepted R (u "Error: Cannot specify both --id and --name")
                           [] eq_refl eq_refl).
Qed.

Lemma no_selector_accepted (R : Runtime) :
  markup_error R (u "[red]Error: Must specify either --id or --name[/red]")
  = false.
Proof.
  exact (red_line_accepted R (u "Error: Must specify either --id or --name")
                           [] eq_refl eq_refl).
Qed.

Lemma name_required_accepted (R : Runtime) :
  markup_error R (u "[red]Error: schema_name is required[/red]") = false.
Proof.
  exact (red_line_accepted R (u "Error: schema_name is required")
                           [] eq_refl eq_refl).
Qed.

Lemma version_warning_accepted (R : Runtime) :
  markup_error R
    (u "[yellow]Warning: --version is ignored when using --id[/yellow]")
  = false.
Proof.
  exact (yellow_line_accepted R
           (u "Warning: --version is ignored when using --id")
           [] eq_refl eq_refl).
Qed.

(** ** Printing *)

Lemma console_print_shown (R : Runtime) (s : pystr) (w : world) :
  markup_error R s = false -> console_print R s w = (Ok tt, printed s w).
Proof. intros H. unfold console_print. now rewrite H. Qed.

Lemma print_then_shown {A : Type} (R : Runtime) (s : pystr) (res : result A)
      (w : world) :
  markup_error R s = false -> print_then R s res w = (res, printed s w).
Proof. intros H. unfold print_then. now rewrite H. Qed.

Lemma print_then_refused {A : Type} (R : Runtime) (s : pystr) (res : result A)
      (w : world) :
  markup_error R s = true -> print_then R s res w = (Raised MarkupError, w).
Proof. intros H. unfold print_then. now rewrite H. Qed.

Lemma console_print_then (R : Runtime) (s : pystr) (w : world) :
  console_print R s w = print_then R s (Ok tt) w.
Proof.
  unfold console_print, print_then. now destruct (markup_error R s).
Qed.

Lemma console_print_table_then (R : Runtime) (t : renderable) (w : world) :
  console_print_table R t w = draw_then R t w.
Proof.
  unfold console_print_table, draw_then.
  now destruct (renderable_markup_error R t).
Qed.

(** Validating the items of a list leaves the console and the request log
    as they were. *)
Lemma for_each_validate_world {A B : Type} (e : exn) (f : A -> option B)
      (items : list A) (w : world) :
  snd (for_each (fun x => or_raise e (f x)) items w) = w.
Proof.
  induction items as [|x items IH]; [reflexivity|].
  cbn [for_each]. unfold bind at 1. unfold or_raise at 1.
  destruct (f x) as [y|]; [|reflexivity].
  unfold ret at 1. unfold bind at 1.
  destruct (for_each _ items w) as [[ys|e'] w'] eqn:E; simpl in IH; subst w';
    reflexivity.
Qed.

Lemma for_each_validate_all {A B : Type} (e : exn) (f : A -> option B)
      (items : list A) (values : list B) (w : world) :
  Forall2 (fun x y => f x = Some y) items values ->
  for_each (fun x => or_raise e (f x)) items w = (Ok values, w).
Proof.
  intros H. induction H as [|x y items values Hxy _ IH]; [reflexivity|].
  cbn [for_each]. unfold bind at 1. unfold or_raise at 1. rewrite Hxy.
  unfold ret at 1. unfold bind at 1. now rewrite IH.
Qed.

(** One item that does not validate stops the whole list. *)
Lemma for_each_validate_one_fails {A B : Type} (e : exn) (f : A -> option B)
      (items : list A) (w : world) :
  Exists (fun x => f x = None) items ->
  for_each (fun x => or_raise e (f x)) items w = (Raised e, w).
Proof.
  intros H. induction items as [|x items IH]; [inversion H|].
  cbn [for_each]. unfold bind at 1. unfold or_raise at 1.
  destruct (f x) as [y|] eqn:E; [|reflexivity].
  unfold ret at 1. unfold bind at 1.
  rewrite IH; [reflexivity|].
  inversion H as [? ? Hx | ? ? Hrest]; subst; [congruence | exact Hrest].
Qed.

(** [schemas list] on a list of schemas comes down to drawing their
    table. *)
Lemma list_schemas_table (R : Runtime) (srv : server) (full : bool)
      (r : response) (d : dict) (first : json) (rest : list json)
      (schemas : list Schema.t) :
  srv all_schemas_request = Reply r -> is_success r = true ->
  json_body r = Some (JDict d) ->
  dict_get (u "schemas") d = Some (JList (first :: rest)) ->
  Forall2 (fun item s => Schema.model_validate R item = Some s)
          (first :: rest) schemas ->
  list_schemas R srv full false start
  = draw_then R
      (Table (Some (u "Schemas")) schemas_columns
             (map (fun schema => text_row (Schema.to_table_row schema full))
                  schemas))
      {| console := []; requests := [all_schemas_request] |}.
Proof.
  intros Hsrv Hok Hbody Hlist Hall. unfold list_schemas.
  unfold bind at 1. unfold http_request at 1. rewrite Hsrv.
  unfold bind at 1. unfold raise_for_status at 1. rewrite Hok.
  unfold ret at 1. unfold bind at 1. unfold response_json, or_raise at 1.
  rewrite Hbody. unfold ret at 1. unfold bind at 1. unfold py_get.
  unfold dict_get_default. rewrite Hlist. unfold ret at 1.
  cbn [py_truthy negb py_iter]. unfold bind at 1. unfold or_raise at 1.
  unfold ret at 1. unfold bind at 1.
  rewrite (for_each_validate_all ValidationError (Schema.model_validate R)
             (first :: rest) schemas _ Hall).
  apply console_print_table_then.
Qed.

(** [logs list] on a list of log records comes down to drawing their
    table. *)
Lemma list_logs_table (R : Runtime) (srv : server) (S : pystr)
      (full expand : bool) (limit : Z)
      (r : response) (d : dict) (first : json) (rest : list json)
      (logs : list Log.t) :
  S <> [] ->
  srv (logs_request S limit) = Reply r -> is_success r = true ->
  json_body r = Some (JDict d) ->
  dict_get (u "logs") d = Some (JList (first :: rest)) ->
  Forall2 (fun item l => Log.model_validate R item = Some l)
          (first :: rest) logs ->
  list_logs R srv (Some S) full false expand limit start
  = draw_then R
      (Table (Some (u "Logs for Schema: " ++ S)) logs_columns
             (map (fun log =>
                     if expand
                     then mixed_row (Log.to_table_row_expanded log full)
                     else text_row (Log.to_table_row R log full))
                  logs))
      {| console := []; requests := [logs_request S limit] |}.
Proof.
  intros Hname Hsrv Hok Hbody Hlist Hall. unfold list_logs.
  destruct S as [|c S]; [contradiction|].
  cbn [str_truthy negb]. unfold try_except.
  unfold bind at 1. unfold http_request at 1. rewrite Hsrv.
  unfold bind at 1. unfold raise_for_status at 1. rewrite Hok.
  unfold ret at 1. unfold bind at 1. unfold response_json, or_raise at 1.
  rewrite Hbody. unfold ret at 1. unfold bind at 1. unfold py_get.
  unfold dict_get_default. rewrite Hlist. unfold ret at 1.
  cbn [py_truthy negb py_iter]. unfold bind at 1. unfold or_raise at 1.
  unfold ret at 1. unfold bind at 1.
  rewrite (for_each_validate_all ValidationError (Log.model_validate R)
             (first :: rest) logs _ Hall).
  rewrite console_print_table_then. unfold draw_then.
  now destruct (renderable_markup_error R _).
Qed.

Lemma draw_then_drawn (R : Runtime) (t : renderable) (w : world) :
  renderable_markup_error R t = false -> draw_then R t w = (Ok tt, drawn t w).
Proof. intros H. unfold draw_then. now rewrite H. Qed.

Lemma draw_then_refused (R : Runtime) (t : renderable) (w : world) :
  renderable_markup_error R t = true ->
  draw_then R t w = (Raised MarkupError, w).
Proof. intros H. unfold draw_then. now rewrite H. Qed.

(** ** The digits of an identifier *)

Lemma hex_fixed_split (a b : nat) (n : N) :
  hex_fixed (b + a) n
  = hex_fixed b (N.shiftr n (4 * N.of_nat a)) ++ hex_fixed a n.
Proof.
  revert n. induction a as [|a IH]; intros n.
  - rewrite Nat.add_0_r. cbn [hex_fixed]. rewrite app_nil_r.
    now rewrite N.mul_0_r, N.shiftr_0_r.
  - rewrite Nat.add_succ_r. cbn [hex_fixed]. rewrite IH, <- app_assoc.
    rewrite N.shiftr_shiftr.
    replace (4 + 4 * N.of_nat a)%N with (4 * N.of_nat (S a))%N by lia.
    reflexivity.
Qed.

Lemma firstn_app_exact {A : Type} (l1 l2 : list A) :
  firstn (List.length l1) (l1 ++ l2) = l1.
Proof. induction l1 as [|a l1 IH]; simpl; [reflexivity | now rewrite IH]. Qed.

Lemma uuid_str_top_bits (x : UUID) :
  firstn 8 (uuid_str x) = hex_fixed 8 (N.shiftr (uuid_int x) 96).
Proof.
  unfold uuid_str, uuid_hex.
  replace (hex_fixed 32 (uuid_int x))
    with (hex_fixed (8 + 24) (uuid_int x)) by reflexivity.
  rewrite (hex_fixed_split 24 8 (uuid_int x)).
  change (4 * N.of_nat 24)%N with 96%N.
  set (top := hex_fixed 8 (N.shiftr (uuid_int x) 96)).
  set (low := hex_fixed 24 (uuid_int x)).
  assert (Hlen : List.length top = 8) by apply length_hex_fixed.
  pose proof (firstn_app_exact top low) as Htop. rewrite Hlen in Htop.
  rewrite Htop.
  match goal with
  | |- firstn 8 (top ++ ?rest) = _ =>
      pose proof (firstn_app_exact top rest) as Hcut
  end.
  rewrite Hlen in Hcut. exact Hcut.
Qed.

Lemma short_id_top_bits (x : UUID) :
  short_id x = hex_fixed 8 (N.shiftr (uuid_int x) 96) ++ u "...".
Proof. unfold short_id, slice_to. now rewrite uuid_str_top_bits. Qed.

(** C7, amended.  In the schema list, the log list and the expanded log
    list the identifier column shows the first 8 characters of the
    canonical UUID string (the hexadecimal digits of the 32 high bits)
    followed by a 3-character ellipsis, 11 characters, when the full-id
    toggle is off, and the canonical string, 36 characters, when it is
    on.  This holds of the rows and of the table each list command
    draws: the command ends by drawing one table whose identifier column
    is that of the validated records, in their order; the table is shown
    when its strings are markup rich accepts, and otherwise the command
    ends with rich's error and shows nothing.  The detail view of a
    schema has no such toggle and always shows the canonical string. *)
Theorem identifier_rendering
        (R : Runtime) (schema : Schema.t) (log : Log.t) (full : bool)
        (def_table : renderable) :
  let shown (x : UUID) :=
    if full then uuid_str x else firstn 8 (uuid_str x) ++ u "..." in
  cell1 (Schema.to_table_row schema full) = shown (Schema.id schema)
  /\ cell2 (Log.to_table_row R log full) = shown (Log.schema_id log)
  /\ cell2 (Log.to_table_row_expanded log full) = shown (Log.schema_id log)
  /\ nth 0 (table_rows (detail_table schema def_table)) []
     = [Text (u "ID"); Text (uuid_str (Schema.id schema))]
  /\ (forall x : UUID,
         List.length (uuid_str x) = 36
         /\ List.length (firstn 8 (uuid_str x) ++ u "...") = 11
         /\ firstn 8 (uuid_str x) = hex_fixed 8 (N.shiftr (uuid_int x) 96))
  /\ uuid_str sample_id = u "123e4567-e89b-12d3-a456-426614174000"
  /\ firstn 8 (uuid_str sample_id) ++ u "..." = u "123e4567..."
  /\ (forall (srv : server) (r : response) (d : dict) (first : json)
             (rest : list json) (schemas : list Schema.t),
         srv all_schemas_request = Reply r -> is_success r = true ->
         json_body r = Some (JDict d) ->
         dict_get (u "schemas") d = Some (JList (first :: rest)) ->
         Forall2 (fun item s => Schema.model_validate R item = Some s)
                 (first :: rest) schemas ->
         let run := list_schemas R srv full false start in
         exists t,
           column 0 t = map (fun s => Text (shown (Schema.id s))) schemas
           /\ (renderable_markup_error R t = false ->
               run = (Ok tt, {| console := [Print t];
                                requests := [all_schemas_request] |}))
           /\ (renderable_markup_error R t = true ->
               run = (Raised MarkupError,
                      {| console := [];
                         requests := [all_schemas_request] |})))
  /\ (forall (srv : server) (S : pystr) (expand : bool) (limit : Z)
             (r : response) (d : dict) (first : json) (rest : list json)
             (logs : list Log.t),
         S <> [] ->
         srv (logs_request S limit) = Reply r -> is_success r = true ->
         json_body r = Some (JDict d) ->
         dict_get (u "logs") d = Some (JList (first :: rest)) ->
         Forall2 (fun item l => Log.model_validate R item = Some l)
                 (first :: rest) logs ->
         let run := list_logs R srv (Some S) full false expand limit start in
         exists t,
           column 1 t = map (fun l => Text (shown (Log.schema_id l))) logs
           /\ (renderable_markup_error R t = false ->
               run = (Ok tt, {| console := [Print t];
                                requests := [logs_request S limit] |}))
           /\ (renderable_markup_error R t = true ->
               run = (Raised MarkupError,
                      {| console := [];
                         requests := [logs_request S limit] |}))).
Proof.
  cbn zeta.
  split; [reflexivity|]. split; [reflexivity|]. split; [reflexivity|].
  split; [reflexivity|].
  split.
  { intros x. split; [apply length_uuid_str|].
    split; [apply (length_short_id x) | apply uuid_str_top_bits]. }
  split; [vm_compute; reflexivity|]. split; [vm_compute; reflexivity|].
  split.
  - intros srv r d first rest schemas Hsrv Hok Hbody Hlist Hall.
    rewrite (list_schemas_table R srv full r d first rest schemas
                                Hsrv Hok Hbody Hlist Hall).
    match goal with |- context [draw_then R ?t _] => exists t end.
    split; [|split].
    + unfold column, table_rows. rewrite map_map. apply map_ext.
      intros s. reflexivity.
    + intros Hm. now rewrite (draw_then_drawn _ _ _ Hm).
    + intros Hm. now rewrite (draw_then_refused _ _ _ Hm).
  - intros srv S expand limit r d first rest logs HS Hsrv Hok Hbody Hlist Hall.
    rewrite (list_logs_table R srv S full expand limit r d first rest logs
                             HS Hsrv Hok Hbody Hlist Hall).
    match goal with |- context [draw_then R ?t _] => exists t end.
    split; [|split].
    + unfold column, table_rows. rewrite map_map. apply map_ext.
      intros l. destruct expand; reflexivity.
    + intros Hm. now rewrite (draw_then_drawn _ _ _ Hm).
    + intros Hm. now rewrite (draw_then_refused _ _ _ Hm).
Qed.

(** ** Runs of the commands *)

Ltac unfold_cmd :=
  unfold try_except, bind, http_request, raise_for_status, response_json,
    or_raise, py_get, console_print_json, emit, when, raise, ret.

(** What each listing command does once the list it reads is empty. *)
Lemma list_schemas_nothing (R : Runtime) (srv : server) (full j : bool)
      (r : response) (d : dict) :
  srv all_schemas_request = Reply r -> is_success r = true ->
  json_body r = Some (JDict d) ->
  py_truthy (dict_get_default (u "schemas") (JList []) d) = false ->
  list_schemas R srv full j start
  = (Ok tt, {| console := [Print (Text (u "[yellow]No schemas found[/yellow]"))];
               requests := [all_schemas_request] |}).
Proof.
  intros Hsrv Hok Hbody Hlist. unfold list_schemas. unfold_cmd.
  rewrite Hsrv, Hok, Hbody, Hlist. cbn [negb].
  now rewrite (console_print_shown R _ _ (no_schemas_accepted R)).
Qed.

Lemma mig_list_schemas_nothing (R : Runtime) (srv : server) (full j : bool)
      (r : response) (d : dict) :
  srv all_schemas_request = Reply r -> is_success r = true ->
  json_body r = Some (JDict d) ->
  py_truthy (dict_get_default (u "schemas") (JList []) d) = false ->
  PythonMig.list_schemas R srv full j start
  = (Ok tt, {| console := [Print (Text (u "[yellow]No schemas found[/yellow]"))];
               requests := [all_schemas_request] |}).
Proof.
  intros Hsrv Hok Hbody Hlist. unfold PythonMig.list_schemas. unfold_cmd.
  rewrite Hsrv, Hok, Hbody, Hlist. cbn [negb].
  now rewrite (console_print_shown R _ _ (no_schemas_accepted R)).
Qed.

Lemma list_logs_nothing (R : Runtime) (srv : server) (S : pystr)
      (full j expand : bool) (limit : Z) (r : response) (d : dict) :
  S <> [] ->
  srv (logs_request S limit) = Reply r -> is_success r = true ->
  json_body r = Some (JDict d) ->
  py_truthy (dict_get_default (u "logs") (JList []) d) = false ->
  list_logs R srv (Some S) full j expand limit start
  = print_then R (no_logs_message S) (Ok tt)
               {| console := []; requests := [logs_request S limit] |}.
Proof.
  intros Hname Hsrv Hok Hbody Hlist. unfold list_logs.
  destruct S as [|c S]; [contradiction|].
  cbn [str_truthy negb]. unfold_cmd.
  rewrite Hsrv, Hok, Hbody, Hlist. cbn [negb].
  rewrite console_print_then. unfold print_then.
  now destruct (markup_error R _).
Qed.

Lemma get_schema_by_name_nothing (R : Runtime) (srv : server) (n : pystr)
      (version : option pystr) (j : bool) (r : response) (d : dict) :
  n <> [] ->
  srv (by_name_request n version) = Reply r -> is_success r = true ->
  json_body r = Some (JDict d) ->
  py_truthy (dict_get_default (u "schemas") (JList []) d) = false ->
  get_schema R srv None (Some n) version j start
  = print_then R (not_found_message n version) (Raised (Exit 1))
               {| console := []; requests := [by_name_request n version] |}.
Proof.
  intros Hname Hsrv Hok Hbody Hlist. unfold get_schema, lookup_by_name.
  destruct n as [|c n]; [contradiction|].
  cbn [str_truthy opt_truthy andb]. unfold_cmd.
  rewrite Hsrv, Hok, Hbody, Hlist. cbn [negb].
  unfold console_print, print_then, raise, emit.
  now destruct (markup_error R _).
Qed.


Lemma get_default_empty (k : pystr) (d : dict) :
  dict_get k d = Some (JList []) ->
  py_truthy (dict_get_default k (JList []) d) = false.
Proof. unfold dict_get_default. now intros ->. Qed.

Lemma get_default_falsy (k : pystr) (d : dict) (v : json) :
  dict_get k d = Some v -> py_truthy v = false ->
  py_truthy (dict_get_default k (JList []) d) = false.
Proof. unfold dict_get_default. now intros ->. Qed.








(** C5, as worded, fails when the name given next to [--id] is the empty
    string: the test [schema_id and name] is then false, the lookup by id
    runs, the server receives one request and the command ends with
    code 0. *)
Lemma empty_name_with_id_reaches_the_server :
  (let run := get_schema canonical_runtime
                         (always (Reply (ok_response sample_payload)))
                         (Some sample_id) (Some []) None true start in
   requests (snd run) = [by_id_request sample_id]
   /\ console (snd run) = [PrintJson sample_payload]
   /\ exit_code (fst run) = 0%Z)
  /\ ~ (forall (R : Runtime) (srv : server) (i : UUID) (n : pystr)
               (version : option pystr) (j : bool),
           let run := get_schema R srv (Some i) (Some n) version j start in
           exit_code (fst run) = 1%Z /\ requests (snd run) = []).
Proof.
  split; [vm_compute; repeat split; reflexivity|].
  intros H.
  destruct (H canonical_runtime (always (Reply (ok_response sample_payload)))
              sample_id [] None true) as [_ Hreq].
  vm_compute in Hreq. discriminate.
Qed.

(** C5, amended.  [schemas get] given both [--id] and a non-empty
    [--name] prints the usage error and exits with code 1 before any
    request: the request log is unchanged, and the console gains the error
    line and nothing else. *)
Theorem both_selectors_rejected
        (R : Runtime) (srv : server) (i : UUID) (n : pystr)
        (version : option pystr) (j : bool) (w : world)
        (Hname : n <> []) :
  get_schema R srv (Some i) (Some n) version j w
  = (Raised (Exit 1),
     {| console := console w
                   ++ [Print (Text (u "[red]Error: Cannot specify both --id and --name[/red]"))];
        requests := requests w |})
  /\ exit_code (fst (get_schema R srv (Some i) (Some n) version j w)) = 1%Z
  /\ requests (snd (get_schema R srv (Some i) (Some n) version j start)) = []
  /\ printed_tables
       (console (snd (get_schema R srv (Some i) (Some n) version j start))) = [].
Proof.
  assert (Hrun : forall w',
             get_schema R srv (Some i) (Some n) version j w'
             = (Raised (Exit 1),
                {| console := console w'
                              ++ [Print (Text (u "[red]Error: Cannot specify both --id and --name[/red]"))];
                   requests := requests w' |})).
  { intros w'. unfold get_schema. destruct n as [|c n]; [contradiction|].
    cbn [opt_truthy str_truthy andb]. unfold bind.
    now rewrite (console_print_shown R _ _ (both_selectors_accepted R)). }
  rewrite !Hrun. repeat split; reflexivity.
Qed.

Lemma both_selectors_rejected_witness :
  u "orders" <> []
  /\ get_schema canonical_runtime (always (Reply (ok_response sample_payload)))
                (Some sample_id) (Some (u "orders")) None false start
     = (Raised (Exit 1),
        {| console := [Print (Text (u "[red]Error: Cannot specify both --id and --name[/red]"))];
           requests := [] |}).
Proof.
  assert (Hn : u "orders" <> []) by discriminate.
  split; [exact Hn|].
  exact (proj1 (both_selectors_rejected
                  canonical_runtime
                  (always (Reply (ok_response sample_payload)))
                  sample_id (u "orders") None false start Hn)).
Defined.

(** ** The lookup by name *)












Lemma get_schema_by_name_one (R : Runtime) (srv : server) (n : pystr)
      (version : option pystr) (j : bool) (r : response) (d : dict)
      (first : json) (schema : Schema.t) :
  n <> [] ->
  srv (by_name_request n version) = Reply r -> is_success r = true ->
  json_body r = Some (JDict d) ->
  dict_get (u "schemas") d = Some (JList [first]) ->
  Schema.model_validate R first = Some schema ->
  get_schema R srv None (Some n) version j start
  = (if j then console_print_json (Schema.model_dump schema)
     else schema_detail R schema)
      {| console := []; requests := [by_name_request n version] |}.
Proof.
  intros Hname Hsrv Hok Hbody Hlist Hvalid.
  unfold get_schema, lookup_by_name.
  destruct n as [|c n]; [contradiction|].
  cbn [str_truthy opt_truthy andb]. unfold_cmd.
  rewrite Hsrv, Hok, Hbody. unfold dict_get_default. rewrite Hlist.
  cbn [py_truthy negb py_first py_len]. unfold_cmd.
  rewrite Hvalid. reflexivity.
Qed.




(** ** The transport wrapper *)







(** ** JSON output *)

(** What validation tells about the payload a schema comes from. *)
Lemma model_validate_fields (R : Runtime) (payload : json) (schema : Schema.t) :
  Schema.model_validate R payload = Some schema ->
  exists p,
    payload = JDict p
    /\ field_with (validate_uuid R) (u "id") p = Some (Schema.id schema)
    /\ field_str (u "name") p = Some (Schema.name schema)
    /\ field_str (u "version") p = Some (Schema.version schema)
    /\ field_opt_str (u "description") p = Some (Schema.description schema)
    /\ field_dict (u "schema_definition") p
       = Some (Schema.schema_definition schema)
    /\ field_with (validate_datetime R) (u "created_at") p
       = Some (Schema.created_at schema)
    /\ field_with (validate_datetime R) (u "updated_at") p
       = Some (Schema.updated_at schema).
Proof.
  unfold Schema.model_validate. destruct payload as [| | | | |l|p];
    try discriminate.
  unfold obind.
  destruct (field_with (validate_uuid R) (u "id") p) as [i|] eqn:Hi;
    [|discriminate].
  destruct (field_str (u "name") p) as [n|] eqn:Hn; [|discriminate].
  destruct (field_str (u "version") p) as [v|] eqn:Hv; [|discriminate].
  destruct (field_opt_str (u "description") p) as [ds|] eqn:Hds;
    [|discriminate].
  destruct (field_dict (u "schema_definition") p) as [sd|] eqn:Hsd;
    [|discriminate].
  destruct (field_with (validate_datetime R) (u "created_at") p) as [c|] eqn:Hc;
    [|discriminate].
  destruct (field_with (validate_datetime R) (u "updated_at") p) as [up|]
    eqn:Hup; [|discriminate].
  intros [= <-]. exists p. repeat split; assumption.
Qed.

Lemma field_str_get (k : pystr) (p : dict) (s : pystr) :
  field_str k p = Some s -> dict_get k p = Some (JStr s).
Proof.
  unfold field_str. destruct (dict_get k p) as [[]|]; try discriminate.
  now intros [= ->].
Qed.

Lemma field_dict_get (k : pystr) (p x : dict) :
  field_dict k p = Some x -> dict_get k p = Some (JDict x).
Proof.
  unfold field_dict. destruct (dict_get k p) as [[]|]; try discriminate.
  now intros [= ->].
Qed.

Lemma field_opt_str_get (k : pystr) (p : dict) (o : option pystr) :
  field_opt_str k p = Some o ->
  json_of_opt_str o
  = match dict_get k p with Some v => v | None => JNull end.
Proof.
  unfold field_opt_str. destruct (dict_get k p) as [[]|]; try discriminate;
    now intros [= <-].
Qed.

Lemma field_with_get {A : Type} (validate : json -> option A) (k : pystr)
      (p : dict) (a : A) :
  field_with validate k p = Some a ->
  exists raw, dict_get k p = Some raw /\ validate raw = Some a.
Proof.
  unfold field_with. destruct (dict_get k p) as [raw|]; [|discriminate].
  intros H. now exists raw.
Qed.

Create HintDb no_table.

Lemma no_table_ret {A : Type} (a : A) : draws_no_table (ret a).
Proof. intros w. reflexivity. Qed.

Lemma no_table_raise {A : Type} (e : exn) : draws_no_table (@raise A e).
Proof. intros w. reflexivity. Qed.

Lemma no_table_bind {A B : Type} (m : M A) (k : A -> M B) :
  draws_no_table m -> (forall a, draws_no_table (k a)) ->
  draws_no_table (bind m k).
Proof.
  intros Hm Hk w. unfold bind. specialize (Hm w).
  destruct (m w) as [[a|e] w']; simpl in *; [|exact Hm].
  now rewrite Hk.
Qed.

Lemma printed_tables_app (a b : list event) :
  printed_tables (a ++ b) = printed_tables a ++ printed_tables b.
Proof. unfold printed_tables. apply flat_map_app. Qed.

Lemma no_table_print (R : Runtime) (s : pystr) :
  draws_no_table (console_print R s).
Proof.
  intros w. unfold console_print, raise, emit.
  destruct (markup_error R s); [reflexivity|]. simpl.
  rewrite printed_tables_app. simpl. apply app_nil_r.
Qed.

Lemma no_table_print_json (data : json) :
  draws_no_table (console_print_json data).
Proof.
  intros w. unfold console_print_json, emit. simpl.
  rewrite printed_tables_app. simpl. apply app_nil_r.
Qed.

Lemma no_table_request (srv : server) (req : request) :
  draws_no_table (http_request srv req).
Proof. intros w. unfold http_request. now destruct (srv req). Qed.

Lemma no_table_or_raise {A : Type} (e : exn) (o : option A) :
  draws_no_table (or_raise e o).
Proof. destruct o; [apply no_table_ret | apply no_table_raise]. Qed.

Lemma no_table_status (R : Runtime) (req : request) (r : response) :
  draws_no_table (raise_for_status R req r).
Proof.
  unfold raise_for_status.
  destruct (is_success r); [apply no_table_ret | apply no_table_raise].
Qed.

Lemma no_table_json (r : response) : draws_no_table (response_json r).
Proof. apply no_table_or_raise. Qed.

Lemma no_table_py_get (data : json) (k : pystr) (default : json) :
  draws_no_table (py_get data k default).
Proof. destruct data; try apply no_table_raise. apply no_table_ret. Qed.

Lemma no_table_py_first (v : json) : draws_no_table (py_first v).
Proof.
  destruct v as [| | | |[|c s]|[|x l]|d];
    try apply no_table_raise; apply no_table_ret.
Qed.

Lemma no_table_py_len (v : json) : draws_no_table (py_len v).
Proof. destruct v; try apply no_table_raise; apply no_table_ret. Qed.

Lemma no_table_when (b : bool) (m : M unit) :
  draws_no_table m -> draws_no_table (when b m).
Proof. intros H. destruct b; [exact H | apply no_table_ret]. Qed.

Lemma no_table_for_each {A B : Type} (f : A -> M B) (xs : list A) :
  (forall x, draws_no_table (f x)) -> draws_no_table (for_each f xs).
Proof.
  intros Hf. induction xs as [|x xs IH]; [apply no_table_ret|].
  cbn [for_each]. apply no_table_bind; [apply Hf|]. intros y.
  apply no_table_bind; [exact IH|]. intros ys. apply no_table_ret.
Qed.

#[local] Hint Resolve no_table_ret no_table_raise no_table_print
  no_table_print_json no_table_request no_table_or_raise no_table_status
  no_table_json no_table_py_get no_table_py_first no_table_py_len
  no_table_when no_table_for_each : no_table.

Ltac no_table_step :=
  first
    [ apply no_table_bind; [|intros]
    | match goal with
      | |- draws_no_table (if ?b then _ else _) => destruct b
      | |- draws_no_table (match ?x with _ => _ end) => destruct x
      end
    | solve [auto with no_table] ].

Lemma lookup_by_id_no_table (R : Runtime) (srv : server) (i : UUID)
      (version : option pystr) :
  draws_no_table (lookup_by_id R srv i version).
Proof. unfold lookup_by_id. repeat no_table_step. Qed.

Lemma lookup_by_name_no_table (R : Runtime) (srv : server) (n : pystr)
      (version : option pystr) :
  draws_no_table (lookup_by_name R srv n version).
Proof. unfold lookup_by_name. repeat no_table_step. Qed.

(** In JSON mode [schemas get] draws no table, whatever the server says. *)
Lemma get_schema_json_no_table (R : Runtime) (srv : server)
      (schema_id : option UUID) (name version : option pystr) :
  draws_no_table (get_schema R srv schema_id name version true).
Proof.
  unfold get_schema.
  destruct schema_id as [i|], name as [n|]; cbn [andb opt_truthy];
    repeat no_table_step;
    auto using lookup_by_id_no_table, lookup_by_name_no_table.
Qed.

(** In JSON mode [schemas list] draws no table, whatever the server says. *)
Lemma list_schemas_json_no_table (R : Runtime) (srv : server) (full : bool) :
  draws_no_table (list_schemas R srv full true).
Proof. unfold list_schemas. repeat no_table_step. Qed.

Lemma get_schema_by_id_json (R : Runtime) (srv : server) (i : UUID)
      (version : option pystr) (r : response) (payload : json)
      (schema : Schema.t) :
  srv (by_id_request i) = Reply r -> is_success r = true ->
  json_body r = Some payload ->
  Schema.model_validate R payload = Some schema ->
  get_schema R srv (Some i) None version true start
  = (Ok tt,
     {| console :=
          (if opt_truthy version
           then [Print (Text (u "[yellow]Warning: --version is ignored when using --id[/yellow]"))]
           else [])
          ++ [PrintJson (Schema.model_dump schema)];
        requests := [by_id_request i] |}).
Proof.
  intros Hsrv Hok Hbody Hvalid. unfold get_schema, lookup_by_id.
  cbn [andb opt_truthy]. unfold_cmd.
  destruct (opt_truthy version).
  - rewrite (console_print_shown R _ _ (version_warning_accepted R)).
    unfold printed. cbn [console requests start app].
    rewrite Hsrv, Hok, Hbody, Hvalid. reflexivity.
  - rewrite Hsrv, Hok, Hbody, Hvalid. reflexivity.
Qed.

Lemma list_schemas_json (R : Runtime) (srv : server) (full : bool)
      (r : response) (d : dict) (first : json) (rest : list json)
      (schemas : list Schema.t) :
  srv all_schemas_request = Reply r -> is_success r = true ->
  json_body r = Some (JDict d) ->
  dict_get (u "schemas") d = Some (JList (first :: rest)) ->
  Forall2 (fun item s => Schema.model_validate R item = Some s)
          (first :: rest) schemas ->
  list_schemas R srv full true start
  = (Ok tt,
     {| console := [PrintJson (JList (map Schema.model_dump schemas))];
        requests := [all_schemas_request] |}).
Proof.
  intros Hsrv Hok Hbody Hlist Hall. unfold list_schemas.
  unfold bind at 1. unfold http_request at 1. rewrite Hsrv.
  unfold bind at 1. unfold raise_for_status at 1. rewrite Hok.
  unfold ret at 1. unfold bind at 1. unfold response_json, or_raise at 1.
  rewrite Hbody. unfold ret at 1. unfold bind at 1. unfold py_get.
  unfold dict_get_default. rewrite Hlist. unfold ret at 1.
  cbn [py_truthy negb py_iter]. unfold bind at 1. unfold or_raise at 1.
  unfold ret at 1. unfold bind at 1.
  rewrite (for_each_validate_all ValidationError (Schema.model_validate R)
             (first :: rest) schemas _ Hall).
  reflexivity.
Qed.

(** JSON mode changes nothing in a value whose numbers are all finite. *)
Lemma json_mode_finite : forall j : json, finite j = true -> json_mode j = j.
Proof.
  fix IH 1. intros [| b | z | r | s | l | d]; cbn [finite json_mode];
    intros H; try reflexivity.
  - apply negb_true_iff in H. now rewrite H.
  - f_equal. induction l as [|x l IHl]; [reflexivity|].
    cbn [forallb] in H. apply andb_true_iff in H as [Hx Hl].
    cbn [map]. now rewrite (IH x Hx), (IHl Hl).
  - f_equal. induction d as [|[k v] d IHd]; [reflexivity|].
    cbn [forallb snd] in H. apply andb_true_iff in H as [Hv Hd].
    cbn [map]. now rewrite (IH v Hv), (IHd Hd).
Qed.

(** ** The canonical text of an identifier determines it *)

Lemma hex_value_digit (d : N) : (d < 16)%N -> hex_value (hex_digit d) = Some d.
Proof.
  intros H.
  assert (Hcases : (d = 0 \/ d = 1 \/ d = 2 \/ d = 3 \/ d = 4 \/ d = 5
                    \/ d = 6 \/ d = 7 \/ d = 8 \/ d = 9 \/ d = 10 \/ d = 11
                    \/ d = 12 \/ d = 13 \/ d = 14 \/ d = 15)%N) by lia.
  repeat (destruct Hcases as [-> | Hcases]; [reflexivity|]).
  subst. reflexivity.
Qed.

Lemma parse_hex_snoc (acc : N) (a : pystr) (c : N) :
  parse_hex acc (a ++ [c])
  = match parse_hex acc a with
    | Some v => match hex_value c with
                | Some d => Some (16 * v + d)%N
                | None => None
                end
    | None => None
    end.
Proof.
  revert acc. induction a as [|x a IH]; intros acc; simpl.
  - unfold obind. now destruct (hex_value c).
  - unfold obind. destruct (hex_value x); [apply IH | reflexivity].
Qed.

Lemma parse_hex_fixed (k : nat) (n acc : N) :
  parse_hex acc (hex_fixed k n)
  = Some (acc * 16 ^ N.of_nat k + n mod 16 ^ N.of_nat k)%N.
Proof.
  revert n. induction k as [|k IH]; intros n.
  - cbn [hex_fixed parse_hex]. f_equal. cbn. rewrite N.mod_1_r. lia.
  - cbn [hex_fixed]. rewrite parse_hex_snoc, IH.
    change 15%N with (N.ones 4). rewrite N.land_ones.
    rewrite hex_value_digit by (apply N.mod_upper_bound; discriminate).
    f_equal. rewrite N.shiftr_div_pow2.
    replace (N.of_nat (S k)) with (N.succ (N.of_nat k)) by lia.
    rewrite N.pow_succ_r'. change (2 ^ 4)%N with 16%N.
    rewrite (N.Div0.mod_mul_r n 16 (16 ^ N.of_nat k)). lia.
Qed.

Lemma uuid_str_digits (x : UUID) :
  firstn 8 (uuid_str x) ++ firstn 4 (skipn 9 (uuid_str x))
  ++ firstn 4 (skipn 14 (uuid_str x)) ++ firstn 4 (skipn 19 (uuid_str x))
  ++ skipn 24 (uuid_str x)
  = hex_fixed 32 (uuid_int x).
Proof. reflexivity. Qed.

Lemma uuid_str_hyphens (x : UUID) :
  char_at 8 (uuid_str x) = 45%N /\ char_at 13 (uuid_str x) = 45%N
  /\ char_at 18 (uuid_str x) = 45%N /\ char_at 23 (uuid_str x) = 45%N.
Proof. repeat split; reflexivity. Qed.

Lemma parse_uuid_str (x : UUID) :
  (uuid_int x < 2 ^ 128)%N -> parse_uuid (JStr (uuid_str x)) = Some x.
Proof.
  intros Hx. unfold parse_uuid.
  rewrite length_uuid_str.
  destruct (uuid_str_hyphens x) as (-> & -> & -> & ->).
  cbn [Nat.eqb N.eqb Pos.eqb andb].
  rewrite uuid_str_digits, parse_hex_fixed. unfold obind.
  change (16 ^ N.of_nat 32)%N with (2 ^ 128)%N.
  rewrite N.mul_0_l, N.add_0_l, N.mod_small by exact Hx.
  now destruct x.
Qed.

(** C6, as worded, fails for a schema definition that holds a number
    JSON cannot write: the bound [1E400] is read as [inf], the schema
    validates, and in the JSON output the bound is [null], so the
    schema_definition printed is not that of the payload. *)
Lemma non_finite_number_becomes_null :
  Schema.model_validate canonical_runtime overflowing_payload
  = Some overflowing_schema
  /\ get_schema canonical_runtime
                (always (Reply (ok_response overflowing_payload)))
                (Some sample_id) None None true start
     = (Ok tt,
        {| console := [PrintJson (Schema.model_dump overflowing_schema)];
           requests := [by_id_request sample_id] |})
  /\ (exists out,
         Schema.model_dump overflowing_schema = JDict out
         /\ dict_get (u "schema_definition") out
            = Some (JDict [(u "properties",
                            JDict [(u "ratio",
                                    JDict [(u "type", JStr (u "number"));
                                           (u "maximum", JNull)])])]))
  /\ ~ (forall (R : Runtime) (p out : dict) (schema : Schema.t),
           Schema.model_validate R (JDict p) = Some schema ->
           Schema.model_dump schema = JDict out ->
           dict_get (u "schema_definition") out
           = dict_get (u "schema_definition") p).
Proof.
  split; [reflexivity|]. split; [vm_compute; reflexivity|].
  split; [eexists; split; reflexivity|].
  intros H.
  specialize (H canonical_runtime _ _ overflowing_schema
                (eq_refl : Schema.model_validate canonical_runtime
                                                 overflowing_payload
                           = Some overflowing_schema)
                eq_refl).
  vm_compute in H. discriminate.
Qed.

(** C6, amended.  A schema validated from a payload and emitted in JSON
    mode is the object of exactly the seven fields id, name, version,
    description, schema_definition, created_at, updated_at.  Name and
    version are those of the payload and description is the payload's
    (null when the payload has none).  The schema_definition is the
    payload's with every number that is not finite (inf, nan) replaced by
    null, so it is the payload's own when all its numbers are finite.
    The id is the whole canonical 36-character string of the payload's
    identifier, a text that determines the identifier, and the
    timestamps are the ISO 8601 texts of the payload's timestamps; an id
    or a timestamp the payload gives in canonical form is reproduced as
    it is.  In JSON mode [schemas get] and [schemas list] print that
    JSON and draw no table, so no truncation and no constraint
    formatting takes place. *)
Theorem json_output_is_lossless
        (R : Runtime) (payload : json) (schema : Schema.t)
        (Hvalid : Schema.model_validate R payload = Some schema) :
  (exists (p out sd : dict),
      payload = JDict p
      /\ Schema.model_dump schema = JDict out
      /\ dict_keys out
         = [u "id"; u "name"; u "version"; u "description";
            u "schema_definition"; u "created_at"; u "updated_at"]
      /\ dict_get (u "name") out = dict_get (u "name") p
      /\ dict_get (u "version") out = dict_get (u "version") p
      /\ dict_get (u "schema_definition") p = Some (JDict sd)
      /\ dict_get (u "schema_definition") out = Some (json_mode (JDict sd))
      /\ (finite (JDict sd) = true ->
          dict_get (u "schema_definition") out
          = dict_get (u "schema_definition") p)
      /\ dict_get (u "description") out
         = Some (match dict_get (u "description") p with
                 | Some v => v
                 | None => JNull
                 end)
      /\ (exists raw, dict_get (u "id") p = Some raw
                      /\ validate_uuid R raw = Some (Schema.id schema))
      /\ dict_get (u "id") out = Some (JStr (uuid_str (Schema.id schema)))
      /\ List.length (uuid_str (Schema.id schema)) = 36
      /\ (forall x : UUID,
             dict_get (u "id") p = Some (JStr (uuid_str x)) ->
             validate_uuid R (JStr (uuid_str x)) = Some x ->
             dict_get (u "id") out = dict_get (u "id") p)
      /\ (exists raw, dict_get (u "created_at") p = Some raw
                      /\ validate_datetime R raw
                         = Some (Schema.created_at schema))
      /\ dict_get (u "created_at") out
         = Some (JStr (datetime_iso (Schema.created_at schema)))
      /\ (exists raw, dict_get (u "updated_at") p = Some raw
                      /\ validate_datetime R raw
                         = Some (Schema.updated_at schema))
      /\ dict_get (u "updated_at") out
         = Some (JStr (datetime_iso (Schema.updated_at schema)))
      /\ (forall (key : pystr) (t : datetime),
             key = u "created_at" \/ key = u "updated_at" ->
             dict_get key p = Some (JStr (datetime_iso t)) ->
             validate_datetime R (JStr (datetime_iso t)) = Some t ->
             dict_get key out = dict_get key p))
  /\ ((forall j : json, finite j = true -> json_mode j = j)
      /\ json_mode (JList [JFloat (u "inf"); JFloat (u "-inf");
                           JFloat (u "nan"); JFloat (u "1.5"); JInt 7])
         = JList [JNull; JNull; JNull; JFloat (u "1.5"); JInt 7])
  /\ ((forall x : UUID,
          (uuid_int x < 2 ^ 128)%N -> parse_uuid (JStr (uuid_str x)) = Some x)
      /\ uuid_str sample_id = u "123e4567-e89b-12d3-a456-426614174000"
      /\ datetime_iso sample_time = u "2024-01-15T10:30:00Z"
      /\ datetime_iso eastern_time = u "2024-01-15T10:30:00.000250+05:30"
      /\ datetime_iso western_time = u "2024-12-31T23:59:59-08:00"
      /\ datetime_iso naive_time = u "2024-01-15T10:30:00"
      /\ datetime_iso early_time = u "0999-01-02T03:04:05Z")
  /\ (forall (srv : server) (i : UUID) (r : response),
         srv (by_id_request i) = Reply r -> is_success r = true ->
         json_body r = Some payload ->
         get_schema R srv (Some i) None None true start
         = (Ok tt,
            {| console := [PrintJson (Schema.model_dump schema)];
               requests := [by_id_request i] |}))
  /\ (forall (srv : server) (n : pystr) (version : option pystr)
             (r : response) (d : dict),
         n <> [] ->
         srv (by_name_request n version) = Reply r -> is_success r = true ->
         json_body r = Some (JDict d) ->
         dict_get (u "schemas") d = Some (JList [payload]) ->
         get_schema R srv None (Some n) version true start
         = (Ok tt,
            {| console := [PrintJson (Schema.model_dump schema)];
               requests := [by_name_request n version] |}))
  /\ (forall (srv : server) (full : bool) (r : response) (d : dict)
             (rest : list json) (others : list Schema.t),
         srv all_schemas_request = Reply r -> is_success r = true ->
         json_body r = Some (JDict d) ->
         dict_get (u "schemas") d = Some (JList (payload :: rest)) ->
         Forall2 (fun item s => Schema.model_validate R item = Some s)
                 rest others ->
         list_schemas R srv full true start
         = (Ok tt,
            {| console := [PrintJson (JList (map Schema.model_dump
                                                 (schema :: others)))];
               requests := [all_schemas_request] |}))
  /\ (forall (srv : server) (schema_id : option UUID)
             (name version : option pystr),
         draws_no_table (get_schema R srv schema_id name version true))
  /\ (forall (srv : server) (full : bool),
         draws_no_table (list_schemas R srv full true)).
Proof.
  split; [|split; [|split; [|split; [|split; [|split; [|split]]]]]].
  - destruct (model_validate_fields R payload schema Hvalid)
      as (p & -> & Hid & Hname & Hver & Hdesc & Hdef & Hc & Hup).
    exists p. eexists. exists (Schema.schema_definition schema).
    split; [reflexivity|]. split; [reflexivity|].
    split; [reflexivity|].
    apply field_str_get in Hname, Hver. apply field_dict_get in Hdef.
    apply field_opt_str_get in Hdesc.
    apply field_with_get in Hid, Hc, Hup.
    split; [now rewrite Hname|]. split; [now rewrite Hver|].
    split; [exact Hdef|]. split; [reflexivity|].
    split.
    { intros Hfin. rewrite Hdef.
      change (dict_get (u "schema_definition") _)
        with (Some (json_mode (JDict (Schema.schema_definition schema)))).
      now rewrite (json_mode_finite _ Hfin). }
    split; [now rewrite <- Hdesc|].
    split; [exact Hid|]. split; [reflexivity|].
    split; [apply length_uuid_str|].
    split.
    { intros x Hraw Hx. destruct Hid as (raw & Hget & Hv).
      rewrite Hraw in Hget. injection Hget as <-.
      rewrite Hx in Hv. injection Hv as <-. now rewrite Hraw. }
    split; [exact Hc|]. split; [reflexivity|].
    split; [exact Hup|]. split; [reflexivity|].
    intros key t [-> | ->] Hraw Ht.
    + destruct Hc as (raw & Hget & Hv).
      rewrite Hraw in Hget. injection Hget as <-.
      rewrite Ht in Hv. injection Hv as <-. now rewrite Hraw.
    + destruct Hup as (raw & Hget & Hv).
      rewrite Hraw in Hget. injection Hget as <-.
      rewrite Ht in Hv. injection Hv as <-. now rewrite Hraw.
  - split; [exact json_mode_finite | reflexivity].
  - split; [exact parse_uuid_str|]. repeat split; vm_compute; reflexivity.
  - intros srv i r Hsrv Hok Hbody.
    exact (get_schema_by_id_json R srv i None r payload schema
                                 Hsrv Hok Hbody Hvalid).
  - intros srv n version r d Hn Hsrv Hok Hbody Hlist.
    exact (get_schema_by_name_one R srv n version true r d payload schema
                                  Hn Hsrv Hok Hbody Hlist Hvalid).
  - intros srv full r d rest others Hsrv Hok Hbody Hlist Hall.
    apply (list_schemas_json R srv full r d payload rest (schema :: others)
                             Hsrv Hok Hbody Hlist).
    now constructor.
  - intros. apply get_schema_json_no_table.
  - intros. apply list_schemas_json_no_table.
Qed.

Lemma json_output_is_lossless_witness :
  Schema.model_validate canonical_runtime sample_payload = Some sample_schema
  /\ get_schema canonical_runtime
                (always (Reply (ok_response sample_payload)))
                (Some sample_id) None None true start
     = (Ok tt,
        {| console := [PrintJson (Schema.model_dump sample_schema)];
           requests := [by_id_request sample_id] |}).
Proof.
  split; [reflexivity|].
  exact (proj1 (proj2 (proj2 (proj2 (json_output_is_lossless
                         canonical_runtime sample_payload sample_schema
                         eq_refl))))
               (always (Reply (ok_response sample_payload))) sample_id
               (ok_response sample_payload) eq_refl eq_refl eq_refl).
Defined.

(* ================================================================== *)
(** * Further properties of the commands                                *)
(* ================================================================== *)

(** ** Commands that leave a view of the world alone *)

Create HintDb keeps.

Lemma keeps_ret {X A : Type} (view : world -> X) (a : A) :
  keeps view (ret a).
Proof. intros w. reflexivity. Qed.

Lemma keeps_raise {X A : Type} (view : world -> X) (e : exn) :
  keeps view (@raise A e).
Proof. intros w. reflexivity. Qed.

Lemma keeps_bind {X A B : Type} (view : world -> X) (m : M A) (k : A -> M B) :
  keeps view m -> (forall a, keeps view (k a)) -> keeps view (bind m k).
Proof.
  intros Hm Hk w. unfold bind. specialize (Hm w).
  destruct (m w) as [[a|e] w']; simpl in *; [|exact Hm].
  now rewrite Hk.
Qed.

Lemma keeps_or_raise {X A : Type} (view : world -> X) (e : exn) (o : option A) :
  keeps view (or_raise e o).
Proof. destruct o; [apply keeps_ret | apply keeps_raise]. Qed.

Lemma keeps_lift_result {X A : Type} (view : world -> X) (r : result A) :
  keeps view (lift_result r).
Proof. destruct r; [apply keeps_ret | apply keeps_raise]. Qed.

Lemma keeps_status {X : Type} (view : world -> X) (R : Runtime)
      (req : request) (r : response) :
  keeps view (raise_for_status R req r).
Proof.
  unfold raise_for_status.
  destruct (is_success r); [apply keeps_ret | apply keeps_raise].
Qed.

Lemma keeps_json {X : Type} (view : world -> X) (r : response) :
  keeps view (response_json r).
Proof. apply keeps_or_raise. Qed.

Lemma keeps_py_get {X : Type} (view : world -> X) (data : json) (k : pystr)
      (default : json) :
  keeps view (py_get data k default).
Proof. destruct data; try apply keeps_raise. apply keeps_ret. Qed.

Lemma keeps_py_first {X : Type} (view : world -> X) (v : json) :
  keeps view (py_first v).
Proof.
  destruct v as [| | | |[|c s]|[|x l]|d]; try apply keeps_raise;
    apply keeps_ret.
Qed.

Lemma keeps_py_len {X : Type} (view : world -> X) (v : json) :
  keeps view (py_len v).
Proof. destruct v; try apply keeps_raise; apply keeps_ret. Qed.

Lemma keeps_when {X : Type} (view : world -> X) (b : bool) (m : M unit) :
  keeps view m -> keeps view (when b m).
Proof. intros H. destruct b; [exact H | apply keeps_ret]. Qed.

Lemma keeps_for_each {X A B : Type} (view : world -> X) (f : A -> M B)
      (xs : list A) :
  (forall x, keeps view (f x)) -> keeps view (for_each f xs).
Proof.
  intros Hf. induction xs as [|x xs IH]; [apply keeps_ret|].
  cbn [for_each]. apply keeps_bind; [apply Hf|]. intros y.
  apply keeps_bind; [exact IH|]. intros ys. apply keeps_ret.
Qed.

Lemma keeps_try_except {X A : Type} (view : world -> X) (body : M A)
      (handles : exn -> bool) (handler : exn -> M A) :
  keeps view body -> (forall e, keeps view (handler e)) ->
  keeps view (try_except body handles handler).
Proof.
  intros Hb Hh w. unfold try_except. specialize (Hb w).
  destruct (body w) as [[a|e] w']; simpl in *; [exact Hb|].
  destruct (handles e); [|exact Hb]. now rewrite Hh.
Qed.

Lemma keeps_requests_emit (e : event) : keeps requests (emit e).
Proof. intros w. reflexivity. Qed.

Lemma keeps_requests_print (R : Runtime) (s : pystr) :
  keeps requests (console_print R s).
Proof.
  intros w. unfold console_print, raise, emit.
  now destruct (markup_error R s).
Qed.

Lemma keeps_requests_print_json (data : json) :
  keeps requests (console_print_json data).
Proof. apply keeps_requests_emit. Qed.

Lemma keeps_requests_print_table (R : Runtime) (t : renderable) :
  keeps requests (console_print_table R t).
Proof.
  intros w. unfold console_print_table, raise, emit.
  now destruct (renderable_markup_error R t).
Qed.

Lemma rich_output_app (a b : list event) :
  rich_output (a ++ b) = rich_output a ++ rich_output b.
Proof. apply filter_app. Qed.

Lemma keeps_rich_print (R : Runtime) (s : pystr) :
  keeps rich_view (console_print R s).
Proof.
  intros w. unfold rich_view, console_print, raise, emit.
  destruct (markup_error R s); [reflexivity|]. simpl.
  rewrite rich_output_app. apply app_nil_r.
Qed.

Lemma keeps_rich_request (srv : server) (req : request) :
  keeps rich_view (http_request srv req).
Proof. intros w. unfold http_request. now destruct (srv req). Qed.

#[local] Hint Resolve keeps_ret keeps_raise keeps_or_raise keeps_lift_result
  keeps_status keeps_json keeps_py_get keeps_py_first keeps_py_len
  keeps_requests_print keeps_requests_print_json keeps_requests_print_table
  keeps_rich_print keeps_rich_request : keeps.

Ltac keeps_step :=
  first
    [ solve [auto with keeps]
    | apply keeps_bind; [|intros]
    | apply keeps_when
    | apply keeps_for_each; intros
    | apply keeps_try_except; [|intros]
    | match goal with
      | |- keeps _ (if ?b then _ else _) => destruct b
      | |- keeps _ (match ?x with _ => _ end) => destruct x
      | |- keeps _ (let (_, _) := ?x in _) => destruct x
      end ].

Lemma definition_row_keeps {X : Type} (view : world -> X)
      (printable : N -> bool) (required_fields : json) (field : pystr * json) :
  keeps view (definition_row printable required_fields field).
Proof. unfold definition_row. repeat keeps_step. Qed.

#[local] Hint Resolve definition_row_keeps : keeps.

Lemma schema_detail_keeps_requests (R : Runtime) (schema : Schema.t) :
  keeps requests (schema_detail R schema).
Proof.
  unfold schema_detail. repeat keeps_step.
Qed.

#[local] Hint Resolve schema_detail_keeps_requests : keeps.

Lemma mig_table_row_keeps {X : Type} (view : world -> X) (full : bool)
      (schema : json) :
  keeps view (PythonMig.table_row full schema).
Proof.
  unfold PythonMig.table_row, PythonMig.py_item, PythonMig.py_slice_to,
    PythonMig.py_add_str.
  repeat keeps_step.
Qed.

#[local] Hint Resolve mig_table_row_keeps : keeps.

(** A request followed by steps that send nothing sends exactly that
    request, whatever the reply, unless httpx refuses to build it. *)
Lemma request_then_quiet {A : Type} (srv : server) (req : request)
      (k : response -> M A) (w : world) :
  (forall r, keeps requests (k r)) ->
  requests (snd (bind (http_request srv req) k w))
  = requests w ++ sends srv req.
Proof.
  intros Hk. unfold bind, http_request, sends.
  destruct (srv req) as [r|cause|]; cbn [snd requests];
    [now rewrite Hk | reflexivity | now rewrite app_nil_r].
Qed.

Lemma quiet_tail_requests {A B : Type} (m : M A) (k : A -> M B) (w : world) :
  (forall a, keeps requests (k a)) ->
  requests (snd (bind m k w)) = requests (snd (m w)).
Proof.
  intros Hk. unfold bind. destruct (m w) as [[a|e] w']; [|reflexivity].
  apply Hk.
Qed.

Lemma try_except_requests {A : Type} (body : M A) (handles : exn -> bool)
      (handler : exn -> M A) (w : world) :
  (forall e, keeps requests (handler e)) ->
  requests (snd (try_except body handles handler w)) = requests (snd (body w)).
Proof.
  intros Hh. unfold try_except. destruct (body w) as [[a|e] w']; [reflexivity|].
  destruct (handles e); [apply Hh | reflexivity].
Qed.

Lemma lookup_by_id_requests (R : Runtime) (srv : server) (i : UUID)
      (version : option pystr) (w : world) :
  requests (snd (lookup_by_id R srv i version w))
  = requests w ++ sends srv (by_id_request i).
Proof.
  unfold lookup_by_id.
  destruct (opt_truthy version); unfold when.
  - unfold bind at 1.
    rewrite (console_print_shown R _ _ (version_warning_accepted R)).
    rewrite request_then_quiet; [reflexivity|].
    intros r. repeat keeps_step.
  - unfold bind at 1. unfold ret at 1.
    rewrite request_then_quiet; [reflexivity|].
    intros r. repeat keeps_step.
Qed.

Lemma lookup_by_name_requests (R : Runtime) (srv : server) (n : pystr)
      (version : option pystr) (w : world) :
  requests (snd (lookup_by_name R srv n version w))
  = requests w ++ sends srv (by_name_request n version).
Proof.
  unfold lookup_by_name. apply request_then_quiet.
  intros r. repeat keeps_step.
Qed.

(** X1.  A command sends at most one request, and which one is fixed by
    its arguments, whatever the server answers.  [schemas list] (both
    entry points) sends [GET /schemas]; [schemas get] sends the lookup by
    id when only an id is given, the filtered list query when only a
    non-empty name is given, and nothing when both or neither are given;
    [logs list] sends its query when the schema name is not empty and
    nothing otherwise.  The one exception is a request httpx refuses to
    build (a control character in the schema name put in the path, for
    one): nothing is sent, nothing is printed and httpx's [InvalidURL]
    ends the command, also in [logs list], whose handler catches
    [HTTPError] only. *)
Theorem requests_follow_the_arguments (R : Runtime) (srv : server) :
  (forall full j : bool,
      requests (snd (list_schemas R srv full j start))
      = sends srv all_schemas_request
      /\ requests (snd (PythonMig.list_schemas R srv full j start))
         = sends srv all_schemas_request)
  /\ (forall (schema_id : option UUID) (name version : option pystr) (j : bool),
         requests (snd (get_schema R srv schema_id name version j start))
         = match schema_id, given name with
           | Some _, Some _ => []
           | Some i, None => sends srv (by_id_request i)
           | None, Some n => sends srv (by_name_request n version)
           | None, None => []
           end)
  /\ (forall (schema_name : option pystr) (full j expand : bool) (limit : Z),
         requests (snd (list_logs R srv schema_name full j expand limit start))
         = match given schema_name with
           | Some name => sends srv (logs_request name limit)
           | None => []
           end)
  /\ (forall i : UUID,
         requests (snd (PythonMig.get_schema R srv i start))
         = sends srv (by_id_request i))
  /\ (forall req : request,
         (srv req = Refused -> sends srv req = [])
         /\ (srv req <> Refused -> sends srv req = [req]))
  /\ (forall (name : pystr) (full j expand : bool) (limit : Z),
         name <> [] -> srv (logs_request name limit) = Refused ->
         list_logs R srv (Some name) full j expand limit start
         = (Raised InvalidURL, start))
  /\ (forall full j : bool,
         srv all_schemas_request = Refused ->
         list_schemas R srv full j start = (Raised InvalidURL, start)
         /\ PythonMig.list_schemas R srv full j start
            = (Raised InvalidURL, start))
  /\ (forall (n : pystr) (version : option pystr) (j : bool),
         n <> [] -> srv (by_name_request n version) = Refused ->
         get_schema R srv None (Some n) version j start
         = (Raised InvalidURL, start))
  /\ list_logs R (checking_paths srv) (Some (u "a" ++ newline ++ u "b"))
               false false false 10 start
     = (Raised InvalidURL, start).
Proof.
  split; [|split; [|split; [|split; [|split; [|split; [|split; [|split]]]]]]].
  - intros full j. split.
    + unfold list_schemas. rewrite request_then_quiet; [reflexivity|].
      intros r. repeat keeps_step.
    + unfold PythonMig.list_schemas. rewrite request_then_quiet; [reflexivity|].
      intros r. repeat keeps_step.
  - intros schema_id name version j. unfold get_schema, given.
    assert (Htail : forall schema : Schema.t,
               keeps requests (if j then console_print_json (Schema.model_dump schema)
                               else schema_detail R schema)).
    { intros schema. destruct j; [auto with keeps|].
      apply schema_detail_keeps_requests. }
    destruct schema_id as [i|], name as [[|c n]|]; cbn [opt_truthy str_truthy andb].
    + rewrite quiet_tail_requests by exact Htail. apply lookup_by_id_requests.
    + unfold bind.
      now rewrite (console_print_shown R _ _ (both_selectors_accepted R)).
    + rewrite quiet_tail_requests by exact Htail. apply lookup_by_id_requests.
    + unfold bind.
      now rewrite (console_print_shown R _ _ (no_selector_accepted R)).
    + rewrite quiet_tail_requests by exact Htail. apply lookup_by_name_requests.
    + unfold bind.
      now rewrite (console_print_shown R _ _ (no_selector_accepted R)).
  - intros schema_name full j expand limit. unfold list_logs, given.
    destruct schema_name as [[|c S]|]; cbn [opt_truthy str_truthy negb].
    + unfold bind.
      now rewrite (console_print_shown R _ _ (name_required_accepted R)).
    + rewrite try_except_requests by (intros e; repeat keeps_step).
      rewrite request_then_quiet; [reflexivity|].
      intros r. repeat keeps_step.
    + unfold bind.
      now rewrite (console_print_shown R _ _ (name_required_accepted R)).
  - intros i. unfold PythonMig.get_schema.
    rewrite request_then_quiet; [reflexivity|].
    intros r. repeat keeps_step.
  - intros req. unfold sends. split.
    + now intros ->.
    + intros H. destruct (srv req); [reflexivity | reflexivity | contradiction].
  - intros name full j expand limit Hname Hsrv.
    destruct name as [|c name]; [contradiction|].
    unfold list_logs. cbn [str_truthy negb]. unfold_cmd.
    now rewrite Hsrv.
  - intros full j Hsrv.
    split; [unfold list_schemas | unfold PythonMig.list_schemas];
      unfold_cmd; now rewrite Hsrv.
  - intros n version j Hn Hsrv. destruct n as [|c n]; [contradiction|].
    unfold get_schema, lookup_by_name. cbn [opt_truthy str_truthy andb].
    unfold_cmd. now rewrite Hsrv.
  - reflexivity.
Qed.

(** ** At most one table or JSON document, and none on failure *)

Lemma tidy_of_keeps {A : Type} (kind : event -> Prop) (m : M A) :
  keeps rich_view m -> tidy kind m.
Proof.
  intros H w. specialize (H w). destruct (m w) as [[a|e] w']; simpl in H;
    [now left | exact H].
Qed.

Lemma tidy_bind {A B : Type} (kind : event -> Prop) (m : M A) (k : A -> M B) :
  keeps rich_view m -> (forall a, tidy kind (k a)) -> tidy kind (bind m k).
Proof.
  intros Hm Hk w. unfold bind. specialize (Hm w).
  destruct (m w) as [[a|e] w']; simpl in Hm; [|exact Hm].
  specialize (Hk a w'). destruct (k a w') as [[b|e] w'']; now rewrite <- Hm.
Qed.

Lemma tidy_print_json (data : json) :
  tidy is_json_event (console_print_json data).
Proof.
  intros w. right. exists (PrintJson data). split; [exact I|].
  unfold rich_view. simpl. apply rich_output_app.
Qed.

Lemma tidy_print_table (R : Runtime) (title : option pystr)
      (columns : list pystr) (rows : list (list renderable)) :
  tidy is_table_event (console_print_table R (Table title columns rows)).
Proof.
  intros w. unfold console_print_table, raise, emit.
  destruct (renderable_markup_error R _); [reflexivity|].
  right. exists (Print (Table title columns rows)).
  split; [exact I|]. unfold rich_view. simpl. apply rich_output_app.
Qed.

Lemma tidy_try_except {A : Type} (kind : event -> Prop) (body : M A)
      (handles : exn -> bool) (handler : exn -> M A) :
  tidy kind body -> (forall e, keeps rich_view (handler e)) ->
  tidy kind (try_except body handles handler).
Proof.
  intros Hb Hh w. unfold try_except. specialize (Hb w).
  destruct (body w) as [[a|e] w']; [exact Hb|].
  destruct (handles e); [|exact Hb].
  specialize (Hh e w'). destruct (handler e w') as [[a|e'] w''];
    simpl in Hh; rewrite Hh; [now left | exact Hb].
Qed.

Ltac tidy_step :=
  first
    [ apply tidy_print_json
    | apply tidy_print_table
    | apply tidy_of_keeps; solve [repeat keeps_step]
    | apply tidy_bind; [solve [repeat keeps_step] | intros]
    | match goal with
      | |- tidy _ (if ?b then _ else _) => destruct b
      | |- tidy _ (match ?x with _ => _ end) => destruct x
      end ].

Lemma schema_detail_tidy (R : Runtime) (schema : Schema.t) :
  tidy is_table_event (schema_detail R schema).
Proof.
  unfold schema_detail, detail_table.
  apply tidy_bind; [repeat keeps_step | intros props].
  apply tidy_bind; [repeat keeps_step | intros rows].
  apply tidy_print_table.
Qed.

Lemma lookup_by_id_keeps_rich (R : Runtime) (srv : server) (i : UUID)
      (version : option pystr) :
  keeps rich_view (lookup_by_id R srv i version).
Proof. unfold lookup_by_id. repeat keeps_step. Qed.

Lemma lookup_by_name_keeps_rich (R : Runtime) (srv : server) (n : pystr)
      (version : option pystr) :
  keeps rich_view (lookup_by_name R srv n version).
Proof. unfold lookup_by_name. repeat keeps_step. Qed.

#[local] Hint Resolve lookup_by_id_keeps_rich lookup_by_name_keeps_rich
  : keeps.

(** X2.  Every run prints at most one table or JSON document, and only
    when it returns normally: a run that raises (a failed
    fetch, a validation error, a usage error) has printed lines of text at
    most.  The document is JSON when [--json] is given and a table
    otherwise; the python-mig [schemas get] prints JSON. *)
Theorem one_document_and_none_on_failure (R : Runtime) (srv : server) :
  (forall full : bool,
      tidy is_json_event (list_schemas R srv full true)
      /\ tidy is_table_event (list_schemas R srv full false)
      /\ tidy is_json_event (PythonMig.list_schemas R srv full true)
      /\ tidy is_table_event (PythonMig.list_schemas R srv full false))
  /\ (forall (schema_id : option UUID) (name version : option pystr),
         tidy is_json_event (get_schema R srv schema_id name version true)
         /\ tidy is_table_event (get_schema R srv schema_id name version false))
  /\ (forall (schema_name : option pystr) (full expand : bool) (limit : Z),
         tidy is_json_event
              (list_logs R srv schema_name full true expand limit)
         /\ tidy is_table_event
                 (list_logs R srv schema_name full false expand limit))
  /\ (forall i : UUID, tidy is_json_event (PythonMig.get_schema R srv i)).
Proof.
  split; [|split; [|split]].
  - intros full. repeat split.
    + unfold list_schemas. repeat tidy_step.
    + unfold list_schemas. repeat tidy_step.
    + unfold PythonMig.list_schemas. repeat tidy_step.
    + unfold PythonMig.list_schemas. repeat tidy_step.
  - intros schema_id name version. split; unfold get_schema.
    + destruct schema_id as [i|], name as [[|c n]|];
        cbn [opt_truthy str_truthy andb]; repeat tidy_step.
    + destruct schema_id as [i|], name as [[|c n]|];
        cbn [opt_truthy str_truthy andb];
        try (apply tidy_bind; [solve [repeat keeps_step] | intros schema];
             apply schema_detail_tidy);
        repeat tidy_step.
  - intros schema_name full expand limit. split; unfold list_logs;
      destruct schema_name as [[|c name]|]; cbn [str_truthy negb];
      try (apply tidy_try_except; [|intros e; repeat keeps_step]);
      repeat tidy_step.
  - intros i. unfold PythonMig.get_schema. repeat tidy_step.
Qed.

(** ** Runs that do not look back *)

Lemma after_start (w : world) : after start w = w.
Proof. now destruct w. Qed.

Lemma after_nothing (w : world) : after w start = w.
Proof. destruct w. unfold after. simpl. now rewrite !app_nil_r. Qed.

Lemma after_assoc (a b c : world) : after a (after b c) = after (after a b) c.
Proof. unfold after. simpl. now rewrite !app_assoc. Qed.

Lemma framed_ret {A : Type} (a : A) : framed (ret a).
Proof. intros w. unfold ret. simpl. now rewrite after_nothing. Qed.

Lemma framed_raise {A : Type} (e : exn) : framed (@raise A e).
Proof. intros w. unfold raise. simpl. now rewrite after_nothing. Qed.

Lemma framed_emit (e : event) : framed (emit e).
Proof.
  intros w. unfold emit, after. simpl. now rewrite app_nil_r.
Qed.

Lemma framed_print (R : Runtime) (s : pystr) : framed (console_print R s).
Proof.
  unfold console_print.
  destruct (markup_error R s); [apply framed_raise | apply framed_emit].
Qed.

Lemma framed_print_table (R : Runtime) (t : renderable) :
  framed (console_print_table R t).
Proof.
  unfold console_print_table.
  destruct (renderable_markup_error R t);
    [apply framed_raise | apply framed_emit].
Qed.

Lemma framed_request (srv : server) (req : request) :
  framed (http_request srv req).
Proof.
  intros w. unfold http_request, after.
  destruct (srv req); simpl; rewrite ?app_nil_r; try reflexivity.
  now destruct w.
Qed.

Lemma framed_bind {A B : Type} (m : M A) (k : A -> M B) :
  framed m -> (forall a, framed (k a)) -> framed (bind m k).
Proof.
  intros Hm Hk w. unfold bind at 1. rewrite (Hm w).
  unfold bind. destruct (m start) as [[a|e] w1]; simpl; [|reflexivity].
  rewrite (Hk a (after w w1)), (Hk a w1). simpl.
  now rewrite after_assoc.
Qed.

Lemma framed_or_raise {A : Type} (e : exn) (o : option A) :
  framed (or_raise e o).
Proof. destruct o; [apply framed_ret | apply framed_raise]. Qed.

Lemma framed_lift_result {A : Type} (r : result A) : framed (lift_result r).
Proof. destruct r; [apply framed_ret | apply framed_raise]. Qed.

Lemma framed_for_each {A B : Type} (f : A -> M B) (xs : list A) :
  (forall x, framed (f x)) -> framed (for_each f xs).
Proof.
  intros Hf. induction xs as [|x xs IH]; [apply framed_ret|].
  cbn [for_each]. apply framed_bind; [apply Hf|]. intros y.
  apply framed_bind; [exact IH|]. intros ys. apply framed_ret.
Qed.

Ltac framed_step :=
  first
    [ apply framed_ret
    | apply framed_raise
    | apply framed_emit
    | apply framed_print
    | apply framed_print_table
    | apply framed_request
    | apply framed_or_raise
    | apply framed_lift_result
    | apply framed_for_each; intros
    | apply framed_bind; [|intros]
    | match goal with
      | |- framed (if ?b then _ else _) => destruct b
      | |- framed (match ?x with _ => _ end) => destruct x
      | |- framed (let (_, _) := ?x in _) => destruct x
      end ].

Lemma schema_detail_framed (R : Runtime) (schema : Schema.t) :
  framed (schema_detail R schema).
Proof.
  unfold schema_detail, definition_row.
  repeat framed_step.
Qed.

(** The lookup by id and what follows it, without the warning about
    [--version]. *)
Lemma fetch_by_id_framed (R : Runtime) (srv : server) (i : UUID) (j : bool) :
  framed (bind (lookup_by_id R srv i None)
               (fun schema => if j
                              then console_print_json (Schema.model_dump schema)
                              else schema_detail R schema)).
Proof.
  apply framed_bind.
  - unfold lookup_by_id, when, raise_for_status, response_json.
    cbn [opt_truthy]. repeat framed_step.
  - intros schema. destruct j; [apply framed_emit | apply schema_detail_framed].
Qed.

(** X3.  In a lookup by id the option [--version] changes nothing but one
    line: the run with a non-empty version sends the same request, ends
    the same way and prints the same output as the run without it, after
    the warning that the version is ignored. *)
Theorem version_is_ignored_with_id
        (R : Runtime) (srv : server) (i : UUID) (name : option pystr)
        (v : pystr) (j : bool)
        (Hname : opt_truthy name = false) (Hv : v <> []) :
  let plain := get_schema R srv (Some i) name None j start in
  get_schema R srv (Some i) name (Some v) j start
  = (fst plain,
     {| console :=
          Print (Text (u "[yellow]Warning: --version is ignored when using --id[/yellow]"))
          :: console (snd plain);
        requests := requests (snd plain) |}).
Proof.
  cbn zeta. destruct v as [|c v]; [contradiction|].
  unfold get_schema. rewrite Hname.
  pose proof (fetch_by_id_framed R srv i j) as Hframe.
  set (tail := fun schema : Schema.t =>
                 if j then console_print_json (Schema.model_dump schema)
                 else schema_detail R schema) in *.
  set (warned := {| console := [Print (Text (u "[yellow]Warning: --version is ignored when using --id[/yellow]"))];
                    requests := [] |}).
  change (bind (lookup_by_id R srv i (Some (c :: v))) tail start
          = (fst (bind (lookup_by_id R srv i None) tail start),
             {| console := console warned
                           ++ console (snd (bind (lookup_by_id R srv i None)
                                                 tail start));
                requests := requests (snd (bind (lookup_by_id R srv i None)
                                                tail start)) |})).
  assert (Hstep : bind (lookup_by_id R srv i (Some (c :: v))) tail start
                  = bind (lookup_by_id R srv i None) tail warned).
  { unfold lookup_by_id, when. cbn [opt_truthy str_truthy].
    unfold bind at 1 2.
    now rewrite (console_print_shown R _ _ (version_warning_accepted R)). }
  rewrite Hstep, (Hframe warned). reflexivity.
Qed.

Lemma version_is_ignored_with_id_witness :
  opt_truthy None = false
  /\ u "1.0.0" <> []
  /\ get_schema canonical_runtime (always (Reply (ok_response sample_payload)))
                (Some sample_id) None (Some (u "1.0.0")) true start
     = (Ok tt,
        {| console :=
             [Print (Text (u "[yellow]Warning: --version is ignored when using --id[/yellow]"));
              PrintJson sample_payload];
           requests := [by_id_request sample_id] |}).
Proof.
  assert (Hv : u "1.0.0" <> []) by discriminate.
  split; [reflexivity|]. split; [exact Hv|].
  exact (version_is_ignored_with_id
           canonical_runtime (always (Reply (ok_response sample_payload)))
           sample_id None (u "1.0.0") true eq_refl Hv).
Defined.

(** ** Failed fetches *)

Lemma fetch_error_accepted (R : Runtime) (text : pystr) :
  bracket_free text = true ->
  markup_error R (u "[red]Error fetching logs: " ++ text ++ u "[/red]") = false.
Proof.
  intros H.
  replace (u "[red]Error fetching logs: " ++ text ++ u "[/red]")
    with (u "[red]" ++ (u "Error fetching logs: " ++ text) ++ u "[/red]" ++ [])
    by (rewrite <- !app_assoc; reflexivity).
  apply red_line_accepted; [|reflexivity].
  now rewrite bracket_free_app, H.
Qed.

(** X4.  [logs list] turns a failed fetch into one line and exit code 1:
    when the server cannot be reached, or answers with a status outside
    200..299, the command prints [Error fetching logs:] followed by the
    text of the error, prints nothing else, and exits with code 1.  The
    line is markup built from the text of the error: rich accepts it
    whenever that text holds no opening bracket, and when rich refuses
    it nothing is printed and the markup error ends the command, with
    exit code 1 as well.  No [httpx.HTTPError] leaves the command;
    the [InvalidURL] of a request httpx refuses to build is not one, and
    it does leave the command, nothing being printed or sent. *)
Theorem list_logs_reports_failed_fetch
        (R : Runtime) (srv : server) (name : pystr)
        (full j expand : bool) (limit : Z)
        (Hname : name <> []) :
  let req := logs_request name limit in
  let run := list_logs R srv (Some name) full j expand limit start in
  let sent_only := {| console := []; requests := [req] |} in
  let outcome (text : pystr) :=
    let line := u "[red]Error fetching logs: " ++ text ++ u "[/red]" in
    if markup_error R line then (@Raised unit MarkupError, sent_only)
    else (Raised (Exit 1),
          {| console := [Print (Text line)]; requests := [req] |}) in
  (forall cause, srv req = Unreachable cause -> run = outcome cause)
  /\ (forall r,
         srv req = Reply r -> is_success r = false ->
         run = outcome (status_message R req r))
  /\ (forall text, exit_code (fst (outcome text)) = 1%Z)
  /\ (forall text,
         bracket_free text = true ->
         outcome text
         = (Raised (Exit 1),
            {| console := [Print (Text (u "[red]Error fetching logs: " ++ text
                                        ++ u "[/red]"))];
               requests := [req] |}))
  /\ (srv req = Refused -> run = (Raised InvalidURL, start))
  /\ (forall e, fst run = Raised e -> is_HTTPError e = false).
Proof.
  cbn zeta. destruct name as [|c name]; [contradiction|].
  unfold list_logs. cbn [str_truthy negb].
  set (S := c :: name).
  split; [|split; [|split; [|split; [|split]]]].
  - intros cause Hsrv. unfold_cmd. rewrite Hsrv. cbn [is_HTTPError exn_str].
    unfold console_print, raise, emit.
    now destruct (markup_error R _).
  - intros r Hsrv Hok. unfold_cmd. rewrite Hsrv, Hok.
    cbn [is_HTTPError exn_str].
    unfold console_print, raise, emit.
    now destruct (markup_error R _).
  - intros text. now destruct (markup_error R _).
  - intros text Htext. now rewrite (fetch_error_accepted R text Htext).
  - intros Hsrv. unfold_cmd. now rewrite Hsrv.
  - intros e. unfold try_except.
    match goal with
    | |- context [match ?b start with _ => _ end] => destruct (b start) as [[a|e'] w']
    end.
    + discriminate.
    + destruct (is_HTTPError e') eqn:E.
      * unfold bind, console_print, raise, emit.
        destruct (markup_error R _); simpl; intros [= <-]; reflexivity.
      * simpl. now intros [= <-].
Qed.

Lemma list_logs_reports_failed_fetch_witness :
  u "orders" <> []
  /\ list_logs canonical_runtime (always (Unreachable (u "connection refused")))
               (Some (u "orders")) false false false 10 start
     = (Raised (Exit 1),
        {| console := [Print (Text (u "[red]Error fetching logs: connection refused[/red]"))];
           requests := [logs_request (u "orders") 10] |}).
Proof.
  assert (Hn : u "orders" <> []) by discriminate.
  split; [exact Hn|].
  exact (proj1 (list_logs_reports_failed_fetch
                  canonical_runtime
                  (always (Unreachable (u "connection refused")))
                  (u "orders") false false false 10 Hn)
               (u "connection refused") eq_refl).
Defined.

(** X5.  The schema commands do not handle a failed fetch: when the server
    cannot be reached or answers with a status outside 200..299,
    [schemas list] (both entry points), the lookup by id and the lookup by
    name end with the httpx error itself.  They have printed nothing,
    but for the warning that [--version] is ignored, which the lookup by
    id prints before it sends its request when a version was given. *)
Theorem schema_commands_let_failed_fetch_through
        (R : Runtime) (srv : server) (req : request) (e : exn)
        (Hfail : (exists cause, srv req = Unreachable cause
                                /\ e = RequestError cause)
                 \/ (exists r, srv req = Reply r /\ is_success r = false
                               /\ e = HTTPStatusError (status_message R req r) r)) :
  let failed := (@Raised unit e, {| console := []; requests := [req] |}) in
  (req = all_schemas_request ->
   forall full j,
     list_schemas R srv full j start = failed
     /\ PythonMig.list_schemas R srv full j start = failed)
  /\ (forall (i : UUID) (name version : option pystr) (j : bool),
         opt_truthy name = false ->
         req = by_id_request i ->
         get_schema R srv (Some i) name version j start
         = (Raised e,
            {| console :=
                 if opt_truthy version
                 then [Print (Text (u "[yellow]Warning: --version is ignored when using --id[/yellow]"))]
                 else [];
               requests := [req] |})
         /\ PythonMig.get_schema R srv i start = failed)
  /\ (forall n version j,
         n <> [] -> req = by_name_request n version ->
         get_schema R srv None (Some n) version j start = failed).
Proof.
  cbn zeta.
  split; [|split].
  - intros -> full j.
    destruct Hfail as [(cause & Hsrv & ->) | (r & Hsrv & Hok & ->)].
    + split; [unfold list_schemas | unfold PythonMig.list_schemas];
        unfold_cmd; rewrite Hsrv; reflexivity.
    + split; [unfold list_schemas | unfold PythonMig.list_schemas];
        unfold_cmd; rewrite Hsrv, Hok; reflexivity.
  - intros i name version j Hname ->.
    assert (Hwarn : forall w,
               when (opt_truthy version)
                    (console_print R (u "[yellow]Warning: --version is ignored when using --id[/yellow]")) w
               = (Ok tt,
                  {| console :=
                       console w
                       ++ (if opt_truthy version
                           then [Print (Text (u "[yellow]Warning: --version is ignored when using --id[/yellow]"))]
                           else []);
                     requests := requests w |})).
    { intros w. unfold when. destruct (opt_truthy version).
      - now rewrite (console_print_shown R _ _ (version_warning_accepted R)).
      - unfold ret. destruct w. cbn. now rewrite app_nil_r. }
    destruct Hfail as [(cause & Hsrv & ->) | (r & Hsrv & Hok & ->)].
    + split; [unfold get_schema, lookup_by_id | unfold PythonMig.get_schema].
      * rewrite Hname, andb_false_r.
        unfold bind at 1 2. rewrite Hwarn.
        unfold_cmd. rewrite Hsrv. reflexivity.
      * unfold_cmd. rewrite Hsrv. reflexivity.
    + split; [unfold get_schema, lookup_by_id | unfold PythonMig.get_schema].
      * rewrite Hname, andb_false_r.
        unfold bind at 1 2. rewrite Hwarn.
        unfold_cmd. rewrite Hsrv, Hok. reflexivity.
      * unfold_cmd. rewrite Hsrv, Hok. reflexivity.
  - intros n version j Hn ->. destruct n as [|c n]; [contradiction|].
    destruct Hfail as [(cause & Hsrv & ->) | (r & Hsrv & Hok & ->)].
    + unfold get_schema, lookup_by_name. cbn [andb opt_truthy str_truthy].
      unfold_cmd. rewrite Hsrv. reflexivity.
    + unfold get_schema, lookup_by_name. cbn [andb opt_truthy str_truthy].
      unfold_cmd. rewrite Hsrv, Hok. reflexivity.
Qed.

Lemma schema_commands_let_failed_fetch_through_witness :
  always (Unreachable (u "timed out")) (by_id_request sample_id)
  = Unreachable (u "timed out")
  /\ list_schemas canonical_runtime (always (Unreachable (u "timed out")))
                  false false start
     = (Raised (RequestError (u "timed out")),
        {| console := []; requests := [all_schemas_request] |})
  /\ get_schema canonical_runtime (always (Unreachable (u "timed out")))
                (Some sample_id) None (Some (u "1.0.0")) false start
     = (Raised (RequestError (u "timed out")),
        {| console := [Print (Text (u "[yellow]Warning: --version is ignored when using --id[/yellow]"))];
           requests := [by_id_request sample_id] |}).
Proof.
  split; [reflexivity|]. split.
  - exact (proj1 (proj1 (schema_commands_let_failed_fetch_through
                           canonical_runtime (always (Unreachable (u "timed out")))
                           all_schemas_request (RequestError (u "timed out"))
                           (or_introl (ex_intro _ (u "timed out")
                                                (conj eq_refl eq_refl))))
                        eq_refl false false)).
  - exact (proj1 (proj1 (proj2 (schema_commands_let_failed_fetch_through
                           canonical_runtime (always (Unreachable (u "timed out")))
                           (by_id_request sample_id)
                           (RequestError (u "timed out"))
                           (or_introl (ex_intro _ (u "timed out")
                                                (conj eq_refl eq_refl)))))
                        sample_id None (Some (u "1.0.0")) false
                        eq_refl eq_refl)).
Defined.

(** ** Bodies that are not what the commands expect *)

(** X6.  Any falsy value under the listing key counts as no result, not
    only an empty array: when a successful response binds [schemas]
    (or [logs]) to null, false, zero, the empty string or the empty
    object, the list commands go to their nothing-found line and the
    lookup by name to its not-found line and exit code 1; with [--json]
    the line of text is printed all the same and no JSON.  [No schemas
    found] is always printed; the lines of [logs list] and of the lookup
    by name are built from the name, are printed when rich accepts them
    as markup (it does when the name, and the version, hold no opening
    bracket), and otherwise the markup error ends the command with
    nothing printed. *)
Theorem falsy_list_counts_as_empty
        (R : Runtime) (r : response) (d : dict) (v : json)
        (Hok : is_success r = true)
        (Hbody : json_body r = Some (JDict d))
        (Hfalsy : py_truthy v = false) :
  (dict_get (u "schemas") d = Some v ->
     (forall (srv : server) (full j : bool),
         srv all_schemas_request = Reply r ->
         list_schemas R srv full j start
         = (Ok tt,
            {| console := [Print (Text (u "[yellow]No schemas found[/yellow]"))];
               requests := [all_schemas_request] |})
         /\ PythonMig.list_schemas R srv full j start
            = (Ok tt,
               {| console := [Print (Text (u "[yellow]No schemas found[/yellow]"))];
                  requests := [all_schemas_request] |}))
     /\ (forall (srv : server) (n : pystr) (version : option pystr) (j : bool),
            n <> [] ->
            srv (by_name_request n version) = Reply r ->
            let run := get_schema R srv None (Some n) version j start in
            let line := not_found_message n version in
            (markup_error R line = false ->
             run = (Raised (Exit 1),
                    {| console := [Print (Text line)];
                       requests := [by_name_request n version] |}))
            /\ (markup_error R line = true ->
                run = (Raised MarkupError,
                       {| console := [];
                          requests := [by_name_request n version] |}))
            /\ (bracket_free n = true ->
                (forall v', version = Some v' -> bracket_free v' = true) ->
                markup_error R line = false)))
  /\ (dict_get (u "logs") d = Some v ->
      forall (srv : server) (name : pystr) (full j expand : bool) (limit : Z),
        name <> [] ->
        srv (logs_request name limit) = Reply r ->
        let run := list_logs R srv (Some name) full j expand limit start in
        let line := no_logs_message name in
        (markup_error R line = false ->
         run = (Ok tt,
                {| console := [Print (Text line)];
                   requests := [logs_request name limit] |}))
        /\ (markup_error R line = true ->
            run = (Raised MarkupError,
                   {| console := []; requests := [logs_request name limit] |}))
        /\ (bracket_free name = true -> markup_error R line = false)).
Proof.
  split.
  - intros Hget. pose proof (get_default_falsy _ _ _ Hget Hfalsy) as Hnone.
    split.
    + intros srv full j Hsrv. split.
      * now apply (list_schemas_nothing R srv full j r d Hsrv Hok Hbody).
      * now apply (mig_list_schemas_nothing R srv full j r d Hsrv Hok Hbody).
    + intros srv n version j Hn Hsrv. cbn zeta.
      rewrite (get_schema_by_name_nothing R srv n version j r d Hn Hsrv Hok
                                          Hbody Hnone).
      split; [|split].
      * intros Hm. now rewrite (print_then_shown _ _ _ _ Hm).
      * intros Hm. now rewrite (print_then_refused _ _ _ _ Hm).
      * apply not_found_message_accepted.
  - intros Hget srv name full j expand limit Hn Hsrv. cbn zeta.
    pose proof (get_default_falsy _ _ _ Hget Hfalsy) as Hnone.
    rewrite (list_logs_nothing R srv name full j expand limit r d Hn Hsrv Hok
                               Hbody Hnone).
    split; [|split].
    + intros Hm. now rewrite (print_then_shown _ _ _ _ Hm).
    + intros Hm. now rewrite (print_then_refused _ _ _ _ Hm).
    + apply no_logs_message_accepted.
Qed.

Lemma falsy_list_counts_as_empty_witness :
  is_success (ok_response (JDict [(u "schemas", JNull); (u "logs", JNull)]))
  = true
  /\ py_truthy JNull = false
  /\ list_schemas canonical_runtime
                  (always (Reply (ok_response (JDict [(u "schemas", JNull);
                                                      (u "logs", JNull)]))))
                  false true start
     = (Ok tt,
        {| console := [Print (Text (u "[yellow]No schemas found[/yellow]"))];
           requests := [all_schemas_request] |})
  /\ list_logs canonical_runtime
               (always (Reply (ok_response (JDict [(u "schemas", JNull);
                                                   (u "logs", JNull)]))))
               (Some (u "orders")) false true false 10 start
     = (Ok tt,
        {| console := [Print (Text (u "[yellow]No logs found for schema 'orders'[/yellow]"))];
           requests := [logs_request (u "orders") 10] |}).
Proof.
  pose proof (falsy_list_counts_as_empty
                canonical_runtime
                (ok_response (JDict [(u "schemas", JNull); (u "logs", JNull)]))
                [(u "schemas", JNull); (u "logs", JNull)] JNull
                eq_refl eq_refl eq_refl) as (Hschemas & Hlogs).
  split; [reflexivity|]. split; [reflexivity|]. split.
  - exact (proj1 (proj1 (Hschemas eq_refl)
                        (always (Reply (ok_response
                                          (JDict [(u "schemas", JNull);
                                                  (u "logs", JNull)]))))
                        false true eq_refl)).
  - assert (Hn : u "orders" <> []) by discriminate.
    exact (proj1 (Hlogs eq_refl
                        (always (Reply (ok_response
                                          (JDict [(u "schemas", JNull);
                                                  (u "logs", JNull)]))))
                        (u "orders") false true false 10%Z Hn eq_refl)
                 eq_refl).
Defined.

(** X7.  The handler of [logs list] catches httpx errors only.  A
    successful response whose body is not JSON, or is JSON but not an
    object, whose [logs] value cannot be iterated, or one of whose items
    does not validate, ends the command with the decoding, attribute,
    type or validation error itself: nothing is printed, not even the
    [Error fetching logs] line. *)
Theorem list_logs_lets_other_errors_through
        (R : Runtime) (srv : server) (name : pystr)
        (full j expand : bool) (limit : Z) (r : response)
        (Hname : name <> [])
        (Hsrv : srv (logs_request name limit) = Reply r)
        (Hok : is_success r = true) :
  let run := list_logs R srv (Some name) full j expand limit start in
  let silent (e : exn) :=
    (@Raised unit e,
     {| console := []; requests := [logs_request name limit] |}) in
  (json_body r = None -> run = silent JSONDecodeError)
  /\ (forall data,
         json_body r = Some data ->
         (forall d, data <> JDict d) ->
         run = silent AttributeError)
  /\ (forall d v,
         json_body r = Some (JDict d) ->
         dict_get (u "logs") d = Some v ->
         py_truthy v = true -> py_iter v = None ->
         run = silent TypeError)
  /\ (forall d items,
         json_body r = Some (JDict d) ->
         dict_get (u "logs") d = Some (JList items) ->
         Exists (fun item => Log.model_validate R item = None) items ->
         run = silent ValidationError).
Proof.
  cbn zeta. destruct name as [|c name]; [contradiction|].
  unfold list_logs. cbn [str_truthy negb]. set (S := c :: name) in *.
  split; [|split; [|split]].
  - intros Hbody. unfold_cmd. rewrite Hsrv, Hok, Hbody. reflexivity.
  - intros data Hbody Hnot. unfold_cmd. rewrite Hsrv, Hok, Hbody.
    destruct data; try reflexivity. exfalso. now apply (Hnot d).
  - intros d v Hbody Hget Htrue Hiter. unfold_cmd.
    rewrite Hsrv, Hok, Hbody. unfold dict_get_default.
    rewrite Hget, Htrue, Hiter. reflexivity.
  - intros d items Hbody Hget Hbad.
    assert (Hne : py_truthy (JList items) = true).
    { destruct items; [inversion Hbad | reflexivity]. }
    unfold try_except.
    unfold bind at 1. unfold http_request at 1. rewrite Hsrv.
    unfold bind at 1. unfold raise_for_status at 1. rewrite Hok.
    unfold ret at 1. unfold bind at 1. unfold response_json, or_raise at 1.
    rewrite Hbody. unfold ret at 1. unfold bind at 1. unfold py_get.
    unfold dict_get_default. rewrite Hget. unfold ret at 1.
    rewrite Hne. cbn [negb py_iter]. unfold bind at 1. unfold or_raise at 1.
    unfold ret at 1. unfold bind at 1.
    rewrite (for_each_validate_one_fails ValidationError
               (Log.model_validate R) items _ Hbad).
    reflexivity.
Qed.

Lemma list_logs_lets_other_errors_through_witness :
  u "orders" <> []
  /\ list_logs canonical_runtime
               (always (Reply (ok_response (JList []))))
               (Some (u "orders")) false false false 10 start
     = (Raised AttributeError,
        {| console := []; requests := [logs_request (u "orders") 10] |}).
Proof.
  assert (Hn : u "orders" <> []) by discriminate.
  split; [exact Hn|].
  refine (proj1 (proj2 (list_logs_lets_other_errors_through
                          canonical_runtime
                          (always (Reply (ok_response (JList []))))
                          (u "orders") false false false 10
                          (ok_response (JList [])) Hn eq_refl eq_refl))
                (JList []) eq_refl _).
  intros d. discriminate.
Defined.

(** X8.  [schemas list] of main.py validates every item before it prints
    anything: one item that is not a schema ends the command with the
    validation error and an empty console, in table and in JSON mode,
    however many valid items precede it.  The python-mig entry point does
    not validate: in JSON mode it prints the body as it came. *)
Theorem list_schemas_validates_all_or_nothing
        (R : Runtime) (srv : server) (r : response) (d : dict)
        (items : list json)
        (Hsrv : srv all_schemas_request = Reply r)
        (Hok : is_success r = true)
        (Hbody : json_body r = Some (JDict d))
        (Hlist : dict_get (u "schemas") d = Some (JList items))
        (Hbad : Exists (fun item => Schema.model_validate R item = None) items) :
  (forall full j : bool,
      list_schemas R srv full j start
      = (Raised ValidationError,
         {| console := []; requests := [all_schemas_request] |}))
  /\ (forall full : bool,
         PythonMig.list_schemas R srv full true start
         = (Ok tt,
            {| console := [PrintJson (JDict d)];
               requests := [all_schemas_request] |})).
Proof.
  assert (Hne : py_truthy (JList items) = true).
  { destruct items; [inversion Hbad | reflexivity]. }
  split.
  - intros full j. unfold list_schemas.
    unfold bind at 1. unfold http_request at 1. rewrite Hsrv.
    unfold bind at 1. unfold raise_for_status at 1. rewrite Hok.
    unfold ret at 1. unfold bind at 1. unfold response_json, or_raise at 1.
    rewrite Hbody. unfold ret at 1. unfold bind at 1. unfold py_get.
    unfold dict_get_default. rewrite Hlist. unfold ret at 1.
    rewrite Hne. cbn [negb py_iter]. unfold bind at 1. unfold or_raise at 1.
    unfold ret at 1. unfold bind at 1.
    rewrite (for_each_validate_one_fails ValidationError
               (Schema.model_validate R) items _ Hbad).
    reflexivity.
  - intros full. unfold PythonMig.list_schemas. unfold_cmd.
    rewrite Hsrv, Hok, Hbody. unfold dict_get_default.
    rewrite Hlist, Hne. reflexivity.
Qed.

Lemma list_schemas_validates_all_or_nothing_witness :
  Exists (fun item => Schema.model_validate canonical_runtime item = None)
         [sample_payload; JDict []]
  /\ list_schemas canonical_runtime
                  (always (Reply (ok_response
                                    (JDict [(u "schemas",
                                             JList [sample_payload; JDict []])]))))
                  false false start
     = (Raised ValidationError,
        {| console := []; requests := [all_schemas_request] |}).
Proof.
  assert (Hbad : Exists (fun item => Schema.model_validate canonical_runtime item
                                     = None)
                        [sample_payload; JDict []]).
  { apply Exists_cons_tl. apply Exists_cons_hd. reflexivity. }
  split; [exact Hbad|].
  exact (proj1 (list_schemas_validates_all_or_nothing
                  canonical_runtime
                  (always (Reply (ok_response
                                    (JDict [(u "schemas",
                                             JList [sample_payload; JDict []])]))))
                  (ok_response (JDict [(u "schemas",
                                        JList [sample_payload; JDict []])]))
                  [(u "schemas", JList [sample_payload; JDict []])]
                  [sample_payload; JDict []]
                  eq_refl eq_refl eq_refl eq_refl Hbad)
               false false).
Defined.

(** ** The constraint renderer, further *)

Lemma field_constraints_on_vocabulary (printable : N -> bool) (p1 p2 : dict) :
  (forall key, In key vocabulary -> dict_get key p1 = dict_get key p2) ->
  field_constraints printable p1 = field_constraints printable p2.
Proof.
  intros H. unfold field_constraints, enum_line, constraint_line.
  rewrite (H (u "enum")), (H (u "pattern")), (H (u "minLength")),
    (H (u "maxLength")), (H (u "minimum")), (H (u "maximum")),
    (H (u "format")) by (unfold vocabulary; simpl; tauto).
  reflexivity.
Qed.

Lemma lines_along_length (printable : N -> bool) (keys : list pystr)
      (props : dict) :
  (forall v, dict_get (u "enum") props = Some v -> py_iter v <> None) ->
  List.length (lines_along printable keys props)
  = List.length (filter (fun key => dict_has key props) keys).
Proof.
  intros Henum. induction keys as [|key keys IH]; [reflexivity|].
  unfold lines_along in *. cbn [flat_map filter].
  rewrite length_app, IH. unfold dict_has.
  destruct (dict_get key props) as [v|] eqn:Hget; [|reflexivity].
  unfold line_of. destruct (str_eqb key (u "enum")) eqn:Hk.
  - apply str_eqb_eq in Hk. subst key. specialize (Henum v Hget).
    unfold obind. destruct (py_iter v); [reflexivity | contradiction].
  - reflexivity.
Qed.

Lemma line_of_nonempty (printable : N -> bool) (key : pystr) (v : json)
      (line : pystr) :
  line_of printable key v = Some line -> line <> [].
Proof.
  unfold line_of. destruct (str_eqb key (u "enum")).
  - unfold obind. destruct (py_iter v); [|discriminate].
    intros [= <-]. discriminate.
  - intros [= <-] H. apply app_eq_nil in H as [_ H]. discriminate.
Qed.

(** X9.  The constraints of a property depend on its seven vocabulary keys
    only: two property objects that agree on those keys render the same
    lines, so any other key (type, description, default, ...) is ignored.
    When the rendering succeeds there is exactly one line per vocabulary
    key present, seven at most, and the constraints string is empty
    exactly when none of the seven keys is present. *)
Theorem constraints_depend_on_vocabulary_only
        (printable : N -> bool) (props : dict) :
  (forall other : dict,
      (forall key, In key vocabulary -> dict_get key props = dict_get key other) ->
      field_constraints printable props = field_constraints printable other)
  /\ (forall (key : pystr) (v : json),
         ~ In key vocabulary ->
         field_constraints printable ((key, v) :: props)
         = field_constraints printable props)
  /\ (forall lines,
         field_constraints printable props = Ok lines ->
         List.length lines
         = List.length (filter (fun key => dict_has key props) vocabulary)
         /\ List.length lines <= 7
         /\ (constraints_str lines = []
             <-> forall key, In key vocabulary -> dict_get key props = None)).
Proof.
  split; [|split].
  - intros other H. now apply field_constraints_on_vocabulary.
  - intros key v Hout. apply field_constraints_on_vocabulary.
    intros k Hin. simpl.
    rewrite str_eqb_neq; [reflexivity|]. intros ->. contradiction.
  - intros lines Hrun.
    assert (Henum : forall v, dict_get (u "enum") props = Some v ->
                              py_iter v <> None).
    { intros v Hget Hit. revert Hrun. unfold field_constraints, enum_line.
      rewrite Hget, Hit. discriminate. }
    pose proof (field_constraints_lines printable props lines Hrun) as Hlines.
    pose proof (lines_along_length printable vocabulary props Henum) as Hlen.
    rewrite <- Hlines in Hlen.
    split; [exact Hlen|]. split.
    + rewrite Hlen.
      etransitivity; [apply filter_length_le|]. reflexivity.
    + split.
      * intros Hempty key Hin.
        assert (Hnil : lines = []).
        { destruct lines as [|l1 [|l2 rest]]; [reflexivity| |].
          - simpl in Hempty. subst l1.
            exfalso. clear Hlen.
            assert (Hin1 : In [] (lines_along printable vocabulary props))
              by (rewrite <- Hlines; now left).
            unfold lines_along in Hin1. apply in_flat_map in Hin1.
            destruct Hin1 as (k & _ & Hk).
            destruct (dict_get k props) as [v|]; [|contradiction].
            destruct (line_of printable k v) as [line|] eqn:Hline;
              [|contradiction].
            destruct Hk as [Hk|[]]. subst line.
            exact (line_of_nonempty printable k v [] Hline eq_refl).
          - exfalso. cbn [constraints_str join] in Hempty.
            apply app_eq_nil in Hempty as [_ Hempty].
            discriminate. }
        rewrite Hnil in Hlen.
        destruct (dict_get key props) as [v|] eqn:Hget; [|reflexivity].
        exfalso.
        assert (Hmem : In key (filter (fun k => dict_has k props) vocabulary)).
        { apply filter_In. split; [exact Hin|]. unfold dict_has.
          now rewrite Hget. }
        destruct (filter (fun k => dict_has k props) vocabulary);
          [contradiction | simpl in Hlen; discriminate].
      * intros Hnone.
        assert (Hfilter : filter (fun k => dict_has k props) vocabulary = []).
        { unfold vocabulary. cbn [filter]. unfold dict_has.
          rewrite !Hnone by (unfold vocabulary; simpl; tauto). reflexivity. }
        rewrite Hfilter in Hlen. destruct lines; [reflexivity | discriminate].
Qed.

(** ** The detail view *)

Lemma field_constraints_iterable (printable : N -> bool) (props : dict) :
  match dict_get (u "enum") props with
  | Some e => iterable e
  | None => true
  end = true ->
  exists lines, field_constraints printable props = Ok lines.
Proof.
  unfold field_constraints, enum_line, iterable.
  destruct (dict_get (u "enum") props) as [e|]; [|intros _; eexists; reflexivity].
  destruct (py_iter e); [intros _; eexists; reflexivity | discriminate].
Qed.

Lemma field_constraints_not_iterable (printable : N -> bool) (props : dict) :
  match dict_get (u "enum") props with
  | Some e => iterable e
  | None => true
  end = false ->
  field_constraints printable props = Raised TypeError.
Proof.
  unfold field_constraints, enum_line, iterable.
  destruct (dict_get (u "enum") props) as [e|]; [|discriminate].
  destruct (py_iter e); [discriminate | reflexivity].
Qed.

Lemma supports_in_contains (name : pystr) (v : json) :
  supports_in v = true -> exists b, py_contains_str name v = Some b.
Proof. destruct v; try discriminate; intros _; eexists; reflexivity. Qed.

Lemma not_supports_in_contains (name : pystr) (v : json) :
  supports_in v = false -> py_contains_str name v = None.
Proof. destruct v; try discriminate; reflexivity. Qed.

(** One turn of the loop succeeds exactly on a drawable property under a
    [required] value that supports the membership test. *)
Lemma definition_row_drawable (printable : N -> bool) (required_fields : json)
      (name : pystr) (v : json) (w : world) :
  drawable_property v && supports_in required_fields = true ->
  exists cells,
    definition_row printable required_fields (name, v) w
    = (Ok (Text name :: cells), w).
Proof.
  intros H. apply andb_true_iff in H as [Hprop Hreq].
  unfold drawable_property in Hprop.
  destruct v as [| | | | | |props]; try discriminate.
  apply andb_true_iff in Hprop as [Htype Henum].
  destruct (supports_in_contains name required_fields Hreq) as [b Hb].
  destruct (field_constraints_iterable printable props Henum) as [lines Hl].
  unfold definition_row. unfold_cmd. rewrite Hb, Hl. cbn [lift_result].
  unfold ret.
  destruct (as_cell (dict_get_default (u "type") (JStr (u "N/A")) props));
    [|discriminate].
  eexists. reflexivity.
Qed.

Lemma definition_row_not_drawable (printable : N -> bool)
      (required_fields : json) (name : pystr) (v : json) (w : world) :
  drawable_property v && supports_in required_fields = false ->
  exists e,
    definition_row printable required_fields (name, v) w = (Raised e, w).
Proof.
  intros H. unfold definition_row.
  destruct v as [| | | | | |props];
    try (eexists; reflexivity).
  unfold_cmd.
  destruct (supports_in required_fields) eqn:Hreq.
  - destruct (supports_in_contains name required_fields Hreq) as [b Hb].
    rewrite Hb. rewrite andb_true_r in H. unfold drawable_property in H.
    destruct (match dict_get (u "enum") props with
              | Some e => iterable e
              | None => true
              end) eqn:Henum.
    + destruct (field_constraints_iterable printable props Henum) as [lines Hl].
      rewrite Hl. cbn [lift_result]. unfold ret.
      rewrite andb_true_r in H.
      destruct (as_cell (dict_get_default (u "type") (JStr (u "N/A")) props));
        [discriminate|].
      eexists. reflexivity.
    + rewrite (field_constraints_not_iterable printable props Henum).
      eexists. reflexivity.
  - rewrite (not_supports_in_contains name required_fields Hreq).
    eexists. reflexivity.
Qed.

Lemma definition_rows_drawable (printable : N -> bool) (required_fields : json)
      (props : dict) (w : world) :
  forallb (fun field => drawable_property (snd field)) props = true ->
  (props <> [] -> supports_in required_fields = true) ->
  exists rows,
    for_each (definition_row printable required_fields) props w = (Ok rows, w)
    /\ map (fun row => nth 0 row (Text [])) rows
       = map (fun field => Text (fst field)) props.
Proof.
  induction props as [|[name v] props IH]; intros Hall Hreq.
  - exists []. split; reflexivity.
  - cbn [forallb snd] in Hall. apply andb_true_iff in Hall as [Hv Hall].
    assert (Hsup : supports_in required_fields = true)
      by (apply Hreq; discriminate).
    destruct (definition_row_drawable printable required_fields name v w)
      as [cells Hrow]; [now rewrite Hv, Hsup|].
    destruct (IH Hall (fun _ => Hsup)) as (rows & Hrows & Hnames).
    exists ((Text name :: cells) :: rows). split.
    + cbn [for_each]. unfold bind at 1. rewrite Hrow.
      unfold bind at 1. rewrite Hrows. reflexivity.
    + cbn [map nth fst]. now rewrite Hnames.
Qed.

Lemma definition_rows_not_drawable (printable : N -> bool)
      (required_fields : json) (props : dict) (w : world) :
  forallb (fun field => drawable_property (snd field)) props
  && match props with [] => true | _ => supports_in required_fields end
  = false ->
  exists e,
    for_each (definition_row printable required_fields) props w = (Raised e, w).
Proof.
  induction props as [|[name v] props IH]; intros H; [discriminate|].
  cbn [for_each]. unfold bind at 1.
  destruct (drawable_property v && supports_in required_fields) eqn:Hrow.
  - destruct (definition_row_drawable printable required_fields name v w Hrow)
      as [cells Hr].
    rewrite Hr. apply andb_true_iff in Hrow as [Hv Hsup].
    cbn [forallb snd] in H. rewrite Hv, Hsup in H. cbn [andb] in H.
    destruct IH as [e He].
    { destruct props; [|now rewrite Hsup]. cbn [forallb] in H. discriminate. }
    unfold bind at 1. rewrite He. now exists e.
  - destruct (definition_row_not_drawable printable required_fields name v w
                                          Hrow) as [e He].
    rewrite He. now exists e.
Qed.

(** X10.  The detail view of a schema gets as far as drawing its table
    exactly on a drawable schema definition: [properties] missing or an
    object whose values are objects with a string (or null, or missing)
    [type] and, if they have an [enum], an iterable one, and [required] a
    list, an object or a string as soon as there is a property.  The
    definition rows of the table name the properties in their declared
    order.  The table is shown when its strings are markup rich accepts;
    when one of them - a name, a description, a constraint such as the
    pattern [^[/a-z]+$] - reads as a closing tag, rich refuses the table,
    nothing is shown and the markup error ends the command.  On a
    definition that is not drawable - a [type] given as an array of
    types, for one - the command raises before it draws and prints
    nothing. *)
Theorem detail_view_succeeds_iff_drawable
        (R : Runtime) (schema : Schema.t) (w : world) :
  (drawable_definition (Schema.schema_definition schema) = true ->
   exists rows,
     map (fun row => nth 0 row (Text [])) rows
     = map (fun field => Text (fst field))
           (declared_properties (Schema.schema_definition schema))
     /\ let table := detail_table schema (Table None definition_columns rows) in
        (renderable_markup_error R table = false ->
         schema_detail R schema w
         = (Ok tt, {| console := console w ++ [Print table];
                      requests := requests w |}))
        /\ (renderable_markup_error R table = true ->
            schema_detail R schema w = (Raised MarkupError, w)))
  /\ (drawable_definition (Schema.schema_definition schema) = false ->
      exists e, schema_detail R schema w = (Raised e, w))
  /\ (drawable_definition (Schema.schema_definition slash_pattern_schema) = true
      /\ schema_detail canonical_runtime slash_pattern_schema start
         = (Raised MarkupError, start))
  /\ (drawable_definition (Schema.schema_definition sample_schema) = true
      /\ exists rows,
           schema_detail canonical_runtime sample_schema start
           = (Ok tt,
              {| console := [Print (detail_table sample_schema
                                      (Table None definition_columns rows))];
                 requests := [] |})
           /\ map (fun row => nth 0 row (Text [])) rows
              = [Text (u "level"); Text (u "code")]).
Proof.
  split; [|split; [|split]].
  - unfold drawable_definition, declared_properties, schema_detail.
    destruct (dict_get_default (u "properties") (JDict [])
                               (Schema.schema_definition schema))
      as [| | | | | |props]; try discriminate.
    intros H. apply andb_true_iff in H as [Hall Hreq].
    destruct (definition_rows_drawable
                (isprintable R)
                (dict_get_default (u "required") (JList [])
                                  (Schema.schema_definition schema))
                props w Hall) as (rows & Hrows & Hnames).
    { intros Hne. destruct props; [contradiction | exact Hreq]. }
    exists rows. split; [exact Hnames|]. cbn zeta.
    match goal with
    | |- (_ -> ?run = _) /\ _ =>
        assert (Hrun : run
                       = draw_then R (detail_table schema
                                        (Table None definition_columns rows)) w)
    end.
    { unfold bind at 1. unfold ret at 1. unfold bind at 1. rewrite Hrows.
      apply console_print_table_then. }
    rewrite Hrun.
    split; intros Hm;
      [now rewrite (draw_then_drawn _ _ _ Hm)
      | now rewrite (draw_then_refused _ _ _ Hm)].
  - unfold drawable_definition, schema_detail.
    destruct (dict_get_default (u "properties") (JDict [])
                               (Schema.schema_definition schema))
      as [| | | | | |props]; try (intros _; eexists; reflexivity).
    intros H.
    destruct (definition_rows_not_drawable
                (isprintable R)
                (dict_get_default (u "required") (JList [])
                                  (Schema.schema_definition schema))
                props w H) as [e He].
    exists e. unfold bind at 1. unfold ret at 1. unfold bind at 1.
    now rewrite He.
  - split; vm_compute; reflexivity.
  - split; [reflexivity|]. eexists. split; vm_compute; reflexivity.
Qed.

(** ** The two entry points side by side *)

Lemma mig_table_row_of_dump (full : bool) (s : Schema.t) (d : pystr)
      (w : world) :
  Schema.description s = Some d ->
  PythonMig.table_row full (Schema.model_dump s) w
  = (Ok (text_row (Schema.to_table_row s full)), w).
Proof.
  intros Hd. unfold PythonMig.table_row, Schema.model_dump, Schema.to_table_row.
  rewrite Hd.
  assert (Hcut : slice_to 50 (if str_truthy d then d else []) = slice_to 50 d)
    by (now destruct d).
  rewrite Hcut. destruct full; reflexivity.
Qed.

Lemma mig_table_row_of_dump_null (full : bool) (s : Schema.t) (w : world) :
  Schema.description s = None ->
  PythonMig.table_row full (Schema.model_dump s) w = (Raised TypeError, w).
Proof.
  intros Hd. unfold PythonMig.table_row, Schema.model_dump.
  rewrite Hd. destruct full; reflexivity.
Qed.

Lemma mig_rows_of_dumps (full : bool) (schemas : list Schema.t) (w : world) :
  Forall (fun s => Schema.description s <> None) schemas ->
  for_each (PythonMig.table_row full) (map Schema.model_dump schemas) w
  = (Ok (map (fun s => text_row (Schema.to_table_row s full)) schemas), w).
Proof.
  intros H. induction H as [|s schemas Hs _ IH]; [reflexivity|].
  destruct (Schema.description s) as [d|] eqn:Hd; [|contradiction].
  cbn [map for_each]. unfold bind at 1.
  rewrite (mig_table_row_of_dump full s d w Hd).
  unfold bind at 1. rewrite IH. reflexivity.
Qed.

Lemma mig_rows_of_dumps_null (full : bool) (schemas : list Schema.t)
      (w : world) :
  Exists (fun s => Schema.description s = None) schemas ->
  for_each (PythonMig.table_row full) (map Schema.model_dump schemas) w
  = (Raised TypeError, w).
Proof.
  intros H. induction schemas as [|s schemas IH]; [inversion H|].
  cbn [map for_each]. unfold bind at 1.
  destruct (Schema.description s) as [d|] eqn:Hd.
  - rewrite (mig_table_row_of_dump full s d w Hd).
    unfold bind at 1. rewrite IH; [reflexivity|].
    inversion H as [? ? Hs | ? ? Hrest]; subst; [congruence | exact Hrest].
  - now rewrite (mig_table_row_of_dump_null full s w Hd).
Qed.

Lemma validate_dumps (R : Runtime) (schemas : list Schema.t) :
  Forall (fun s => Schema.model_validate R (Schema.model_dump s) = Some s)
         schemas ->
  Forall2 (fun item s => Schema.model_validate R item = Some s)
          (map Schema.model_dump schemas) schemas.
Proof.
  intros H. induction H as [|s schemas Hs _ IH]; simpl; constructor; assumption.
Qed.

(** X11.  On a list of schemas in canonical form (each item is what
    [model_dump] gives and validates back to its schema) whose
    descriptions are all strings, the two entry points print the same
    table for [schemas list], with [--full] or without: the python-mig
    rows built from the raw items are the rows main.py builds from the
    validated schemas. *)
Theorem entry_points_agree_on_canonical_lists
        (R : Runtime) (srv : server) (full : bool) (r : response) (d : dict)
        (schemas : list Schema.t)
        (Hsrv : srv all_schemas_request = Reply r)
        (Hok : is_success r = true)
        (Hbody : json_body r = Some (JDict d))
        (Hlist : dict_get (u "schemas") d
                 = Some (JList (map Schema.model_dump schemas)))
        (Hvalid : Forall (fun s => Schema.model_validate R (Schema.model_dump s)
                                   = Some s) schemas)
        (Hdesc : Forall (fun s => Schema.description s <> None) schemas) :
  PythonMig.list_schemas R srv full false start
  = list_schemas R srv full false start.
Proof.
  destruct schemas as [|s schemas].
  - rewrite (list_schemas_nothing R srv full false r d Hsrv Hok Hbody
                                  (get_default_empty _ _ Hlist)).
    apply (mig_list_schemas_nothing R srv full false r d Hsrv Hok Hbody
                                    (get_default_empty _ _ Hlist)).
  - rewrite (list_schemas_table R srv full r d (Schema.model_dump s)
                                (map Schema.model_dump schemas) (s :: schemas)
                                Hsrv Hok Hbody Hlist
                                (validate_dumps R (s :: schemas) Hvalid)).
    unfold PythonMig.list_schemas.
    unfold bind at 1. unfold http_request at 1. rewrite Hsrv.
    unfold bind at 1. unfold raise_for_status at 1. rewrite Hok.
    unfold ret at 1. unfold bind at 1. unfold response_json, or_raise at 1.
    rewrite Hbody. unfold ret at 1. unfold bind at 1. unfold py_get.
    unfold dict_get_default. rewrite Hlist. unfold ret at 1.
    cbn [map py_truthy negb py_iter]. unfold bind at 1. unfold or_raise at 1.
    unfold ret at 1. unfold bind at 1.
    change (Schema.model_dump s :: map Schema.model_dump schemas)
      with (map Schema.model_dump (s :: schemas)).
    rewrite (mig_rows_of_dumps full (s :: schemas) _ Hdesc).
    apply console_print_table_then.
Qed.

Lemma entry_points_agree_on_canonical_lists_witness :
  Forall (fun s => Schema.model_validate canonical_runtime (Schema.model_dump s)
                   = Some s) [sample_schema]
  /\ Forall (fun s => Schema.description s <> None) [sample_schema]
  /\ PythonMig.list_schemas
       canonical_runtime
       (always (Reply (ok_response (JDict [(u "schemas",
                                            JList [sample_payload])]))))
       false false start
     = list_schemas
         canonical_runtime
         (always (Reply (ok_response (JDict [(u "schemas",
                                              JList [sample_payload])]))))
         false false start.
Proof.
  assert (Hv : Forall (fun s => Schema.model_validate canonical_runtime
                                                      (Schema.model_dump s)
                                = Some s) [sample_schema]).
  { constructor; [reflexivity | constructor]. }
  assert (Hd : Forall (fun s => Schema.description s <> None) [sample_schema]).
  { constructor; [discriminate | constructor]. }
  split; [exact Hv|]. split; [exact Hd|].
  exact (entry_points_agree_on_canonical_lists
           canonical_runtime
           (always (Reply (ok_response (JDict [(u "schemas",
                                                JList [sample_payload])]))))
           false
           (ok_response (JDict [(u "schemas", JList [sample_payload])]))
           [(u "schemas", JList [sample_payload])]
           [sample_schema] eq_refl eq_refl eq_refl eq_refl Hv Hd).
Defined.

(** X12.  The entry points part on a null description.  When one schema
    of a canonical list has no description (its item carries
    [description: null]), the python-mig [schemas list] raises a type
    error in table mode and prints nothing, since it slices the null;
    main.py gets as far as drawing its table, with an empty cell for that
    schema - the table is shown when rich accepts its strings as markup,
    and otherwise the markup error ends the command. *)
Theorem entry_points_part_on_null_description
        (R : Runtime) (srv : server) (full : bool) (r : response) (d : dict)
        (schemas : list Schema.t)
        (Hsrv : srv all_schemas_request = Reply r)
        (Hok : is_success r = true)
        (Hbody : json_body r = Some (JDict d))
        (Hlist : dict_get (u "schemas") d
                 = Some (JList (map Schema.model_dump schemas)))
        (Hvalid : Forall (fun s => Schema.model_validate R (Schema.model_dump s)
                                   = Some s) schemas)
        (Hnull : Exists (fun s => Schema.description s = None) schemas) :
  let table := Table (Some (u "Schemas")) schemas_columns
                     (map (fun s => text_row (Schema.to_table_row s full))
                          schemas) in
  PythonMig.list_schemas R srv full false start
  = (Raised TypeError, {| console := []; requests := [all_schemas_request] |})
  /\ (renderable_markup_error R table = false ->
      list_schemas R srv full false start
      = (Ok tt, {| console := [Print table];
                   requests := [all_schemas_request] |}))
  /\ (renderable_markup_error R table = true ->
      list_schemas R srv full false start
      = (Raised MarkupError,
         {| console := []; requests := [all_schemas_request] |}))
  /\ (forall s, Schema.description s = None ->
                cell4 (Schema.to_table_row s full) = []).
Proof.
  cbn zeta.
  destruct schemas as [|s schemas]; [inversion Hnull|].
  rewrite (list_schemas_table R srv full r d (Schema.model_dump s)
                              (map Schema.model_dump schemas) (s :: schemas)
                              Hsrv Hok Hbody Hlist
                              (validate_dumps R (s :: schemas) Hvalid)).
  split; [|split; [|split]].
  - unfold PythonMig.list_schemas.
    unfold bind at 1. unfold http_request at 1. rewrite Hsrv.
    unfold bind at 1. unfold raise_for_status at 1. rewrite Hok.
    unfold ret at 1. unfold bind at 1. unfold response_json, or_raise at 1.
    rewrite Hbody. unfold ret at 1. unfold bind at 1. unfold py_get.
    unfold dict_get_default. rewrite Hlist. unfold ret at 1.
    cbn [map py_truthy negb py_iter]. unfold bind at 1. unfold or_raise at 1.
    unfold ret at 1. unfold bind at 1.
    change (Schema.model_dump s :: map Schema.model_dump schemas)
      with (map Schema.model_dump (s :: schemas)).
    rewrite (mig_rows_of_dumps_null full (s :: schemas) _ Hnull).
    reflexivity.
  - intros Hm. now rewrite (draw_then_drawn _ _ _ Hm).
  - intros Hm. now rewrite (draw_then_refused _ _ _ Hm).
  - intros s0 Hs0. unfold Schema.to_table_row, cell4. now rewrite Hs0.
Qed.

Lemma entry_points_part_on_null_description_witness :
  Exists (fun s => Schema.description s = None) [undescribed_schema]
  /\ PythonMig.list_schemas
       canonical_runtime
       (always (Reply (ok_response
                         (JDict [(u "schemas",
                                  JList [Schema.model_dump undescribed_schema])]))))
       false false start
     = (Raised TypeError, {| console := []; requests := [all_schemas_request] |})
  /\ list_schemas
       canonical_runtime
       (always (Reply (ok_response
                         (JDict [(u "schemas",
                                  JList [Schema.model_dump undescribed_schema])]))))
       false false start
     = (Ok tt,
        {| console :=
             [Print (Table (Some (u "Schemas")) schemas_columns
                           [[Text (u "123e4567..."); Text (u "orders");
                             Text (u "1.0.0"); Text []]])];
           requests := [all_schemas_request] |}).
Proof.
  assert (Hn : Exists (fun s => Schema.description s = None)
                      [undescribed_schema]).
  { apply Exists_cons_hd. reflexivity. }
  assert (Hv : Forall (fun s => Schema.model_validate canonical_runtime
                                                      (Schema.model_dump s)
                                = Some s) [undescribed_schema]).
  { constructor; [reflexivity | constructor]. }
  split; [exact Hn|].
  pose proof (entry_points_part_on_null_description
                canonical_runtime
                (always (Reply (ok_response
                                  (JDict [(u "schemas",
                                           JList [Schema.model_dump
                                                    undescribed_schema])]))))
                false
                (ok_response
                   (JDict [(u "schemas",
                            JList [Schema.model_dump undescribed_schema])]))
                [(u "schemas", JList [Schema.model_dump undescribed_schema])]
                [undescribed_schema] eq_refl eq_refl eq_refl eq_refl Hv Hn)
    as (Hmig & Hmain & _).
  split; [exact Hmig|]. exact (Hmain eq_refl).
Defined.

(** ** Validation *)

Lemma model_validate_on_fields (R : Runtime) (p1 p2 : dict) :
  (forall key, In key schema_fields -> dict_get key p1 = dict_get key p2) ->
  Schema.model_validate R (JDict p1) = Schema.model_validate R (JDict p2).
Proof.
  intros H. unfold Schema.model_validate, field_with, field_str, field_opt_str,
    field_dict.
  rewrite (H (u "id")), (H (u "name")), (H (u "version")),
    (H (u "description")), (H (u "schema_definition")), (H (u "created_at")),
    (H (u "updated_at")) by (unfold schema_fields; simpl; tauto).
  reflexivity.
Qed.

(** X14.  Validation of a schema payload reads its seven fields and
    nothing else.  Payloads that agree on the seven fields validate alike;
    so a key outside the seven is ignored and the order of the keys does
    not matter.  A payload that is not an object, or lacks one of the six
    required fields, or whose name or version is not a string, does not
    validate; a missing description and a null one both validate to no
    description. *)
Theorem validation_reads_the_fields_only (R : Runtime) (p : dict) :
  (forall other : dict,
      (forall key, In key schema_fields -> dict_get key p = dict_get key other) ->
      Schema.model_validate R (JDict p) = Schema.model_validate R (JDict other))
  /\ (forall (key : pystr) (v : json),
         ~ In key schema_fields ->
         Schema.model_validate R (JDict ((key, v) :: p))
         = Schema.model_validate R (JDict p))
  /\ (forall other : dict,
         NoDup (dict_keys p) -> Permutation p other ->
         Schema.model_validate R (JDict p) = Schema.model_validate R (JDict other))
  /\ (forall key,
         In key schema_required_fields -> dict_get key p = None ->
         Schema.model_validate R (JDict p) = None)
  /\ (forall key v,
         (key = u "name" \/ key = u "version") ->
         dict_get key p = Some v -> (forall s, v <> JStr s) ->
         Schema.model_validate R (JDict p) = None)
  /\ (forall s,
         Schema.model_validate R (JDict p) = Some s ->
         (dict_get (u "description") p = None
          \/ dict_get (u "description") p = Some JNull) ->
         Schema.description s = None)
  /\ (forall v, (forall d, v <> JDict d) -> Schema.model_validate R v = None).
Proof.
  split; [|split; [|split; [|split; [|split; [|split]]]]].
  - intros other H. now apply model_validate_on_fields.
  - intros key v Hout. apply model_validate_on_fields.
    intros k Hin. simpl.
    rewrite str_eqb_neq; [reflexivity|]. intros ->. contradiction.
  - intros other Hnd Hperm. apply model_validate_on_fields.
    intros k _. now apply dict_get_perm.
  - intros key Hin Hnone.
    unfold Schema.model_validate, field_with, field_str, field_dict, obind.
    unfold schema_required_fields in Hin. simpl in Hin.
    destruct Hin as [<-|[<-|[<-|[<-|[<-|[<-|[]]]]]]]; rewrite Hnone;
      repeat match goal with
             | |- match (match ?x with _ => _ end) with _ => _ end = None =>
                 destruct x
             | |- match ?x with _ => _ end = None => destruct x
             end; reflexivity.
  - intros key v Hkey Hget Hnot.
    unfold Schema.model_validate, field_str, obind.
    destruct (field_with (validate_uuid R) (u "id") p) as [i|]; [|reflexivity].
    destruct Hkey as [-> | ->]; rewrite Hget.
    + destruct v; try reflexivity. exfalso. now apply (Hnot s).
    + destruct (dict_get (u "name") p) as [[]|]; try reflexivity.
      destruct v; try reflexivity. exfalso. now apply (Hnot s0).
  - intros s Hvalid Hdesc.
    destruct (model_validate_fields R (JDict p) s Hvalid)
      as (p' & Heq & _ & _ & _ & Hd & _).
    injection Heq as <-. unfold field_opt_str in Hd.
    destruct Hdesc as [Hn | Hn]; rewrite Hn in Hd; congruence.
  - intros v Hnot. destruct v; try reflexivity. exfalso. now apply (Hnot d).
Qed.

(** ** Options and cells *)

(** X15.  An option given as the empty string is an option left out:
    [schemas get] run with [--name ""] or [--version ""] is the run
    without that option, and [logs list ""] is [logs list] without a
    schema name, on every server and from every state. *)
Theorem empty_option_is_no_option
        (R : Runtime) (srv : server) (w : world) :
  (forall (schema_id : option UUID) (name version : option pystr) (j : bool),
      get_schema R srv schema_id name version j w
      = get_schema R srv schema_id (given name) (given version) j w)
  /\ (forall (schema_name : option pystr) (full j expand : bool) (limit : Z),
         list_logs R srv schema_name full j expand limit w
         = list_logs R srv (given schema_name) full j expand limit w).
Proof.
  split.
  - intros schema_id name version j.
    destruct schema_id as [i|], name as [[|c n]|], version as [[|c' v]|];
      reflexivity.
  - intros schema_name full j expand limit.
    destruct schema_name as [[|c n]|]; reflexivity.
Qed.

(** X16.  The cells of a list row are bounded whatever the data: the
    description of a schema row never exceeds 50 characters, the data
    preview of a log row never exceeds 53, and an identifier cell has 11
    characters without [--full] and 36 with it.  Each shortened cell
    starts as the original does. *)
Theorem row_cells_are_bounded
        (R : Runtime) (schema : Schema.t) (log : Log.t) (full : bool) :
  List.length (cell4 (Schema.to_table_row schema full)) <= 50
  /\ List.length (cell4 (Log.to_table_row R log full)) <= 53
  /\ List.length (cell1 (Schema.to_table_row schema full))
     = (if full then 36 else 11)
  /\ List.length (cell2 (Log.to_table_row R log full))
     = (if full then 36 else 11)
  /\ List.length (cell2 (Log.to_table_row_expanded log full))
     = (if full then 36 else 11)
  /\ (forall d, Schema.description schema = Some d ->
                is_prefix (cell4 (Schema.to_table_row schema full)) d = true)
  /\ is_prefix (firstn 50 (cell4 (Log.to_table_row R log full)))
               (Log.log_data_str R log) = true.
Proof.
  assert (Hprefix : forall (n : nat) (s : pystr), is_prefix (firstn n s) s = true).
  { intros n s. revert n. induction s as [|c s IH]; intros [|n]; simpl;
      try reflexivity. now rewrite N.eqb_refl, IH. }
  unfold Schema.to_table_row, Log.to_table_row, Log.to_table_row_expanded,
    cell1, cell2, cell4, slice_to.
  split; [|split; [|split; [|split; [|split; [|split]]]]].
  - rewrite length_firstn. apply Nat.le_min_l.
  - destruct (Nat.ltb 50 (List.length (Log.log_data_str R log))) eqn:E.
    + rewrite length_app, length_firstn.
      change (List.length (u "...")) with 3.
      pose proof (Nat.le_min_l 50 (List.length (Log.log_data_str R log))). lia.
    + apply Nat.ltb_ge in E. lia.
  - destruct full; reflexivity.
  - destruct full; reflexivity.
  - destruct full; reflexivity.
  - intros d ->.
    assert (Hd : (if str_truthy d then d else []) = d) by (now destruct d).
    rewrite Hd. apply Hprefix.
  - destruct (Nat.ltb 50 (List.length (Log.log_data_str R log))) eqn:E.
    + rewrite firstn_app, length_firstn.
      apply Nat.ltb_lt in E. rewrite Nat.min_l by lia.
      rewrite Nat.sub_diag, firstn_O, app_nil_r, firstn_firstn, Nat.min_id.
      apply Hprefix.
    + apply Hprefix.
Qed.

(** X17.  The short form of an identifier shows its 32 high bits and
    nothing more: it is the eight hexadecimal digits of [int >> 96]
    followed by the ellipsis, so two identifiers that agree on their 32
    high bits are drawn alike, and two schemas that differ only in the
    lower 96 bits of their ids give the same row of [schemas list]
    without [--full]. *)
Theorem short_form_shows_high_bits_only (x y : UUID) :
  short_id x = hex_fixed 8 (N.shiftr (uuid_int x) 96) ++ u "..."
  /\ (N.shiftr (uuid_int x) 96 = N.shiftr (uuid_int y) 96 ->
      short_id x = short_id y
      /\ forall s : Schema.t,
           Schema.id s = x ->
           Schema.to_table_row s false
           = Schema.to_table_row
               {| Schema.id := y;
                  Schema.name := Schema.name s;
                  Schema.version := Schema.version s;
                  Schema.description := Schema.description s;
                  Schema.schema_definition := Schema.schema_definition s;
                  Schema.created_at := Schema.created_at s;
                  Schema.updated_at := Schema.updated_at s |} false).
Proof.
  split; [apply short_id_top_bits|].
  intros Htop.
  assert (Hshort : short_id x = short_id y)
    by (now rewrite !short_id_top_bits, Htop).
  split; [exact Hshort|].
  intros s <-. unfold Schema.to_table_row. cbn [Schema.id Schema.name
    Schema.version Schema.description].
  unfold short_id in Hshort. now rewrite Hshort.
Qed.

(** ** Rows of the definition table and of the log list *)

Lemma json_eqb_str (x : json) (s : pystr) :
  json_eqb x (JStr s) = true <-> x = JStr s.
Proof.
  destruct x; simpl; try (split; discriminate).
  rewrite str_eqb_eq. split; [now intros -> | now intros [= ->]].
Qed.

Lemma contains_str_in_list (name : pystr) (l : list json) :
  existsb (fun x => json_eqb x (JStr name)) l = true <-> In (JStr name) l.
Proof.
  rewrite existsb_exists. split.
  - intros (x & Hin & Heq). apply json_eqb_str in Heq. now subst.
  - intros Hin. exists (JStr name). split; [exact Hin|].
    now apply json_eqb_str.
Qed.

(** X18.  In the definition table a field is marked as required exactly
    when its name is an element of the schema's [required] list, and its
    type cell is the declared type, or [N/A] when the property declares
    none.  (For a drawable property; the row is [name, type, mark,
    constraints].) *)
Theorem required_mark_follows_the_list
        (printable : N -> bool) (required : list json) (name : pystr)
        (props : dict) (w : world)
        (Hdraw : drawable_property (JDict props) = true) :
  exists (type_cell : renderable) (mark constraints : pystr),
    definition_row printable (JList required) (name, JDict props) w
    = (Ok [Text name; type_cell; Text mark; Text constraints], w)
    /\ (mark = required_mark <-> In (JStr name) required)
    /\ (mark = [] <-> ~ In (JStr name) required)
    /\ (dict_get (u "type") props = None -> type_cell = Text (u "N/A"))
    /\ (forall t, dict_get (u "type") props = Some (JStr t) ->
                  type_cell = Text t)
    /\ (exists lines, field_constraints printable props = Ok lines
                      /\ constraints = constraints_str lines).
Proof.
  unfold drawable_property in Hdraw.
  apply andb_true_iff in Hdraw as [Htype Henum].
  destruct (field_constraints_iterable printable props Henum) as [lines Hl].
  unfold definition_row. unfold_cmd. cbn [py_contains_str].
  rewrite Hl. cbn [lift_result]. unfold ret.
  destruct (as_cell (dict_get_default (u "type") (JStr (u "N/A")) props))
    as [cell|] eqn:Hcell; [|discriminate].
  exists cell.
  exists (if existsb (fun x => json_eqb x (JStr name)) required
          then required_mark else []).
  exists (constraints_str lines).
  split; [reflexivity|].
  pose proof (contains_str_in_list name required) as Hin.
  split; [|split; [|split; [|split]]].
  - destruct (existsb _ required).
    + split; [intros _; now apply Hin | reflexivity].
    + split; [discriminate | intros H; apply Hin in H; discriminate].
  - destruct (existsb _ required).
    + split; [discriminate | intros H; exfalso; apply H; now apply Hin].
    + split; [intros _ H; apply Hin in H; discriminate | reflexivity].
  - intros Hnone. unfold dict_get_default in Hcell. rewrite Hnone in Hcell.
    now injection Hcell as <-.
  - intros t Ht. unfold dict_get_default in Hcell. rewrite Ht in Hcell.
    now injection Hcell as <-.
  - now exists lines.
Qed.

Lemma required_mark_follows_the_list_witness :
  drawable_property (JDict prop_max_then_min) = true
  /\ exists (type_cell : renderable) (mark constraints : pystr),
       definition_row (fun _ => true) (JList [JStr (u "code")])
                      (u "code", JDict prop_max_then_min) start
       = (Ok [Text (u "code"); type_cell; Text mark; Text constraints], start)
       /\ (mark = required_mark <-> In (JStr (u "code")) [JStr (u "code")]).
Proof.
  split; [reflexivity|].
  destruct (required_mark_follows_the_list
              (fun _ => true) [JStr (u "code")] (u "code") prop_max_then_min
              start eq_refl)
    as (type_cell & mark & constraints & Hrow & Hmark & _).
  exists type_cell, mark, constraints. split; [exact Hrow | exact Hmark].
Defined.

(** X19.  [logs list] draws what the server sent, as it sent it: one row
    per item of the [logs] array, in the array's order, however the
    number of items compares with [--limit]; the client neither sorts nor
    cuts the list.  The first column holds the ids of the records in that
    order, the third their creation times as [strftime] writes them
    (the year without padding), the fourth the data preview, or with
    [--expand] the data as [json.dumps] writes it on indented lines
    ([Infinity] and [NaN] for the numbers JSON has none for).  The table is shown when rich accepts
    its strings as markup; when it refuses one - the schema name in the
    title or a data preview that reads as a closing tag - nothing is
    shown and the markup error ends the command. *)
Theorem log_rows_follow_the_response
        (R : Runtime) (srv : server) (name : pystr) (full expand : bool)
        (limit : Z) (r : response) (d : dict) (first : json)
        (rest : list json) (logs : list Log.t)
        (Hname : name <> [])
        (Hsrv : srv (logs_request name limit) = Reply r)
        (Hok : is_success r = true)
        (Hbody : json_body r = Some (JDict d))
        (Hlist : dict_get (u "logs") d = Some (JList (first :: rest)))
        (Hvalid : Forall2 (fun item l => Log.model_validate R item = Some l)
                          (first :: rest) logs) :
  let run := list_logs R srv (Some name) full false expand limit start in
  (exists t,
      List.length (table_rows t) = List.length (first :: rest)
      /\ column 0 t = map (fun l => Text (str_of_Z (Log.id l))) logs
      /\ column 2 t
         = map (fun l => Text (strftime_ymd_hms (Log.created_at l))) logs
      /\ column 3 t
         = map (fun l =>
                  if expand
                  then Syntax (json_dumps_indent2 (JDict (Log.log_data l)))
                  else Text (cell4 (Log.to_table_row R l full))) logs
      /\ (renderable_markup_error R t = false ->
          run = (Ok tt, {| console := [Print t];
                           requests := [logs_request name limit] |}))
      /\ (renderable_markup_error R t = true ->
          run = (Raised MarkupError,
                 {| console := []; requests := [logs_request name limit] |})))
  /\ strftime_ymd_hms sample_time = u "2024-01-15 10:30:00"
  /\ strftime_ymd_hms early_time = u "999-01-02 03:04:05"
  /\ json_dumps_indent2 (JDict [(u "level", JStr (u "info"));
                                (u "ratios", JList [JFloat (u "inf");
                                                    JFloat (u "-inf");
                                                    JFloat (u "nan");
                                                    JFloat (u "1.5")])])
     = u "{" ++ newline
       ++ u "  " ++ [quote2] ++ u "level" ++ [quote2] ++ u ": "
       ++ [quote2] ++ u "info" ++ [quote2] ++ u "," ++ newline
       ++ u "  " ++ [quote2] ++ u "ratios" ++ [quote2] ++ u ": [" ++ newline
       ++ u "    Infinity," ++ newline
       ++ u "    -Infinity," ++ newline
       ++ u "    NaN," ++ newline
       ++ u "    1.5" ++ newline
       ++ u "  ]" ++ newline
       ++ u "}".
Proof.
  cbn zeta.
  rewrite (list_logs_table R srv name full expand limit r d first rest logs
                           Hname Hsrv Hok Hbody Hlist Hvalid).
  split; [|repeat split; vm_compute; reflexivity].
  match goal with |- context [draw_then R ?t _] => exists t end.
  unfold column, table_rows. rewrite length_map, !map_map.
  split; [symmetry; eapply Forall2_length; exact Hvalid|].
  split; [apply map_ext; intros l; destruct expand; reflexivity|].
  split; [apply map_ext; intros l; destruct expand; reflexivity|].
  split; [apply map_ext; intros l; destruct expand; reflexivity|].
  split; intros Hm;
    [now rewrite (draw_then_drawn _ _ _ Hm)
    | now rewrite (draw_then_refused _ _ _ Hm)].
Qed.

Lemma log_rows_follow_the_response_witness :
  u "orders" <> []
  /\ Forall2 (fun item l => Log.model_validate canonical_runtime item = Some l)
             [Log.model_dump sample_log; Log.model_dump early_log]
             [sample_log; early_log]
  /\ exists t,
       list_logs canonical_runtime
                 (always (Reply (ok_response
                                   (JDict [(u "logs",
                                            JList [Log.model_dump sample_log;
                                                   Log.model_dump early_log])]))))
                 (Some (u "orders")) false false false 1 start
       = (Ok tt, {| console := [Print t];
                    requests := [logs_request (u "orders") 1] |})
       /\ List.length (table_rows t) = 2
       /\ column 0 t = [Text (u "7"); Text (u "8")]
       /\ column 2 t = [Text (u "2024-01-15 10:30:00");
                        Text (u "999-01-02 03:04:05")].
Proof.
  assert (Hn : u "orders" <> []) by discriminate.
  assert (Hv : Forall2 (fun item l => Log.model_validate canonical_runtime item
                                      = Some l)
                       [Log.model_dump sample_log; Log.model_dump early_log]
                       [sample_log; early_log]).
  { repeat constructor. }
  split; [exact Hn|]. split; [exact Hv|].
  destruct (proj1 (log_rows_follow_the_response
              canonical_runtime
              (always (Reply (ok_response
                                (JDict [(u "logs",
                                         JList [Log.model_dump sample_log;
                                                Log.model_dump early_log])]))))
              (u "orders") false false 1
              (ok_response (JDict [(u "logs",
                                    JList [Log.model_dump sample_log;
                                           Log.model_dump early_log])]))
              [(u "logs", JList [Log.model_dump sample_log;
                                 Log.model_dump early_log])]
              (Log.model_dump sample_log) [Log.model_dump early_log]
              [sample_log; early_log]
              Hn eq_refl eq_refl eq_refl eq_refl Hv))
    as (t & Hlen & Hc0 & Hc2 & _ & Hshown & Hrefused).
  exists t. split; [|split; [exact Hlen | split; [exact Hc0 | exact Hc2]]].
  destruct (renderable_markup_error canonical_runtime t) eqn:E.
  - exfalso. specialize (Hrefused eq_refl). vm_compute in Hrefused.
    discriminate.
  - exact (Hshown eq_refl).
Defined.

(** X20.  The lookup by name looks at the entry at index 0 and at no
    other: when that entry is not a schema the command ends with the
    validation error and an empty console, whatever follows it in the
    list, valid or not; it never falls back on a later entry.  A
    [schemas] value that is a non-empty object raises a key error, and
    one that is a non-zero number or [true] a type error. *)
Theorem name_lookup_has_no_fallback
        (R : Runtime) (srv : server) (n : pystr) (version : option pystr)
        (j : bool) (r : response) (d : dict)
        (Hname : n <> [])
        (Hsrv : srv (by_name_request n version) = Reply r)
        (Hok : is_success r = true)
        (Hbody : json_body r = Some (JDict d)) :
  let run := get_schema R srv None (Some n) version j start in
  let silent (e : exn) :=
    (@Raised unit e,
     {| console := []; requests := [by_name_request n version] |}) in
  (forall first rest,
      dict_get (u "schemas") d = Some (JList (first :: rest)) ->
      Schema.model_validate R first = None ->
      run = silent ValidationError)
  /\ (forall field fields,
         dict_get (u "schemas") d = Some (JDict (field :: fields)) ->
         run = silent KeyError)
  /\ (forall v,
         dict_get (u "schemas") d = Some v -> py_truthy v = true ->
         (forall l, v <> JList l) -> (forall s, v <> JStr s) ->
         (forall o, v <> JDict o) ->
         run = silent TypeError).
Proof.
  cbn zeta. destruct n as [|c n]; [contradiction|].
  unfold get_schema, lookup_by_name. cbn [str_truthy opt_truthy andb].
  split; [|split].
  - intros first rest Hlist Hbad. unfold_cmd.
    rewrite Hsrv, Hok, Hbody. unfold dict_get_default. rewrite Hlist.
    cbn [py_truthy negb py_first]. unfold_cmd. rewrite Hbad. reflexivity.
  - intros field fields Hlist. unfold_cmd.
    rewrite Hsrv, Hok, Hbody. unfold dict_get_default. rewrite Hlist.
    reflexivity.
  - intros v Hget Htrue Hl Hs Ho. unfold_cmd.
    rewrite Hsrv, Hok, Hbody. unfold dict_get_default. rewrite Hget, Htrue.
    destruct v; try reflexivity; exfalso;
      [now apply (Hs s) | now apply (Hl l) | now apply (Ho d0)].
Qed.

Lemma name_lookup_has_no_fallback_witness :
  u "orders" <> []
  /\ get_schema canonical_runtime
                (always (Reply (ok_response
                                  (JDict [(u "schemas",
                                           JList [JDict []; sample_payload])]))))
                None (Some (u "orders")) None true start
     = (Raised ValidationError,
        {| console := []; requests := [by_name_request (u "orders") None] |}).
Proof.
  assert (Hn : u "orders" <> []) by discriminate.
  split; [exact Hn|].
  exact (proj1 (name_lookup_has_no_fallback
                  canonical_runtime
                  (always (Reply (ok_response
                                    (JDict [(u "schemas",
                                             JList [JDict []; sample_payload])]))))
                  (u "orders") None true
                  (ok_response (JDict [(u "schemas",
                                        JList [JDict []; sample_payload])]))
                  [(u "schemas", JList [JDict []; sample_payload])]
                  Hn eq_refl eq_refl eq_refl)
               (JDict []) [sample_payload] eq_refl eq_refl).
Defined.
